(** * Adamant ingestion pipeline

    A shallow embedding of the two ingesters of the repository,
    [bin/webdav_ingest.py] (remote feed, insert-only-if-absent) and
    [bin/insert_data2db_win.py] (local directory, merge-write with optional
    reconciliation of deletions), and the properties of their
    synchronisation logic.

    Layout: Python values and strings, the relational store, the connection
    monad (statements, faults, transactions, trace), the two programs, and
    then the theorems. *)

From Stdlib Require Import String Ascii List ZArith Bool Arith Lia.
From Stdlib Require Import DecimalString SpecFloat OrdersEx RelationClasses.
Import ListNotations.
Local Open Scope list_scope.
Local Open Scope string_scope.

Set Warnings "-register-all".

(** ** Python strings

    A [str] is a [string] that holds its UTF-8 bytes; the functions below
    are the ones the programs call.  [lower] and [strip] are what
    [str.lower] and [str.strip] do to a string of ASCII characters, and how
    the server folds the case of a name; on any string the two are
    functions of the library, [str_lower] and [str_strip] below. *)
Module PyStr.

Fixpoint is_ascii (s : string) : bool :=
  match s with
  | EmptyString => true
  | String c t => Nat.ltb (nat_of_ascii c) 128 && is_ascii t
  end.

Definition lower_char (c : ascii) : ascii :=
  let n := nat_of_ascii c in
  if Nat.leb 65 n && Nat.leb n 90 then ascii_of_nat (n + 32) else c.

Fixpoint lower (s : string) : string :=
  match s with
  | EmptyString => EmptyString
  | String c t => String (lower_char c) (lower t)
  end.

(** [s.replace(x, "")] for a one-character [x]. *)
Fixpoint remove_char (x : ascii) (s : string) : string :=
  match s with
  | EmptyString => EmptyString
  | String c t => if Ascii.eqb c x then remove_char x t else String c (remove_char x t)
  end.

(** [s.endswith(suffix)]. *)
Definition endswith (s suffix : string) : bool :=
  Nat.leb (String.length suffix) (String.length s) &&
  String.eqb (substring (String.length s - String.length suffix) (String.length suffix) s) suffix.

(** [sub in s] for two strings. *)
Definition contains (sub s : string) : bool :=
  match String.index 0 sub s with
  | Some _ => true
  | None => false
  end.

Fixpoint has_char (x : ascii) (s : string) : bool :=
  match s with
  | EmptyString => false
  | String c t => Ascii.eqb c x || has_char x t
  end.

(** [s.rfind(x)], [None] standing for -1. *)
Fixpoint rfind (x : ascii) (s : string) : option nat :=
  match s with
  | EmptyString => None
  | String c t =>
      match rfind x t with
      | Some i => Some (S i)
      | None => if Ascii.eqb c x then Some 0 else None
      end
  end.

(** [Path(p).name] for a path whose last component is a file name: the text
    after the last separator. *)
Fixpoint path_name (p : string) : string :=
  match p with
  | EmptyString => EmptyString
  | String c t =>
      if has_char "/" t then path_name t
      else if Ascii.eqb c "/" then t else p
  end.

(** [Path(p).stem]: the name without its last suffix, pathlib's rule
    [0 < i < len(name) - 1] for the position [i] of the last dot. *)
Definition path_stem (p : string) : string :=
  let name := path_name p in
  match rfind "." name with
  | Some i =>
      if Nat.ltb 0 i && Nat.ltb i (String.length name - 1) then substring 0 i name else name
  | None => name
  end.

(** [str(n)] of an [int]. *)
Definition str_of_int (n : Z) : string := NilZero.string_of_int (Z.to_int n).

(** The white space among the ASCII characters. *)
Definition is_space (c : ascii) : bool :=
  let n := nat_of_ascii c in
  (Nat.leb 9 n && Nat.leb n 13) || (Nat.leb 28 n && Nat.leb n 32).

Fixpoint lstrip (p : ascii -> bool) (s : string) : string :=
  match s with
  | EmptyString => EmptyString
  | String c t => if p c then lstrip p t else s
  end.

Fixpoint rstrip (p : ascii -> bool) (s : string) : string :=
  match s with
  | EmptyString => EmptyString
  | String c t =>
      match rstrip p t with
      | EmptyString => if p c then EmptyString else String c EmptyString
      | r => String c r
      end
  end.

Definition strip_chars (p : ascii -> bool) (s : string) : string := rstrip p (lstrip p s).

(** [s.strip()] of an ASCII [s]. *)
Definition strip (s : string) : string := strip_chars is_space s.

(** [s.strip(x)] for a one-character ASCII [x]. *)
Definition strip_char (x : ascii) (s : string) : string := strip_chars (Ascii.eqb x) s.

(** [s.split(x)] for a one-character ASCII [x]. *)
Fixpoint split (x : ascii) (s : string) : list string :=
  match s with
  | EmptyString => [EmptyString]
  | String c t =>
      if Ascii.eqb c x then EmptyString :: split x t
      else
        match split x t with
        | h :: r => String c h :: r
        | [] => [String c EmptyString]
        end
  end.

(** [s.split(x, 1)] of an [s] that holds [x]: the text before the first
    [x] and the text after it. *)
Fixpoint split_once (x : ascii) (s : string) : string * string :=
  match s with
  | EmptyString => (EmptyString, EmptyString)
  | String c t =>
      if Ascii.eqb c x then (EmptyString, t)
      else let (k, v) := split_once x t in (String c k, v)
  end.

End PyStr.

(** ** Python dictionaries

    Insertion-ordered, keys unique: an association list that [dict_set]
    updates in place. *)
Definition pydict (V : Type) : Type := list (string * V).

Fixpoint dict_get {V} (d : pydict V) (k : string) : option V :=
  match d with
  | [] => None
  | (k', v) :: rest => if String.eqb k' k then Some v else dict_get rest k
  end.

Fixpoint dict_set {V} (k : string) (v : V) (d : pydict V) : pydict V :=
  match d with
  | [] => [(k, v)]
  | (k', v') :: rest =>
      if String.eqb k' k then (k', v) :: rest else (k', v') :: dict_set k v rest
  end.

Definition dict_contains {V} (d : pydict V) (k : string) : bool :=
  match dict_get d k with
  | Some _ => true
  | None => false
  end.

Definition dict_keys {V} (d : pydict V) : list string := map fst d.

(** ** JSON documents as Python values *)
Inductive json : Type :=
| JNull
| JBool (b : bool)
| JInt (n : Z)
| JFloat (f : spec_float)
| JStr (s : string)
| JArr (items : list json)
| JObj (members : pydict json).

(** Truth value of a Python object, as [or], [not] and [if] take it. *)
Definition py_truthy (v : json) : bool :=
  match v with
  | JNull => false
  | JBool b => b
  | JInt n => negb (Z.eqb n 0)
  | JFloat (S754_zero _) => false
  | JFloat _ => true
  | JStr s => negb (String.eqb s "")
  | JArr items => match items with [] => false | _ => true end
  | JObj members => match members with [] => false | _ => true end
  end.

(** [a or b]. *)
Definition py_or (a b : json) : json := if py_truthy a then a else b.

(** [d.get(k)]: the value or [None]. *)
Definition py_get (d : pydict json) (k : string) : json :=
  match dict_get d k with
  | Some v => v
  | None => JNull
  end.

Definition is_none (v : json) : bool :=
  match v with
  | JNull => true
  | _ => false
  end.

Definition is_container (v : json) : bool :=
  match v with
  | JArr _ | JObj _ => true
  | _ => false
  end.

(** Equality of two scalars, as the store compares cell values; a container
    never reaches a cell. *)
Definition scalar_eqb (a b : json) : bool :=
  match a, b with
  | JNull, JNull => true
  | JBool x, JBool y => Bool.eqb x y
  | JInt x, JInt y => Z.eqb x y
  | JFloat x, JFloat y => SFeqb x y
  | JStr x, JStr y => String.eqb x y
  | _, _ => false
  end.

(** ** Exceptions and results *)
Inductive exn : Type :=
| DatabaseError (msg : string)
| TransportError (msg : string)
| PythonError (msg : string).

(** [str(exc)]. *)
Definition exn_str (e : exn) : string :=
  match e with
  | DatabaseError m | TransportError m | PythonError m => m
  end.

Inductive result (A : Type) : Type :=
| Ok (a : A)
| Raise (e : exn).
Arguments Ok {A} a.
Arguments Raise {A} e.

(** [x in v] for a string [x]. *)
Definition py_in (x : string) (v : json) : result bool :=
  match v with
  | JStr s => Ok (PyStr.contains x s)
  | JArr items => Ok (existsb (fun item => scalar_eqb item (JStr x)) items)
  | JObj members => Ok (dict_contains members x)
  | _ => Raise (PythonError "TypeError: argument is not iterable")
  end.

(** ** The relational store

    A target table has its columns in the order [SHOW COLUMNS] reports them,
    the column lists of its PRIMARY and UNIQUE indexes in index order, and
    its rows, one cell per column.  Cells hold the values as the programs
    pass them (type coercion, collations and NOT NULL checks of the server
    are not part of the model; a statement the server rejects for such a
    reason is a fault of the connection, below). *)
Record table : Type := {
  columns : list string;
  uniques : list (list string);
  rows : list (list json)
}.

(** One row of [ingest_state], keyed by [path] in the store. *)
Record state_row : Type := {
  sr_etag : option string;
  sr_last_modified : option string;
  sr_schema_id : option string;
  sr_identifier : option string;
  sr_status : option string;
  sr_error : option string
}.

Record database : Type := {
  tables : pydict table;
  ingest_state : pydict state_row
}.

Module Sql.

(** [LIKE]: [%] matches any run of characters, [_] any one character, and a
    backslash takes the next pattern character literally. *)
Fixpoint like (pattern : string) : string -> bool :=
  match pattern with
  | EmptyString => fun s => match s with EmptyString => true | _ => false end
  | String "%" p =>
      fix any (s : string) : bool :=
        like p s || match s with EmptyString => false | String _ s' => any s' end
  | String "_" p => fun s => match s with EmptyString => false | String _ s' => like p s' end
  | String "\" (String c p) =>
      fun s => match s with EmptyString => false | String d s' => Ascii.eqb c d && like p s' end
  | String c p =>
      fun s => match s with EmptyString => false | String d s' => Ascii.eqb c d && like p s' end
  end.

(** A column name resolves without regard to letter case. *)
Fixpoint column_index (col : string) (cols : list string) : option nat :=
  match cols with
  | [] => None
  | c :: rest =>
      if String.eqb (PyStr.lower c) (PyStr.lower col) then Some 0
      else option_map S (column_index col rest)
  end.

Definition cell (cols : list string) (row : list json) (col : string) : json :=
  match column_index col cols with
  | Some i => nth i row JNull
  | None => JNull
  end.

(** [a = b] in a WHERE clause or an index: never true of NULL. *)
Definition eq (a b : json) : bool :=
  negb (is_none a) && negb (is_none b) && scalar_eqb a b.

(** Two rows collide on an index when they agree on each of its columns. *)
Definition same_key (cols key : list string) (r r' : list json) : bool :=
  forallb (fun c => eq (cell cols r c) (cell cols r' c)) key.

Definition conflicts (tb : table) (r r' : list json) : bool :=
  existsb (fun key => same_key (columns tb) key r r') (uniques tb).

Fixpoint find_row (p : list json -> bool) (rs : list (list json)) : option nat :=
  match rs with
  | [] => None
  | r :: rest => if p r then Some 0 else option_map S (find_row p rest)
  end.

(** The row an [ON DUPLICATE KEY UPDATE] updates: the one found through the
    first index, in index order, on which the new row collides. *)
Fixpoint duplicate_of (cols : list string) (keys : list (list string))
    (rs : list (list json)) (r : list json) : option nat :=
  match keys with
  | [] => None
  | key :: more =>
      match find_row (same_key cols key r) rs with
      | Some i => Some i
      | None => duplicate_of cols more rs r
      end
  end.

Fixpoint replace_nth {A} (i : nat) (x : A) (l : list A) : list A :=
  match l, i with
  | [], _ => []
  | _ :: t, O => x :: t
  | h :: t, S j => h :: replace_nth j x t
  end.

Fixpoint drop_nth {A} (i : nat) (l : list A) : list A :=
  match l, i with
  | [], _ => []
  | _ :: t, O => t
  | h :: t, S j => h :: drop_nth j t
  end.

Definition find_table (d : database) (t : string) : result table :=
  match dict_get (tables d) t with
  | Some tb => Ok tb
  | None => Raise (DatabaseError ("Table '" ++ t ++ "' doesn't exist"))
  end.

Definition with_rows (tb : table) (rs : list (list json)) : table :=
  {| columns := columns tb; uniques := uniques tb; rows := rs |}.

Definition set_table (d : database) (t : string) (tb : table) : database :=
  {| tables := dict_set t tb (tables d); ingest_state := ingest_state d |}.

Fixpoint same_names (a b : list string) : bool :=
  match a, b with
  | [], [] => true
  | x :: a', y :: b' => String.eqb x y && same_names a' b'
  | _, _ => false
  end.

(** The column list and the values of an INSERT are the ones of the table. *)
Definition well_shaped (tb : table) (cols : list string) (vals : list json) : bool :=
  same_names cols (columns tb) && Nat.eqb (length vals) (length cols).

(** [SHOW TABLES LIKE %s]: is there a table the pattern matches. *)
Definition show_tables_like (pattern : string) (d : database) : bool :=
  existsb (fun entry => like pattern (fst entry)) (tables d).

(** [SHOW COLUMNS FROM t]. *)
Definition show_columns (t : string) (d : database) : result (list string) :=
  match find_table d t with
  | Ok tb => Ok (columns tb)
  | Raise e => Raise e
  end.

(** [SELECT 1 FROM t WHERE col = %s LIMIT 1 FOR UPDATE]: is there a row. *)
Definition select_for_update (t col : string) (v : json) (d : database) : result bool :=
  match find_table d t with
  | Raise e => Raise e
  | Ok tb =>
      match column_index col (columns tb) with
      | None => Raise (DatabaseError ("Unknown column '" ++ col ++ "' in 'where clause'"))
      | Some i => Ok (existsb (fun r => eq (nth i r JNull) v) (rows tb))
      end
  end.

(** [INSERT INTO t (cols) VALUES (vals)]. *)
Definition insert (t : string) (cols : list string) (vals : list json)
    (d : database) : result database :=
  match find_table d t with
  | Raise e => Raise e
  | Ok tb =>
      if negb (well_shaped tb cols vals) then Raise (DatabaseError "Column list mismatch")
      else if existsb (conflicts tb vals) (rows tb) then Raise (DatabaseError "Duplicate entry")
      else Ok (set_table d t (with_rows tb (app (rows tb) [vals])))
  end.

(** [INSERT ... ON DUPLICATE KEY UPDATE c = VALUES(c)] for every column. *)
Definition insert_on_duplicate_key_update (t : string) (cols : list string)
    (vals : list json) (d : database) : result database :=
  match find_table d t with
  | Raise e => Raise e
  | Ok tb =>
      if negb (well_shaped tb cols vals) then Raise (DatabaseError "Column list mismatch")
      else
        match duplicate_of (columns tb) (uniques tb) (rows tb) vals with
        | None => Ok (set_table d t (with_rows tb (app (rows tb) [vals])))
        | Some i =>
            if existsb (conflicts tb vals) (drop_nth i (rows tb))
            then Raise (DatabaseError "Duplicate entry")
            else Ok (set_table d t (with_rows tb (replace_nth i vals (rows tb))))
        end
  end.

(** [DELETE FROM t WHERE col = %s]. *)
Definition delete (t col : string) (v : json) (d : database) : result database :=
  match find_table d t with
  | Raise e => Raise e
  | Ok tb =>
      match column_index col (columns tb) with
      | None => Raise (DatabaseError ("Unknown column '" ++ col ++ "' in 'where clause'"))
      | Some i =>
          Ok (set_table d t (with_rows tb (filter (fun r => negb (eq (nth i r JNull) v)) (rows tb))))
      end
  end.

(** [SELECT path, etag, last_modified, status FROM ingest_state WHERE path IN (...)]. *)
Definition select_state (paths : list string) (d : database) : list (string * state_row) :=
  filter (fun entry => existsb (String.eqb (fst entry)) paths) (ingest_state d).

(** [REPLACE INTO ingest_state ...]: the row of the path goes, the new one
    comes; a column the statement does not list is NULL. *)
Definition replace_state (path : string) (row : state_row) (d : database) : database :=
  {| tables := tables d;
     ingest_state :=
       app (filter (fun entry => negb (String.eqb (fst entry) path)) (ingest_state d))
         [(path, row)] |}.

End Sql.

(** ** Library functions and the outside world

    What the programs call but do not define: the serialiser, [repr] (which
    [str] is on a float, a list and a dict), [str.lower] and [str.strip],
    which know the letters and the white space of Unicode and are the
    functions of [PyStr] on a string of ASCII characters, the [/] of
    pathlib ([str(Path(a) / b)]), the URL functions and the validators of
    jsonschema, whose [iter_errors] yields violations with the path of the
    offending element. *)
Inductive path_elem : Type :=
| PKey (name : string)
| PIdx (index : Z).

Record verror : Type := {
  path : list path_elem;
  message : string
}.

Inductive validator : Type :=
| Draft4Validator
| Draft7Validator.

Record pylib : Type := {
  json_dumps : json -> string;
  py_repr : json -> string;
  str_lower : string -> string;
  lower_ascii : forall s, PyStr.is_ascii s = true -> str_lower s = PyStr.lower s;
  str_strip : string -> string;
  strip_ascii : forall s, PyStr.is_ascii s = true -> str_strip s = PyStr.strip s;
  path_join : string -> string -> string;
  url_scheme : string -> string;
  url_netloc : string -> string;
  url_path : string -> string;
  urljoin : string -> string -> string;
  iter_errors : validator -> json -> json -> result (list verror)
}.

(** One [d:response] of a PROPFIND, as [parse_propfind] returns it. *)
Record entry : Type := {
  href : string;
  etag : string;
  last_modified : string;
  content_length : string;
  is_collection : bool
}.

(** What a run meets: which statements of the connection the server fails
    (by their number on the connection), what a GET of a URL gives, the
    schema file at a path (absent, unreadable or parsed), and the PROPFIND
    listing. *)
Record world : Type := {
  db_fault : nat -> bool;
  http_get_json : string -> result json;
  schema_store : string -> option (result json);
  propfind : string -> result (list entry)
}.

(** ** The connection *)
Inductive stmt : Type :=
| ShowTablesLike (pattern : string)
| ShowColumns (t : string)
| SelectForUpdate (t column : string) (identifier : json)
| Insert (t : string) (cols : list string) (values : list json)
| InsertOnDuplicateKeyUpdate (t : string) (cols : list string) (values : list json)
| Delete (t column : string) (identifier : json)
| CreateStateTable
| SelectState (paths : list string)
| ReplaceState (path : string) (row : state_row).

Inductive event : Type :=
| Fetch (url : string)
| Exec (s : stmt)
| Commit
| Rollback.

(** [durable] is what is committed, [pending] what the open transaction
    sees; [issued] counts the statements sent, commits and rollbacks
    included; [trace] is everything the run did, oldest first. *)
Record conn : Type := {
  durable : database;
  pending : database;
  autocommit : bool;
  issued : nat;
  trace : list event
}.

Definition M (A : Type) : Type := conn -> result A * conn.

Definition ret {A} (a : A) : M A := fun c => (Ok a, c).

Definition raise {A} (e : exn) : M A := fun c => (Raise e, c).

Definition bind {A B} (m : M A) (k : A -> M B) : M B :=
  fun c =>
    match m c with
    | (Ok a, c') => k a c'
    | (Raise e, c') => (Raise e, c')
    end.

Notation "x <- m ;; k" := (bind m (fun x => k))
  (at level 61, m at next level, right associativity).
Notation "m ;; k" := (bind m (fun _ => k))
  (at level 61, right associativity).

(** [try: m except Exception as exc: ...], the handler being the caller's
    match on the result. *)
Definition attempt {A} (m : M A) : M (result A) :=
  fun c => let (r, c') := m c in (Ok r, c').

Fixpoint for_each {A} (body : A -> M unit) (l : list A) : M unit :=
  match l with
  | [] => ret tt
  | x :: rest => body x ;; for_each body rest
  end.

Definition tick (ev : event) (c : conn) : conn :=
  {| durable := durable c; pending := pending c; autocommit := autocommit c;
     issued := S (issued c); trace := app (trace c) [ev] |}.

Definition store (d : database) (c : conn) : conn :=
  {| durable := if autocommit c then d else durable c; pending := d;
     autocommit := autocommit c; issued := issued c; trace := trace c |}.

Definition server_fault : exn := DatabaseError "server fault".

Section Connection.
Variable W : world.

(** A statement that reads. *)
Definition query {A} (s : stmt) (run : database -> result A) : M A :=
  fun c =>
    let c' := tick (Exec s) c in
    if db_fault W (issued c) then (Raise server_fault, c')
    else (run (pending c), c').

(** A statement that writes. *)
Definition update (s : stmt) (run : database -> result database) : M unit :=
  fun c =>
    let c' := tick (Exec s) c in
    if db_fault W (issued c) then (Raise server_fault, c')
    else
      match run (pending c) with
      | Ok d => (Ok tt, store d c')
      | Raise e => (Raise e, c')
      end.

Definition commit : M unit :=
  fun c =>
    let c' := tick Commit c in
    if db_fault W (issued c) then (Raise server_fault, c')
    else
      (Ok tt, {| durable := pending c'; pending := pending c'; autocommit := autocommit c';
                 issued := issued c'; trace := trace c' |}).

Definition rollback : M unit :=
  fun c =>
    let c' := tick Rollback c in
    if db_fault W (issued c) then (Raise server_fault, c')
    else
      (Ok tt, {| durable := durable c'; pending := durable c'; autocommit := autocommit c';
                 issued := issued c'; trace := trace c' |}).

(** [session.get(url, timeout=30)], [raise_for_status()], [response.json()]. *)
Definition fetch (url : string) : M json :=
  fun c =>
    (http_get_json W url,
     {| durable := durable c; pending := pending c; autocommit := autocommit c;
        issued := issued c; trace := app (trace c) [Fetch url] |}).

(** [table_exists] and [get_columns], the same in both programs. *)
Definition table_exists (t : string) : M bool :=
  query (ShowTablesLike t) (fun d => Ok (Sql.show_tables_like t d)).

Definition get_columns (t : string) : M (list string) :=
  query (ShowColumns t) (Sql.show_columns t).

End Connection.

(** ** What the two programs share *)
Section Common.
Variable L : pylib.

(** [str(v)]. *)
Definition py_str (v : json) : string :=
  match v with
  | JNull => "None"
  | JBool true => "True"
  | JBool false => "False"
  | JInt n => PyStr.str_of_int n
  | JStr s => s
  | JFloat _ | JArr _ | JObj _ => py_repr L v
  end.

Definition normalize_key (key : string) : string :=
  str_lower L (PyStr.remove_char "_" key).

Fixpoint get_schema_id (data : pydict json) : option string :=
  match data with
  | [] => None
  | (key, value) :: rest =>
      if String.eqb (normalize_key key) "schemaid" then Some (py_str value)
      else get_schema_id rest
  end.

Definition normalize_value (value : json) : json :=
  if is_container value then JStr (json_dumps L value) else value.

(** [{str(k).lower(): k for k in data.keys()}]. *)
Definition data_keys (data : pydict json) : pydict string :=
  fold_left (fun acc entry => dict_set (str_lower L (fst entry)) (fst entry) acc) data [].

(** The body of the loop over the columns, in both [process_file]s. *)
Definition project_value (data : pydict json) (identifier location : json)
    (column : string) : json :=
  let key := dict_get (data_keys data) (str_lower L column) in
  let value := match key with Some k => py_get data k | None => JNull end in
  let value :=
    if is_none value then
      if String.eqb (str_lower L column) "identifier" then identifier
      else if String.eqb (str_lower L column) "documentlocation" then location
      else value
    else value in
  normalize_value value.

Definition project_values (columns : list string) (data : pydict json)
    (identifier location : json) : list json :=
  map (project_value data identifier location) columns.

End Common.

(** ** The directory ingester, [bin/insert_data2db_win.py] *)
Module Win.

(** An entry of the state snapshot [.db_ingest_state.json]. *)
Record info : Type := {
  i_table : string;
  i_identifier : json
}.

Section Program.
Variable L : pylib.
Variable W : world.

Definition process_file (file_path table : string) (identifier : json)
    (data : pydict json) : M unit :=
  found <- table_exists W table ;;
  if negb found then ret tt
  else
    columns <- get_columns W table ;;
    match columns with
    | [] => ret tt
    | _ =>
        let values := project_values L columns data identifier (JStr file_path) in
        update W (InsertOnDuplicateKeyUpdate table columns values)
          (Sql.insert_on_duplicate_key_update table columns values)
    end.

Definition delete_row (table : string) (identifier : json) : M unit :=
  columns <- get_columns W table ;;
  if negb (existsb (String.eqb "Identifier") columns)
     && negb (existsb (String.eqb "identifier") columns)
  then ret tt
  else
    let column :=
      if existsb (String.eqb "Identifier") columns then "Identifier" else "identifier" in
    update W (Delete table column identifier) (Sql.delete table column identifier).

(** [data.get("Identifier") or data.get("identifier") or file_path.stem]. *)
Definition identifier_of (data : pydict json) (file_path : string) : json :=
  py_or (py_get data "Identifier")
    (py_or (py_get data "identifier") (JStr (PyStr.path_stem file_path))).

(** One turn of the loop over [rglob("*.json")]: the file's path and what
    reading and parsing it gave ([None] when that raised).  [prev_state] is
    what the snapshot file parsed to: line 171 asks whether the path is in
    it, which raises when it is null, a boolean or a number. *)
Definition scan_file (file : string * option json) (prev_state : json)
    (current_state : pydict info) : M (pydict info) :=
  let (file_path, content) := file in
  if String.eqb (PyStr.path_name file_path) ".db_ingest_state.json" then ret current_state
  else
    match content with
    | None => ret current_state
    | Some (JObj data) =>
        match get_schema_id L data with
        | None => ret current_state
        | Some schema_id =>
            if String.eqb schema_id "" then ret current_state
            else
              let table := schema_id in
              let identifier := identifier_of data file_path in
              let current_state :=
                dict_set file_path {| i_table := table; i_identifier := identifier |}
                  current_state in
              match py_in file_path prev_state with
              | Raise exc => raise exc
              | Ok _ =>
                  _ <- attempt (process_file file_path table identifier data) ;;
                  ret current_state
              end
        end
    | Some _ => raise (PythonError "AttributeError: object has no attribute 'items'")
    end.

Fixpoint scan_files (files : list (string * option json)) (prev_state : json)
    (current_state : pydict info) : M (pydict info) :=
  match files with
  | [] => ret current_state
  | file :: rest =>
      current_state <- scan_file file prev_state current_state ;;
      scan_files rest prev_state current_state
  end.

(** [info["table"]] and [info["identifier"]] of an entry of the previous
    snapshot, [None] where one of the two raises. *)
Definition stored_row (entry : json) : option (json * json) :=
  match entry with
  | JObj members =>
      match dict_get members "table", dict_get members "identifier" with
      | Some table, Some identifier => Some (table, identifier)
      | _, _ => None
      end
  | _ => None
  end.

(** The [try] of lines 181 to 184, for one entry of the previous snapshot. *)
Definition delete_stored (entry : json) : M unit :=
  match stored_row entry with
  | Some (table, identifier) => delete_row (py_str L table) identifier
  | None => raise (PythonError "KeyError or TypeError: no table or identifier")
  end.

(** The loop over [prev_state.items()] under [if delete_missing]. *)
Definition reconcile (prev_state : pydict json) (current_state : pydict info) : M unit :=
  for_each
    (fun item : string * json =>
       if negb (dict_contains current_state (fst item)) then
         _ <- attempt (delete_stored (snd item)) ;;
         ret tt
       else ret tt)
    prev_state.

(** [run_once]: the files found, what the snapshot file of the run before
    parsed to (the empty object when it could not be read or parsed), and
    the result what is written to the snapshot file (nothing is, when the
    run raised). *)
Definition run_once (files : list (string * option json)) (prev_state : json)
    (delete_missing : bool) : M (pydict info) :=
  current_state <- scan_files files prev_state [] ;;
  (if delete_missing then
     match prev_state with
     | JObj members => reconcile members current_state
     | _ => raise (PythonError "AttributeError: object has no attribute 'items'")
     end
   else ret tt) ;;
  ret current_state.

(** What the snapshot file parses to after a run has written [state]. *)
Definition snapshot_json (state : pydict info) : json :=
  JObj (map (fun item : string * info =>
               (fst item,
                JObj [("table", JStr (i_table (snd item)));
                      ("identifier", i_identifier (snd item))]))
          state).

End Program.
End Win.

(** ** The remote-feed ingester, [bin/webdav_ingest.py] *)
Module Webdav.

Definition FILE_TYPE_IDENTIFIER : string :=
  "This is a EMPI-RF metadata File. Do not change this for crawler identification".

(** A value of the dictionary [get_state_map] builds. *)
Record prev_record : Type := {
  p_etag : option string;
  p_last_modified : option string;
  p_status : option string
}.

Definition prev_of (row : state_row) : prev_record :=
  {| p_etag := sr_etag row; p_last_modified := sr_last_modified row;
     p_status := sr_status row |}.

(** [stored == current] for a column that may hold NULL. *)
Definition column_is (stored : option string) (current : string) : bool :=
  match stored with
  | Some s => String.eqb s current
  | None => false
  end.

(** The test of line 355: [prev and prev.get("etag") == etag and
    prev.get("last_modified") == last_modified and prev.get("status") == "ok"]. *)
Definition unchanged (prev : option prev_record) (etag last_modified : string) : bool :=
  match prev with
  | None => false
  | Some p =>
      column_is (p_etag p) etag
      && column_is (p_last_modified p) last_modified
      && column_is (p_status p) "ok"
  end.

(** [e for e in entries if not e["is_collection"] and
    e["href"].lower().endswith(".json")]. *)
Definition is_json_file (L : pylib) (e : entry) : bool :=
  negb (is_collection e) && PyStr.endswith (str_lower L (href e)) ".json".

Fixpoint lstrip (x : ascii) (s : string) : string :=
  match s with
  | EmptyString => EmptyString
  | String c t => if Ascii.eqb c x then lstrip x t else s
  end.

(** [range(0, len(paths), 500)] and [paths[i:i + 500]]. *)
Fixpoint chunks (fuel : nat) (paths : list string) : list (list string) :=
  match fuel with
  | O => []
  | S fuel' =>
      match paths with
      | [] => []
      | _ => firstn 500 paths :: chunks fuel' (skipn 500 paths)
      end
  end.

(** ** Ordering violations by their path

    [sorted(..., key=lambda e: e.path)] compares two deques: the first
    position where they differ decides, by [<] of the two elements there (a
    TypeError between a key and an index), and a deque that is a proper
    prefix of the other is the smaller. *)
Definition elem_eqb (x y : path_elem) : bool :=
  match x, y with
  | PKey a, PKey b => String.eqb a b
  | PIdx i, PIdx j => Z.eqb i j
  | _, _ => false
  end.

Definition elem_lt (x y : path_elem) : result bool :=
  match x, y with
  | PKey a, PKey b =>
      Ok (match String_as_OT.compare a b with Lt => true | _ => false end)
  | PIdx i, PIdx j => Ok (Z.ltb i j)
  | _, _ => Raise (PythonError "TypeError: '<' not supported between instances of 'str' and 'int'")
  end.

Fixpoint path_lt (a b : list path_elem) : result bool :=
  match a, b with
  | [], [] => Ok false
  | [], _ :: _ => Ok true
  | _ :: _, [] => Ok false
  | x :: a', y :: b' => if elem_eqb x y then path_lt a' b' else elem_lt x y
  end.

(** A stable sort: an element goes before the first one that is not
    smaller than it. *)
Fixpoint insert_sorted (e : verror) (l : list verror) : result (list verror) :=
  match l with
  | [] => Ok [e]
  | h :: t =>
      match path_lt (path h) (path e) with
      | Raise x => Raise x
      | Ok false => Ok (e :: h :: t)
      | Ok true =>
          match insert_sorted e t with
          | Ok l' => Ok (h :: l')
          | Raise x => Raise x
          end
      end
  end.

Fixpoint sorted (errors : list verror) : result (list verror) :=
  match errors with
  | [] => Ok []
  | e :: rest =>
      match sorted rest with
      | Ok l => insert_sorted e l
      | Raise x => Raise x
      end
  end.

Section Program.
Variable L : pylib.
Variable W : world.

Definition normalize_webdav_url (url : string) : string :=
  if PyStr.endswith url "/" then url else url ++ "/".

Definition build_file_url (base_url href : string) : string :=
  if String.prefix (url_path L base_url) href
  then url_scheme L base_url ++ "://" ++ url_netloc L base_url ++ href
  else urljoin L base_url (lstrip "/" href).

Fixpoint load_chunks (cs : list (list string)) (state : pydict prev_record)
    : M (pydict prev_record) :=
  match cs with
  | [] => ret state
  | chunk :: more =>
      found <- query W (SelectState chunk) (fun d => Ok (Sql.select_state chunk d)) ;;
      load_chunks more
        (fold_left (fun st row => dict_set (fst row) (prev_of (snd row)) st) found state)
  end.

Definition get_state_map (paths : list string) : M (pydict prev_record) :=
  match paths with
  | [] => ret []
  | _ => load_chunks (chunks (length paths) paths) []
  end.

Definition ensure_state_table : M unit :=
  update W CreateStateTable (fun d => Ok d).

Definition get_identifier (data : pydict json) (fallback : string) : string :=
  py_str L (py_or (py_get data "Identifier") (py_or (py_get data "identifier") (JStr fallback))).

Definition build_validator (schema_data : json) : result validator :=
  match schema_data with
  | JObj members =>
      let schema_version :=
        match dict_get members "$schema" with Some v => v | None => JStr "" end in
      match py_in "draft-04" schema_version with
      | Ok true => Ok Draft4Validator
      | Ok false => Ok Draft7Validator
      | Raise e => Raise e
      end
  | _ => Raise (PythonError "AttributeError: object has no attribute 'get'")
  end.

(** [schema_file] is what reading and parsing the schema file gave. *)
Definition validate_payload (schema_file : result json) (payload : json)
    : result (option string) :=
  match schema_file with
  | Raise e => Raise e
  | Ok schema_data =>
      match build_validator schema_data with
      | Raise e => Raise e
      | Ok v =>
          match iter_errors L v schema_data payload with
          | Raise e => Raise e
          | Ok found =>
              match sorted found with
              | Raise e => Raise e
              | Ok [] => Ok None
              | Ok (first :: _) => Ok (Some (message first))
              end
          end
      end
  end.

Definition lift {A} (r : result A) : M A := fun c => (r, c).

(** [REPLACE INTO ingest_state (...) VALUES (...)]. *)
Definition replace_state (path : string) (row : state_row) : M unit :=
  update W (ReplaceState path row) (fun d => Ok (Sql.replace_state path row d)).

(** Lines 240 to 265 of [process_file]: the check under a row lock, and the
    insert. *)
Definition insert_if_absent (url : string) (data : pydict json) (table identifier : string)
    (columns : list string) : M (bool * string) :=
  let identifier_col :=
    if existsb (String.eqb "Identifier") columns then "Identifier" else "identifier" in
  found <- query W (SelectForUpdate table identifier_col (JStr identifier))
             (Sql.select_for_update table identifier_col (JStr identifier)) ;;
  if found then
    commit W ;;
    ret (false, "Identifier '" ++ identifier ++ "' already exists in '" ++ table ++ "'.")
  else
    let values := project_values L columns data (JStr identifier) (JStr url) in
    update W (Insert table columns values) (Sql.insert table columns values) ;;
    commit W ;;
    ret (true, "inserted").

Definition process_file (schema_dir url : string) (data : pydict json)
    (schema_id identifier : string) (allowed_schemaids : option (list string))
    : M (bool * string) :=
  if match allowed_schemaids with
     | Some allowed => negb (existsb (String.eqb schema_id) allowed)
     | None => false
     end
  then ret (false, "SchemaID '" ++ schema_id ++ "' not in allow-list.")
  else
    let schema_path := path_join L schema_dir (schema_id ++ ".json") in
    match schema_store W schema_path with
    | None => ret (false, "Schema file not found: " ++ schema_path)
    | Some schema_file =>
        validation_error <- lift (validate_payload schema_file (JObj data)) ;;
        match validation_error with
        | Some (String c msg) =>
            ret (false, "Schema validation failed: " ++ String c msg)
        | _ =>
            let table := schema_id in
            found <- table_exists W table ;;
            if negb found then ret (false, "Table '" ++ table ++ "' does not exist.")
            else
              columns <- get_columns W table ;;
              match columns with
              | [] => ret (false, "Table '" ++ table ++ "' has no columns.")
              | _ => insert_if_absent url data table identifier columns
              end
        end
    end.

Definition state_of (etag last_modified : string) (schema_id identifier : option string)
    (status : string) (error : option string) : state_row :=
  {| sr_etag := Some etag; sr_last_modified := Some last_modified;
     sr_schema_id := schema_id; sr_identifier := identifier;
     sr_status := Some status; sr_error := error |}.

(** Lines 394 to 414: the body of the [try]. *)
Definition process_and_record (schema_dir file_url : string) (data : pydict json)
    (schema_id identifier : string) (allowed_schemaids : option (list string))
    (item : entry) : M unit :=
  outcome <- process_file schema_dir file_url data schema_id identifier allowed_schemaids ;;
  let (ok, msg) := outcome : bool * string in
  let status := if ok then "ok" else "skipped" in
  replace_state (href item)
    (state_of (etag item) (last_modified item) (Some schema_id) (Some identifier) status
       (if ok then None else Some msg)) ;;
  commit W.

(** Lines 415 to 422: the [except Exception] of that [try]. *)
Definition on_processing_error (schema_id identifier : string) (item : entry) (exc : exn)
    : M unit :=
  rollback W ;;
  replace_state (href item)
    (state_of (etag item) (last_modified item) (Some schema_id) (Some identifier) "error"
       (Some (exn_str exc))) ;;
  commit W.

(** One turn of the loop over [files], lines 349 to 422. *)
Definition process_item (base_url schema_dir : string)
    (allowed_schemaids : option (list string)) (state_map : pydict prev_record)
    (item : entry) : M unit :=
  let prev := dict_get state_map (href item) in
  if unchanged prev (etag item) (last_modified item) then ret tt
  else
    let file_url := build_file_url base_url (href item) in
    response <- attempt (fetch W file_url) ;;
    match response with
    | Raise exc =>
        replace_state (href item)
          (state_of (etag item) (last_modified item) None None "error"
             (Some ("download/parse error: " ++ exn_str exc))) ;;
        commit W
    | Ok (JObj data) =>
        if negb (scalar_eqb (py_get data "FileTypeIdentifier") (JStr FILE_TYPE_IDENTIFIER))
        then
          replace_state (href item)
            (state_of (etag item) (last_modified item) None None "skipped"
               (Some "invalid FileTypeIdentifier")) ;;
          commit W
        else
          match get_schema_id L data with
          | Some (String c s) =>
              let schema_id := String c s in
              let identifier := get_identifier data (PyStr.path_stem (href item)) in
              outcome <- attempt (process_and_record schema_dir file_url data schema_id
                                    identifier allowed_schemaids item) ;;
              match outcome with
              | Ok _ => ret tt
              | Raise exc => on_processing_error schema_id identifier item exc
              end
          | _ =>
              replace_state (href item)
                (state_of (etag item) (last_modified item) None None "skipped"
                   (Some "missing SchemaID")) ;;
              commit W
          end
    | Ok _ => raise (PythonError "AttributeError: object has no attribute 'get'")
    end.

(** One cycle of [main] once the connection is open: lines 332 to 422.  A
    listing that fails ends the cycle (the caller re-raises under [--once]
    and sleeps otherwise), and so does whatever a turn of the loop lets
    escape. *)
Definition scan (base_url target_url schema_dir : string)
    (allowed_schemaids : option (list string)) : M unit :=
  ensure_state_table ;;
  commit W ;;
  entries <- lift (propfind W target_url) ;;
  let files := filter (is_json_file L) entries in
  let paths := map href files in
  state_map <- get_state_map paths ;;
  for_each (process_item base_url schema_dir allowed_schemaids state_map) files.

End Program.
End Webdav.

(** ** The projection, in the words of the specification

    The document key a column matches without regard to letter case: the
    last one in the document, when several do. *)
Definition matching_key (L : pylib) (data : pydict json) (column : string)
    : option string :=
  fold_left
    (fun found entry =>
       if String.eqb (str_lower L (fst entry)) (str_lower L column) then Some (fst entry)
       else found)
    data None.

(** The value the document holds for a column, [JNull] when it has none. *)
Definition document_value (L : pylib) (data : pydict json) (column : string) : json :=
  match matching_key L data column with
  | Some k => py_get data k
  | None => JNull
  end.

(** ** Reading a trace *)

(** The URLs fetched, oldest first. *)
Fixpoint fetched (t : list event) : list string :=
  match t with
  | [] => []
  | Fetch url :: rest => url :: fetched rest
  | _ :: rest => fetched rest
  end.

(** The rows written through INSERT or INSERT ... ON DUPLICATE KEY UPDATE,
    with their table and column list. *)
Fixpoint written (t : list event) : list (string * list string * list json) :=
  match t with
  | [] => []
  | Exec (Insert tb cols vals) :: rest => (tb, cols, vals) :: written rest
  | Exec (InsertOnDuplicateKeyUpdate tb cols vals) :: rest => (tb, cols, vals) :: written rest
  | _ :: rest => written rest
  end.

(** An action that fetches nothing. *)
Definition no_fetch {A} (m : M A) : Prop :=
  forall c, fetched (trace (snd (m c))) = fetched (trace c).

(** A connection that has just been opened on a store. *)
Definition connect (d : database) (auto : bool) : conn :=
  {| durable := d; pending := d; autocommit := auto; issued := 0; trace := [] |}.

(** ** A small concrete world, for the examples

    A library whose serialiser and [repr] are only right on the values the
    examples use and whose [lower], [strip] and path join are right on the
    ASCII names and the relative file names they use, a server that never
    fails, and the table [T1] of the scenario of the specification. *)
Module Demo.

Definition lib : pylib :=
  {| json_dumps := fun v => match v with JArr [] => "[]" | JObj [] => "{}" | _ => "[1]" end;
     py_repr := fun v => match v with JArr [] => "[]" | JObj [] => "{}" | _ => "[1]" end;
     str_lower := PyStr.lower;
     lower_ascii := fun _ _ => eq_refl;
     str_strip := PyStr.strip;
     strip_ascii := fun _ _ => eq_refl;
     path_join := fun a b => a ++ "/" ++ b;
     url_scheme := fun _ => "https";
     url_netloc := fun _ => "cloud.example";
     url_path := fun _ => "/dav/";
     urljoin := fun base ref => base ++ ref;
     iter_errors := fun _ _ _ => Ok [] |}.

Definition quiet : world :=
  {| db_fault := fun _ => false;
     http_get_json := fun _ => Raise (TransportError "404 Client Error");
     schema_store := fun _ => None;
     propfind := fun _ => Ok [] |}.

Definition T1 : table :=
  {| columns := ["Identifier"; "DocumentLocation"; "Value"]; uniques := []; rows := [] |}.

Definition store : database := {| tables := [("T1", T1)]; ingest_state := [] |}.

Definition doc : pydict json := [("SchemaID", JStr "T1"); ("Value", JInt 42)].

End Demo.

(** A feed with one document that has the marker field and no SchemaID. *)
Module DemoFeed.

Definition unrouted : pydict json :=
  [("FileTypeIdentifier", JStr Webdav.FILE_TYPE_IDENTIFIER); ("Value", JInt 1)].

Definition item : entry :=
  {| href := "/dav/EMPI-RF/b.json"; etag := "e1"; last_modified := "Mon";
     content_length := "40"; is_collection := false |}.

Definition feed : world :=
  {| db_fault := fun _ => false;
     http_get_json := fun url =>
       if String.eqb url "https://cloud.example/dav/EMPI-RF/b.json"
       then Ok (JObj unrouted) else Raise (TransportError "404 Client Error");
     schema_store := fun _ => None;
     propfind := fun _ => Ok [item] |}.

End DemoFeed.

(** Documents whose identifier fields hold falsy values. *)
Module DemoFalsy.

Definition zero_identifier : pydict json :=
  [("SchemaID", JStr "T1"); ("Identifier", JInt 0); ("Value", JInt 42)].

Definition falsy_then_truthy : pydict json :=
  [("SchemaID", JStr "T1"); ("Identifier", JInt 0); ("identifier", JStr "x")].

End DemoFalsy.

(** A feed of two entries, for the handling of database errors.  In
    [broken_download] the first entry cannot be downloaded and the server
    fails the one statement that records this; in [server_gone] both
    documents are good and the server fails every statement from the
    sixth on. *)
Module DemoFault.

Definition good : pydict json :=
  [("FileTypeIdentifier", JStr Webdav.FILE_TYPE_IDENTIFIER); ("SchemaID", JStr "T1");
   ("Value", JInt 42)].

Definition first : entry :=
  {| href := "/dav/EMPI-RF/a.json"; etag := "e1"; last_modified := "Mon";
     content_length := "40"; is_collection := false |}.

Definition second : entry :=
  {| href := "/dav/EMPI-RF/b.json"; etag := "e2"; last_modified := "Tue";
     content_length := "40"; is_collection := false |}.

Definition broken_download : world :=
  {| db_fault := fun n => Nat.eqb n 3;
     http_get_json := fun url =>
       if String.eqb url "https://cloud.example/dav/EMPI-RF/b.json"
       then Ok (JObj good) else Raise (TransportError "500 Server Error");
     schema_store := fun _ => Some (Ok (JObj []));
     propfind := fun _ => Ok [first; second] |}.

Definition server_gone : world :=
  {| db_fault := fun n => Nat.leb 5 n;
     http_get_json := fun _ => Ok (JObj good);
     schema_store := fun _ => Some (Ok (JObj []));
     propfind := fun _ => Ok [first; second] |}.

(** The same feed on a server that fails the INSERT of the first document
    only. *)
Definition failed_insert : world :=
  {| db_fault := fun n => Nat.eqb n 6;
     http_get_json := fun _ => Ok (JObj good);
     schema_store := fun _ => Some (Ok (JObj []));
     propfind := fun _ => Ok [first; second] |}.

Definition base_url : string := "https://cloud.example/dav/".
Definition target_url : string := "https://cloud.example/dav/EMPI-RF/".

End DemoFault.

(** The table of the scenario with a primary key on its Identifier. *)
Module DemoKeyed.

Definition T1 : table :=
  {| columns := ["Identifier"; "DocumentLocation"; "Value"];
     uniques := [["Identifier"]];
     rows := [[JStr "b"; JStr "/old/b.json"; JInt 7]] |}.

Definition store : database := {| tables := [("T1", T1)]; ingest_state := [] |}.

End DemoKeyed.

(** A table whose identifier column is spelled in capitals, and two files. *)
Module DemoUpper.

Definition T1 : table :=
  {| columns := ["IDENTIFIER"; "DocumentLocation"; "Value"];
     uniques := [["IDENTIFIER"]];
     rows := [] |}.

Definition store : database := {| tables := [("T1", T1)]; ingest_state := [] |}.

Definition file_a : string * option json := ("/a/a.json", Some (JObj Demo.doc)).
Definition file_b : string * option json := ("/a/b.json", Some (JObj Demo.doc)).

(** What a run returned, the empty snapshot when it raised. *)
Definition snapshot (run : result (pydict Win.info) * conn) : pydict Win.info :=
  match fst run with
  | Ok st => st
  | Raise _ => []
  end.

End DemoUpper.

(** ** Reconciliation, in the words of the specification

    No row of table [t] has [v] as its identifier, when the table is there
    and has a column spelled [Identifier] or [identifier]. *)
Definition row_gone (d : database) (t : string) (v : json) : Prop :=
  forall tb,
    dict_get (tables d) t = Some tb ->
    In "Identifier" (columns tb) \/ In "identifier" (columns tb) ->
    Forall (fun r => Sql.eq (Sql.cell (columns tb) r "identifier") v = false) (rows tb).

(** From [d] to [d'] tables keep their columns and only lose rows. *)
Definition shrinks (d d' : database) : Prop :=
  forall t tb',
    dict_get (tables d') t = Some tb' ->
    exists tb,
      dict_get (tables d) t = Some tb
      /\ columns tb' = columns tb
      /\ incl (rows tb') (rows tb).

(** ** Violations, in the words of the specification

    A location path leads into the document: a key into an object, an
    index into an array. *)
Fixpoint valid_path (p : list path_elem) (v : json) : bool :=
  match p with
  | [] => true
  | PKey k :: rest =>
      match v with
      | JObj members =>
          match dict_get members k with
          | Some child => valid_path rest child
          | None => false
          end
      | _ => false
      end
  | PIdx i :: rest =>
      match v with
      | JArr items =>
          Z.leb 0 i &&
          match nth_error items (Z.to_nat i) with
          | Some child => valid_path rest child
          | None => false
          end
      | _ => false
      end
  end.

(** The lexicographic order of location paths: keys by their characters,
    indexes by their value, a proper prefix before what extends it (and,
    to have an order on all paths, an index before a key). *)
Definition elem_compare (x y : path_elem) : comparison :=
  match x, y with
  | PKey a, PKey b => String_as_OT.compare a b
  | PIdx i, PIdx j => Z.compare i j
  | PIdx _, PKey _ => Lt
  | PKey _, PIdx _ => Gt
  end.

Fixpoint path_compare (a b : list path_elem) : comparison :=
  match a, b with
  | [], [] => Eq
  | [], _ :: _ => Lt
  | _ :: _, [] => Gt
  | x :: a', y :: b' =>
      match elem_compare x y with
      | Eq => path_compare a' b'
      | c => c
      end
  end.

(** The lexicographically-first violation: the one with the least path,
    the earliest found among those that share it. *)
Fixpoint first_by_path (errors : list verror) : option verror :=
  match errors with
  | [] => None
  | e :: rest =>
      match first_by_path rest with
      | Some m =>
          match path_compare (path m) (path e) with
          | Lt => Some m
          | _ => Some e
          end
      | None => Some e
      end
  end.

(** A document with two violations at its top level and one below. *)
Module DemoSchema.

Definition payload : json :=
  JObj [("name", JInt 5); ("tags", JArr [JStr "x"; JInt 3])].

Definition violations : list verror :=
  [ {| path := [PKey "tags"; PIdx 1]; message := "3 is not of type 'string'" |};
    {| path := [PKey "name"]; message := "5 is not of type 'string'" |};
    {| path := []; message := "'SchemaID' is a required property" |};
    {| path := []; message := "'Identifier' is a required property" |} ].

Definition lib : pylib :=
  {| json_dumps := json_dumps Demo.lib;
     py_repr := py_repr Demo.lib;
     str_lower := str_lower Demo.lib;
     lower_ascii := lower_ascii Demo.lib;
     str_strip := str_strip Demo.lib;
     strip_ascii := strip_ascii Demo.lib;
     path_join := path_join Demo.lib;
     url_scheme := url_scheme Demo.lib;
     url_netloc := url_netloc Demo.lib;
     url_path := url_path Demo.lib;
     urljoin := urljoin Demo.lib;
     iter_errors := fun _ _ _ => Ok violations |}.

End DemoSchema.


(** ** More ways to read a trace *)

(** The DELETE statements issued: table, column and identifier. *)
Fixpoint deleted (t : list event) : list (string * string * json) :=
  match t with
  | [] => []
  | Exec (Delete tb col v) :: rest => (tb, col, v) :: deleted rest
  | _ :: rest => deleted rest
  end.

(** The statements sent to the server, commits and rollbacks left out. *)
Fixpoint statements (t : list event) : list stmt :=
  match t with
  | [] => []
  | Exec s :: rest => s :: statements rest
  | _ :: rest => statements rest
  end.

(** A feed whose one document is an array. *)
Module DemoArray.

Definition feed : world :=
  {| db_fault := fun _ => false;
     http_get_json := fun _ => Ok (JArr [JInt 1; JInt 2]);
     schema_store := fun _ => None;
     propfind := fun _ => Ok [DemoFault.first; DemoFault.second] |}.

End DemoArray.

(** An action that adds nothing to what a reading [proj] of the trace shows. *)
Definition keeps {A B} (proj : list event -> list B) (m : M A) : Prop :=
  forall c, proj (trace (snd (m c))) = proj (trace c).

(** The entry a file gets in the snapshot of the directory ingester, if
    any: the decisions of [run_once] before it calls [process_file]. *)
Definition snapshot_entry (L : pylib) (file : string * option json) : option Win.info :=
  if String.eqb (PyStr.path_name (fst file)) ".db_ingest_state.json" then None
  else
    match snd file with
    | Some (JObj data) =>
        match get_schema_id L data with
        | Some (String ch s) =>
            Some {| Win.i_table := String ch s;
                    Win.i_identifier := Win.identifier_of data (fst file) |}
        | _ => None
        end
    | _ => None
    end.

(** A file that parsed to something that is not an object, and is not
    the snapshot file itself. *)
Definition not_an_object (file : string * option json) : Prop :=
  String.eqb (PyStr.path_name (fst file)) ".db_ingest_state.json" = false
  /\ exists v, snd file = Some v /\ forall members, v <> JObj members.

(** Can [x in v] be asked of [v]: it can of a string, a list and a dict. *)
Definition iterable (v : json) : bool :=
  match v with
  | JStr _ | JArr _ | JObj _ => true
  | _ => false
  end.

(** A file at which the loop of [run_once] raises: one that is not an
    object, or one that gets an entry while the previous snapshot is
    something the test of line 171 cannot be asked of. *)
Definition stops_scan (L : pylib) (prev_state : json) (file : string * option json) : Prop :=
  not_an_object file \/ (snapshot_entry L file <> None /\ iterable prev_state = false).

(** The table [t] is there with the columns [cols]. *)
Definition has_columns (d : database) (t : string) (cols : list string) : Prop :=
  exists tb, dict_get (tables d) t = Some tb /\ columns tb = cols.

(** A directory with a file that holds an array. *)
Module DemoDir.

Definition files : list (string * option json) :=
  [("/a/a.json", Some (JObj Demo.doc));
   ("/a/list.json", Some (JArr [JInt 1]));
   ("/a/b.json", Some (JObj Demo.doc))].

Definition good_files : list (string * option json) :=
  [("/a/a.json", Some (JObj Demo.doc));
   ("/a/broken.json", None);
   ("/a/.db_ingest_state.json", Some (JObj []));
   ("/a/other.json", Some (JObj [("Value", JInt 1)]));
   ("/a/nowhere.json", Some (JObj [("schema_id", JStr "Missing")]))].

End DemoDir.

(** ** Settings: the [.env] files, [db_config.json] and the allow-list *)
Module Config.

Definition dquote : ascii := ascii_of_nat 34.

(** [d.update(other)]. *)
Definition dict_update {V} (d other : pydict V) : pydict V :=
  fold_left (fun acc kv => dict_set (fst kv) (snd kv) acc) other d.

Record config : Type := {
  db_host : json;
  db_port : Z;
  db_user : json;
  db_password : json;
  db_name : json;
  webdav_url : string;
  webdav_user : string;
  webdav_password : string;
  webdav_root : string;
  schema_dir : string;
  poll_interval : Z;
  allowed_schemaids : string
}.

Definition and_then {A B} (r : result A) (k : A -> result B) : result B :=
  match r with
  | Ok a => k a
  | Raise e => Raise e
  end.

(** [db_cfg.get(key, default)] of whatever [db_config.json] holds. *)
Definition db_cfg_get (db_cfg : json) (key : string) (default : json) : result json :=
  match db_cfg with
  | JObj members =>
      Ok (match dict_get members key with Some v => v | None => default end)
  | _ => Raise (PythonError "AttributeError: object has no attribute 'get'")
  end.

(** [env.get(key, default)], the default being any value. *)
Definition env_get (env : pydict string) (key : string) (default : json) : json :=
  match dict_get env key with
  | Some s => JStr s
  | None => default
  end.

(** [env.get(key, default)], the default being a string. *)
Definition env_str (env : pydict string) (key default : string) : string :=
  match dict_get env key with
  | Some s => s
  | None => default
  end.

Section Settings.
Variable L : pylib.

(** One turn of the loop of [load_env_file]: the assignment the line
    makes, or [None] where the loop goes on to the next line. *)
Definition env_entry (line : string) : option (string * string) :=
  let line := str_strip L line in
  if String.eqb line "" || String.prefix "#" line || negb (PyStr.has_char "=" line)
  then None
  else
    let (key, value) := PyStr.split_once "=" line in
    Some (str_strip L key,
          PyStr.strip_char "'" (PyStr.strip_char dquote (str_strip L value))).

(** [file] is the lines of the file, as [splitlines] gives them, and
    [None] if there is no such file. *)
Definition load_env_file (file : option (list string)) : pydict string :=
  match file with
  | None => []
  | Some lines =>
      fold_left (fun env line =>
                   match env_entry line with
                   | Some (key, value) => dict_set key value env
                   | None => env
                   end) lines []
  end.

(** The two [env.update] of [load_config]. *)
Definition merged_env (root_env bin_env : option (list string)) : pydict string :=
  dict_update (dict_update [] (load_env_file root_env)) (load_env_file bin_env).

(** [int(x)]. *)
Variable py_int : json -> result Z.

(** [load_config] of [webdav_ingest.py].  [root_env] and [bin_env] are the
    two [.env] files, [db_cfg_file] is what reading and parsing
    [db_config.json] gave, [None] if there is no such file, and
    [default_schema_dir] is [str(repo_root / "backend" / "schemas")].  The
    default of an [env.get] is evaluated before the call. *)
Definition load_config (root_env bin_env : option (list string))
    (db_cfg_file : option (result json)) (default_schema_dir : string) : result config :=
  let env := merged_env root_env bin_env in
  and_then (match db_cfg_file with Some r => r | None => Ok (JObj []) end) (fun db_cfg =>
  and_then (db_cfg_get db_cfg "DB_HOST" (JStr "127.0.0.1")) (fun host =>
  and_then (db_cfg_get db_cfg "DB_PORT" (JInt 3306)) (fun port =>
  and_then (py_int (env_get env "DB_PORT" port)) (fun port =>
  and_then (db_cfg_get db_cfg "DB_USER" (JStr "root")) (fun user =>
  and_then (db_cfg_get db_cfg "DB_PASSWORD" (JStr "password")) (fun password =>
  and_then (db_cfg_get db_cfg "DB_NAME" (JStr "experiment_data")) (fun name =>
  and_then (py_int (env_get env "POLL_INTERVAL" (JInt 10))) (fun interval =>
  Ok {| db_host := env_get env "DB_HOST" host;
        db_port := port;
        db_user := env_get env "DB_USER" user;
        db_password := env_get env "DB_PASSWORD" password;
        db_name := env_get env "DB_NAME" name;
        webdav_url :=
          env_str env "WEBDAV_URL" "https://example.nextcloud.com/remote.php/dav/files/demo/";
        webdav_user := env_str env "WEBDAV_USER" "demo";
        webdav_password := env_str env "WEBDAV_PASSWORD" "demo_password";
        webdav_root := env_str env "WEBDAV_ROOT" "EMPI-RF";
        schema_dir := env_str env "SCHEMA_DIR" default_schema_dir;
        poll_interval := interval;
        allowed_schemaids := str_strip L (env_str env "ALLOWED_SCHEMAIDS" "") |})))))))).

(** Lines 298 to 300 of [main]: the allow-list of the setting
    [cfg["allowed_schemaids"]]. *)
Definition allow_list (setting : string) : option (list string) :=
  if String.eqb setting "" then None
  else
    Some (filter (fun s => negb (String.eqb s ""))
            (map (str_strip L) (PyStr.split "," setting))).

End Settings.

(** An [int] for the examples: integers, and strings of decimal digits. *)
Definition demo_int (v : json) : result Z :=
  match v with
  | JInt n => Ok n
  | JStr s =>
      match NilZero.int_of_string s with
      | Some d => Ok (Z.of_int d)
      | None => Raise (PythonError "ValueError: invalid literal for int()")
      end
  | _ => Raise (PythonError "TypeError: int() argument must be a string or a number")
  end.

End Config.

(** * Properties *)

(** ** Dictionaries and lists *)

Lemma dict_get_set {V} (k x : string) (v : V) (d : pydict V) :
  dict_get (dict_set k v d) x = if String.eqb k x then Some v else dict_get d x.
Proof.
  induction d as [|[k' v'] rest IH]; simpl.
  - reflexivity.
  - destruct (String.eqb k' k) eqn:Hk; simpl.
    + apply String.eqb_eq in Hk. subst k'.
      destruct (String.eqb k x); reflexivity.
    + destruct (String.eqb k' x) eqn:Hx.
      * apply String.eqb_eq in Hx. subst k'.
        rewrite String.eqb_sym in Hk. rewrite Hk. reflexivity.
      * exact IH.
Qed.

Lemma dict_get_set_same {V} (k : string) (v : V) (d : pydict V) :
  dict_get (dict_set k v d) k = Some v.
Proof. rewrite dict_get_set, String.eqb_refl. reflexivity. Qed.

Lemma dict_get_In {V} (d : pydict V) (k : string) (v : V) :
  dict_get d k = Some v -> In (k, v) d.
Proof.
  induction d as [|[k' v'] rest IH]; simpl; [discriminate|].
  destruct (String.eqb k' k) eqn:Hk.
  - apply String.eqb_eq in Hk. intros [= ->]. subst. now left.
  - intros H. right. auto.
Qed.

Lemma dict_get_none_keys {V} (d : pydict V) (k : string) :
  ~ In k (dict_keys d) -> dict_get d k = None.
Proof.
  unfold dict_keys. induction d as [|[k' v'] rest IH]; simpl; [reflexivity|].
  intros H. destruct (String.eqb k' k) eqn:Hk.
  - apply String.eqb_eq in Hk. tauto.
  - apply IH. tauto.
Qed.

Lemma dict_set_keys_incl {V} (k : string) (v : V) (d : pydict V) (x : string) :
  In x (dict_keys (dict_set k v d)) -> x = k \/ In x (dict_keys d).
Proof.
  unfold dict_keys. induction d as [|[k' v'] rest IH]; simpl.
  - intros [H|[]]. now left.
  - destruct (String.eqb k' k) eqn:Hk; simpl.
    + intros [H|H]; [right; now left | right; now right].
    + intros [H|H]; [right; now left|]. destruct (IH H); [now left | right; now right].
Qed.

Lemma existsb_eqb_In (x : string) (l : list string) :
  existsb (String.eqb x) l = true <-> In x l.
Proof.
  rewrite existsb_exists. split.
  - intros (y & Hy & E). apply String.eqb_eq in E. now subst.
  - intros H. exists x. split; [exact H | apply String.eqb_refl].
Qed.

(** A pattern without wildcards matches itself, here the one of the scenario. *)
Lemma show_tables_like_T1 (d : database) (tb : table) :
  dict_get (tables d) "T1" = Some tb -> Sql.show_tables_like "T1" d = true.
Proof.
  unfold Sql.show_tables_like. intros H. apply dict_get_In in H.
  apply existsb_exists. exists ("T1", tb). split; [exact H | reflexivity].
Qed.

Lemma duplicate_of_empty (cols : list string) (keys : list (list string)) (r : list json) :
  Sql.duplicate_of cols keys [] r = None.
Proof. induction keys as [|k more IH]; simpl; auto. Qed.

(** ** One step of the connection *)
Section Steps.
Variable W : world.

Lemma query_ok {A} (s : stmt) (run : database -> result A) (c : conn) :
  db_fault W (issued c) = false ->
  query W s run c = (run (pending c), tick (Exec s) c).
Proof. unfold query. intros ->. reflexivity. Qed.

Lemma query_fault {A} (s : stmt) (run : database -> result A) (c : conn) :
  db_fault W (issued c) = true ->
  query W s run c = (Raise server_fault, tick (Exec s) c).
Proof. unfold query. intros ->. reflexivity. Qed.

Lemma update_ok (s : stmt) (run : database -> result database) (c : conn) (d : database) :
  db_fault W (issued c) = false -> run (pending c) = Ok d ->
  update W s run c = (Ok tt, store d (tick (Exec s) c)).
Proof. unfold update. intros -> ->. reflexivity. Qed.

Lemma update_trace (s : stmt) (run : database -> result database) (c : conn) :
  trace (snd (update W s run c)) = (trace c ++ [Exec s])%list
  /\ issued (snd (update W s run c)) = S (issued c).
Proof.
  unfold update. destruct (db_fault W (issued c)); simpl; [auto|].
  destruct (run (pending c)); simpl; auto.
Qed.

End Steps.

(** ** Running the monad *)

Lemma bind_run {A B} (m : M A) (k : A -> M B) (c : conn) :
  bind m k c
  = match fst (m c) with
    | Ok a => k a (snd (m c))
    | Raise e => (Raise e, snd (m c))
    end.
Proof. unfold bind. destruct (m c) as [[a|e] c']; reflexivity. Qed.

Lemma attempt_run {A} (m : M A) (c : conn) :
  attempt m c = (Ok (fst (m c)), snd (m c)).
Proof. unfold attempt. destruct (m c); reflexivity. Qed.

Lemma bind_attempt {A B} (m : M A) (k : result A -> M B) (c : conn) :
  bind (attempt m) k c = k (fst (m c)) (snd (m c)).
Proof. rewrite bind_run, attempt_run. reflexivity. Qed.

Lemma bind_ok {A B} (m : M A) (k : A -> M B) (c c' : conn) (a : A) :
  m c = (Ok a, c') -> bind m k c = k a c'.
Proof. unfold bind. intros ->. reflexivity. Qed.

Lemma bind_raise {A B} (m : M A) (k : A -> M B) (c c' : conn) (e : exn) :
  m c = (Raise e, c') -> bind m k c = (Raise e, c').
Proof. unfold bind. intros ->. reflexivity. Qed.

(** ** The merge-write policy, step by step *)
Section WinSteps.
Variable L : pylib.
Variable W : world.

(** With the table there and its columns read, [process_file] comes down to
    its one write. *)
Lemma win_process_file_writes (file_path t : string) (identifier : json)
    (data : pydict json) (c : conn) (tb : table) :
  db_fault W (issued c) = false ->
  db_fault W (S (issued c)) = false ->
  Sql.show_tables_like t (pending c) = true ->
  dict_get (tables (pending c)) t = Some tb ->
  columns tb <> [] ->
  let values := project_values L (columns tb) data identifier (JStr file_path) in
  Win.process_file L W file_path t identifier data c
  = update W (InsertOnDuplicateKeyUpdate t (columns tb) values)
      (Sql.insert_on_duplicate_key_update t (columns tb) values)
      (tick (Exec (ShowColumns t)) (tick (Exec (ShowTablesLike t)) c)).
Proof.
  intros H0 H1 Hlike Htb Hne values. unfold Win.process_file.
  rewrite (bind_ok _ _ c (tick (Exec (ShowTablesLike t)) c) true).
  2:{ unfold table_exists. rewrite query_ok by exact H0. now rewrite Hlike. }
  change (negb true) with false. cbv iota.
  rewrite (bind_ok _ _ _ (tick (Exec (ShowColumns t)) (tick (Exec (ShowTablesLike t)) c))
             (columns tb)).
  2:{ unfold get_columns. rewrite query_ok by exact H1.
      unfold Sql.show_columns, Sql.find_table. simpl pending. now rewrite Htb. }
  destruct (columns tb) eqn:E; [congruence | reflexivity].
Qed.

(** A document with a SchemaID is entered in the snapshot and processed;
    what processing raises is printed and dropped. *)
Lemma win_scan_file_processed (file_path : string) (data : pydict json)
    (prev_state : json) (seen : bool) (st : pydict Win.info) (c : conn) (schema_id : string) :
  String.eqb (PyStr.path_name file_path) ".db_ingest_state.json" = false ->
  get_schema_id L data = Some schema_id ->
  schema_id <> "" ->
  py_in file_path prev_state = Ok seen ->
  let identifier := Win.identifier_of data file_path in
  Win.scan_file L W (file_path, Some (JObj data)) prev_state st c
  = (Ok (dict_set file_path {| Win.i_table := schema_id; Win.i_identifier := identifier |} st),
     snd (Win.process_file L W file_path schema_id identifier data c)).
Proof.
  intros Hname Hid Hne Hseen identifier. unfold Win.scan_file. rewrite Hname, Hid, Hseen.
  destruct (String.eqb schema_id "") eqn:E.
  - apply String.eqb_eq in E. contradiction.
  - rewrite bind_attempt. reflexivity.
Qed.

(** A snapshot that is null, a boolean or a number makes the turn of a
    document with a SchemaID raise, before anything is sent. *)
Lemma win_scan_file_raises (file_path : string) (data : pydict json)
    (prev_state : json) (exc : exn) (st : pydict Win.info) (c : conn) (schema_id : string) :
  String.eqb (PyStr.path_name file_path) ".db_ingest_state.json" = false ->
  get_schema_id L data = Some schema_id ->
  schema_id <> "" ->
  py_in file_path prev_state = Raise exc ->
  Win.scan_file L W (file_path, Some (JObj data)) prev_state st c = (Raise exc, c).
Proof.
  intros Hname Hid Hne Hseen. unfold Win.scan_file. rewrite Hname, Hid, Hseen.
  destruct (String.eqb schema_id "") eqn:E.
  - apply String.eqb_eq in E. contradiction.
  - reflexivity.
Qed.

(** The names of the scenario are ASCII: the library lower-cases them as
    [PyStr.lower] does. *)
Lemma demo_doc_schema_id : get_schema_id L Demo.doc = Some "T1".
Proof.
  unfold Demo.doc. cbn [get_schema_id]. unfold normalize_key.
  rewrite (lower_ascii L) by reflexivity. reflexivity.
Qed.

Lemma demo_doc_row (identifier location : json) :
  project_values L ["Identifier"; "DocumentLocation"; "Value"] Demo.doc identifier location
  = [normalize_value L identifier; normalize_value L location; JInt 42].
Proof.
  unfold project_values, project_value, data_keys, Demo.doc. cbn [map fold_left fst].
  rewrite !(lower_ascii L) by reflexivity. reflexivity.
Qed.

End WinSteps.

(** ** The scenario of the merge-write policy *)

(** C9. Merge-write mode, a table [T1] with the columns (Identifier,
    DocumentLocation, Value), and the document
    [{"SchemaID": "T1", "Value": 42}] found at [/a/b.json]: when the server
    fails no statement, the run checks the table, reads its columns and
    issues one INSERT ... ON DUPLICATE KEY UPDATE whose row is
    [("b", "/a/b.json", 42)], the Identifier being the stem of the file name
    and the DocumentLocation the path; into an empty table, that row is what
    the table then holds.  This is so whatever the snapshot of the run
    before holds, as long as it is an object, an array or a string, which
    the test of line 171 needs. *)
Theorem merge_write_scenario (L : pylib) (W : world) (c : conn) (tb : table)
    (prev_state : json) (seen : bool) :
  (forall n, db_fault W n = false) ->
  dict_get (tables (pending c)) "T1" = Some tb ->
  columns tb = ["Identifier"; "DocumentLocation"; "Value"] ->
  py_in "/a/b.json" prev_state = Ok seen ->
  let row := [JStr "b"; JStr "/a/b.json"; JInt 42] in
  let run := Win.run_once L W [("/a/b.json", Some (JObj Demo.doc))] prev_state false c in
  fst run = Ok [("/a/b.json", {| Win.i_table := "T1"; Win.i_identifier := JStr "b" |})]
  /\ trace (snd run)
     = (trace c ++ [Exec (ShowTablesLike "T1"); Exec (ShowColumns "T1");
                    Exec (InsertOnDuplicateKeyUpdate "T1" (columns tb) row)])%list
  /\ (rows tb = [] ->
      dict_get (tables (pending (snd run))) "T1" = Some (Sql.with_rows tb [row])).
Proof.
  intros Hq Htb Hcols Hseen row run.
  assert (Hlike := show_tables_like_T1 _ _ Htb).
  assert (Hrun : run
    = (Ok [("/a/b.json", {| Win.i_table := "T1"; Win.i_identifier := JStr "b" |})],
       snd (update W (InsertOnDuplicateKeyUpdate "T1" (columns tb) row)
              (Sql.insert_on_duplicate_key_update "T1" (columns tb) row)
              (tick (Exec (ShowColumns "T1")) (tick (Exec (ShowTablesLike "T1")) c))))).
  { subst run. unfold Win.run_once, Win.scan_files.
    rewrite (bind_ok _ _ c _ _ (bind_ok _ _ c _ _
               (win_scan_file_processed L W "/a/b.json" Demo.doc prev_state seen [] c "T1"
                  eq_refl (demo_doc_schema_id L) ltac:(discriminate) Hseen))).
    rewrite (win_process_file_writes L W _ _ _ _ c tb (Hq _) (Hq _) Hlike Htb)
      by (rewrite Hcols; discriminate).
    rewrite Hcols, demo_doc_row. reflexivity. }
  rewrite Hrun. cbn [fst snd]. split; [reflexivity|]. split.
  - rewrite (proj1 (update_trace W _ _ _)). cbn [tick trace].
    rewrite <- !app_assoc. reflexivity.
  - intros Hr. unfold update. cbn [tick issued pending]. rewrite Hq.
    unfold Sql.insert_on_duplicate_key_update, Sql.find_table. rewrite Htb.
    unfold Sql.well_shaped. rewrite Hcols. cbn [Sql.same_names String.eqb Ascii.eqb Bool.eqb andb length Nat.eqb negb row].
    rewrite Hr, duplicate_of_empty. cbn. apply dict_get_set_same.
Qed.

Lemma merge_write_scenario_witness :
  let run := Win.run_once Demo.lib Demo.quiet [("/a/b.json", Some (JObj Demo.doc))] (JObj [])
               false (connect Demo.store true) in
  trace (snd run)
  = [Exec (ShowTablesLike "T1"); Exec (ShowColumns "T1");
     Exec (InsertOnDuplicateKeyUpdate "T1" ["Identifier"; "DocumentLocation"; "Value"]
             [JStr "b"; JStr "/a/b.json"; JInt 42])]
  /\ dict_get (tables (pending (snd run))) "T1"
     = Some (Sql.with_rows Demo.T1 [[JStr "b"; JStr "/a/b.json"; JInt 42]]).
Proof.
  pose proof (merge_write_scenario Demo.lib Demo.quiet (connect Demo.store true) Demo.T1
                (JObj []) false (fun _ => eq_refl) eq_refl eq_refl eq_refl) as H.
  destruct H as (_ & Ht & Hr). split; [exact Ht | exact (Hr eq_refl)].
Defined.

(** ** Reading traces *)

Lemma fetched_app (a b : list event) : fetched (a ++ b) = (fetched a ++ fetched b)%list.
Proof.
  induction a as [|ev a IH]; simpl; [reflexivity|].
  destruct ev; simpl; rewrite IH; reflexivity.
Qed.

Lemma written_app (a b : list event) : written (a ++ b) = (written a ++ written b)%list.
Proof.
  induction a as [|ev a IH]; simpl; [reflexivity|].
  destruct ev as [u|s| |]; simpl; try exact IH.
  destruct s; simpl; rewrite IH; reflexivity.
Qed.

(** ** Routing *)

Lemma get_schema_id_spec (L : pylib) (data : pydict json) :
  match get_schema_id L data with
  | Some s =>
      exists before key value after,
        data = (before ++ (key, value) :: after)%list
        /\ Forall (fun kv => str_lower L (PyStr.remove_char "_" (fst kv)) <> "schemaid") before
        /\ str_lower L (PyStr.remove_char "_" key) = "schemaid"
        /\ s = py_str L value
  | None =>
      Forall (fun kv => str_lower L (PyStr.remove_char "_" (fst kv)) <> "schemaid") data
  end.
Proof.
  induction data as [|[key value] rest IH]; simpl.
  - constructor.
  - unfold normalize_key. destruct (String.eqb _ "schemaid") eqn:E.
    + apply String.eqb_eq in E. exists [], key, value, rest. simpl. auto.
    + apply String.eqb_neq in E. destruct (get_schema_id L rest) as [s|].
      * destruct IH as (before & k & v & after & -> & Hb & Hk & Hs).
        exists ((key, value) :: before), k, v, after. simpl. auto.
      * constructor; assumption.
Qed.

(** C5. SchemaID extraction goes through the keys of the document in
    their order, strips the underscores of each and lower-cases it, and
    returns [str] of the value of the first key that then reads [schemaid].
    When no key does, nothing is written for the document: the directory
    ingester passes over the file, and the remote ingester, having fetched
    it, records it as skipped with the message [missing SchemaID] and
    issues no INSERT. *)
Theorem schema_id_first_match (L : pylib) (W : world) (data : pydict json) :
  match get_schema_id L data with
  | Some s =>
      exists before key value after,
        data = (before ++ (key, value) :: after)%list
        /\ Forall (fun kv => str_lower L (PyStr.remove_char "_" (fst kv)) <> "schemaid") before
        /\ str_lower L (PyStr.remove_char "_" key) = "schemaid"
        /\ s = py_str L value
  | None =>
      Forall (fun kv => str_lower L (PyStr.remove_char "_" (fst kv)) <> "schemaid") data
  end
  /\ (get_schema_id L data = None ->
      (forall file_path prev_state st c,
          Win.scan_file L W (file_path, Some (JObj data)) prev_state st c = (Ok st, c))
      /\ (forall base_url schema_dir allowed state_map item c,
            Webdav.unchanged (dict_get state_map (href item)) (etag item) (last_modified item)
            = false ->
            http_get_json W (Webdav.build_file_url L base_url (href item)) = Ok (JObj data) ->
            py_get data "FileTypeIdentifier" = JStr Webdav.FILE_TYPE_IDENTIFIER ->
            let c' := snd (Webdav.process_item L W base_url schema_dir allowed state_map item c) in
            trace c'
            = (trace c
               ++ Fetch (Webdav.build_file_url L base_url (href item))
               :: Exec (ReplaceState (href item)
                          (Webdav.state_of (etag item) (last_modified item) None None
                             "skipped" (Some "missing SchemaID")))
               :: (if db_fault W (issued c) then [] else [Commit]))%list
            /\ written (trace c') = written (trace c))).
Proof.
  split; [apply get_schema_id_spec|].
  intros Hnone. split.
  - intros file_path prev_state st c. unfold Win.scan_file. rewrite Hnone.
    destruct (String.eqb _ _); reflexivity.
  - intros base_url schema_dir allowed state_map item c Hun Hget Hmark c'.
    assert (Hc' : trace c'
            = (trace c
               ++ Fetch (Webdav.build_file_url L base_url (href item))
               :: Exec (ReplaceState (href item)
                          (Webdav.state_of (etag item) (last_modified item) None None
                             "skipped" (Some "missing SchemaID")))
               :: (if db_fault W (issued c) then [] else [Commit]))%list).
    { subst c'. unfold Webdav.process_item. rewrite Hun, bind_attempt.
      unfold fetch at 1. cbn [fst]. rewrite Hget, Hmark.
      unfold Webdav.FILE_TYPE_IDENTIFIER at 1. cbn [scalar_eqb].
      rewrite String.eqb_refl. cbn [negb]. rewrite Hnone.
      unfold fetch, Webdav.replace_state, bind, update, commit. cbn [snd issued tick pending].
      destruct (db_fault W (issued c)); cbn.
      - rewrite <- app_assoc. reflexivity.
      - destruct (db_fault W (S (issued c))); cbn; rewrite <- !app_assoc; reflexivity. }
    split; [exact Hc'|].
    rewrite Hc', written_app. cbn.
    destruct (db_fault W (issued c)); cbn; apply app_nil_r.
Qed.

Lemma schema_id_first_match_witness :
  get_schema_id Demo.lib DemoFeed.unrouted = None
  /\ trace (snd (Webdav.process_item Demo.lib DemoFeed.feed "https://cloud.example/dav/" "schemas"
                   None [] DemoFeed.item (connect Demo.store false)))
     = [Fetch "https://cloud.example/dav/EMPI-RF/b.json";
        Exec (ReplaceState "/dav/EMPI-RF/b.json"
                (Webdav.state_of "e1" "Mon" None None "skipped" (Some "missing SchemaID")));
        Commit].
Proof.
  split; [reflexivity|].
  exact (proj1 (proj2 (proj2 (schema_id_first_match Demo.lib DemoFeed.feed DemoFeed.unrouted)
                         eq_refl)
                  "https://cloud.example/dav/" "schemas" None [] DemoFeed.item
                  (connect Demo.store false) eq_refl eq_refl eq_refl)).
Defined.

(** ** The column projection *)

Lemma data_keys_fold (L : pylib) (data : pydict json) (acc : pydict string) (x : string) :
  dict_get
    (fold_left (fun acc entry => dict_set (str_lower L (fst entry)) (fst entry) acc) data acc) x
  = fold_left
      (fun found entry =>
         if String.eqb (str_lower L (fst entry)) x then Some (fst entry) else found)
      data (dict_get acc x).
Proof.
  revert acc. induction data as [|[k v] rest IH]; intros acc; simpl.
  - reflexivity.
  - rewrite IH, dict_get_set. reflexivity.
Qed.

Lemma data_keys_get (L : pylib) (data : pydict json) (column : string) :
  dict_get (data_keys L data) (str_lower L column) = matching_key L data column.
Proof. unfold data_keys, matching_key. rewrite data_keys_fold. reflexivity. Qed.

Lemma matching_key_acc (L : pylib) (data : pydict json) (x : string) (acc : option string) :
  let step := fun (found : option string) (entry : string * json) =>
                if String.eqb (str_lower L (fst entry)) x then Some (fst entry) else found in
  (Forall (fun kv => str_lower L (fst kv) <> x) data -> fold_left step data acc = acc)
  /\ (forall k, fold_left step data acc = Some k ->
        acc = Some k \/ (In k (dict_keys data) /\ str_lower L k = x)).
Proof.
  intros step. revert acc. induction data as [|[k0 v0] rest IH]; intros acc; simpl.
  - split; auto.
  - destruct (IH (step acc (k0, v0))) as [IH1 IH2]. split.
    + intros HF. inversion HF as [|? ? Hk Hr]; subst. rewrite IH1 by assumption.
      unfold step. simpl in *. apply String.eqb_neq in Hk. now rewrite Hk.
    + intros k Hk. destruct (IH2 k Hk) as [H|[H1 H2]].
      * unfold step in H. simpl in H.
        destruct (String.eqb (str_lower L k0) x) eqn:E.
        -- injection H as <-. apply String.eqb_eq in E. right. split; [now left | exact E].
        -- now left.
      * right. split; [now right | exact H2].
Qed.

(** No key of the document matches the column: it has no matching key; and
    a matching key is a key of the document that reads like the column. *)
Lemma matching_key_spec (L : pylib) (data : pydict json) (column : string) :
  (Forall (fun kv => str_lower L (fst kv) <> str_lower L column) data ->
   matching_key L data column = None)
  /\ (forall k, matching_key L data column = Some k ->
        In k (dict_keys data) /\ str_lower L k = str_lower L column).
Proof.
  destruct (matching_key_acc L data (str_lower L column) None) as [H1 H2]. split.
  - exact H1.
  - intros k Hk. destruct (H2 k Hk) as [H|H]; [discriminate | exact H].
Qed.

Lemma project_value_spec (L : pylib) (data : pydict json) (identifier location : json)
    (column : string) :
  project_value L data identifier location column
  = normalize_value L
      (match document_value L data column with
       | JNull =>
           if String.eqb (str_lower L column) "identifier" then identifier
           else if String.eqb (str_lower L column) "documentlocation" then location
           else JNull
       | v => v
       end).
Proof.
  unfold project_value, document_value. rewrite data_keys_get.
  destruct (matching_key L data column) as [k|]; [|reflexivity].
  destruct (py_get data k); reflexivity.
Qed.

Lemma normalize_value_scalar (L : pylib) (v : json) :
  is_container (normalize_value L v) = false.
Proof. unfold normalize_value. destruct v; reflexivity. Qed.

(** What [process_file] of the directory ingester writes is the projection
    on the columns the table has at that moment. *)
Lemma win_process_file_written (L : pylib) (W : world) (file_path t : string)
    (identifier : json) (data : pydict json) (c : conn) :
  let c' := snd (Win.process_file L W file_path t identifier data c) in
  written (trace c') = written (trace c)
  \/ exists cols,
       Sql.show_columns t (pending c) = Ok cols
       /\ written (trace c')
          = (written (trace c)
             ++ [(t, cols, project_values L cols data identifier (JStr file_path))])%list.
Proof.
  unfold Win.process_file, bind, table_exists, get_columns, query, update.
  destruct (db_fault W (issued c)) eqn:F0; cbn.
  { left. now rewrite written_app, app_nil_r. }
  destruct (Sql.show_tables_like t (pending c)); cbn.
  2:{ left. now rewrite written_app, app_nil_r. }
  destruct (db_fault W (S (issued c))) eqn:F1; cbn.
  { left. now rewrite !written_app, !app_nil_r. }
  destruct (Sql.show_columns t (pending c)) as [cols|e] eqn:Hc; cbn.
  2:{ left. now rewrite !written_app, !app_nil_r. }
  destruct cols as [|col cols]; cbn.
  { left. now rewrite !written_app, !app_nil_r. }
  right. exists (col :: cols). split; [reflexivity|].
  destruct (db_fault W (S (S (issued c)))); cbn.
  - rewrite !written_app. cbn. now rewrite !app_nil_r.
  - destruct (Sql.insert_on_duplicate_key_update _ _ _ _); cbn;
      rewrite !written_app; cbn; now rewrite !app_nil_r.
Qed.

(** And so is what the insert of the remote ingester writes. *)
Lemma webdav_insert_written (L : pylib) (W : world) (url t identifier : string)
    (data : pydict json) (cols : list string) (c : conn) :
  let c' := snd (Webdav.insert_if_absent L W url data t identifier cols c) in
  written (trace c') = written (trace c)
  \/ written (trace c')
     = (written (trace c)
        ++ [(t, cols, project_values L cols data (JStr identifier) (JStr url))])%list.
Proof.
  unfold Webdav.insert_if_absent, bind, query, update, commit.
  destruct (db_fault W (issued c)) eqn:F0; cbn.
  { left. now rewrite written_app, app_nil_r. }
  destruct (Sql.select_for_update _ _ _ _) as [[|]|e]; cbn.
  - left. destruct (db_fault W (S (issued c))); cbn;
      rewrite !written_app; cbn; now rewrite !app_nil_r.
  - right. destruct (db_fault W (S (issued c))); cbn.
    + rewrite !written_app. cbn. now rewrite !app_nil_r.
    + destruct (Sql.insert _ _ _ _); cbn.
      * destruct (db_fault W (S (S (issued c)))); cbn;
          rewrite !written_app; cbn; now rewrite !app_nil_r.
      * rewrite !written_app. cbn. now rewrite !app_nil_r.
  - left. now rewrite written_app, app_nil_r.
Qed.

(** ** The identifier of a document *)

(** C10, as stated, fails.  A document at [/a/b.json] whose [Identifier] is
    0: its identifier is the stem [b], and this is what the snapshot
    records, yet the row written holds 0 in the column Identifier, the
    default fill applying to an absent or null value only.  And a falsy
    [Identifier] next to a truthy [identifier] gives the latter, not the
    stem. *)
Lemma falsy_identifier_counterexample :
  let run := Win.run_once Demo.lib Demo.quiet
               [("/a/b.json", Some (JObj DemoFalsy.zero_identifier))] (JObj []) false
               (connect Demo.store true) in
  fst run = Ok [("/a/b.json", {| Win.i_table := "T1"; Win.i_identifier := JStr "b" |})]
  /\ written (trace (snd run))
     = [("T1", ["Identifier"; "DocumentLocation"; "Value"],
         [JInt 0; JStr "/a/b.json"; JInt 42])]
  /\ Webdav.get_identifier Demo.lib DemoFalsy.zero_identifier "b" = "b"
  /\ written (trace (snd (Webdav.insert_if_absent Demo.lib Demo.quiet
                            "https://cloud.example/a/b.json" DemoFalsy.zero_identifier "T1" "b"
                            ["Identifier"; "DocumentLocation"; "Value"]
                            (connect Demo.store false))))
     = [("T1", ["Identifier"; "DocumentLocation"; "Value"],
         [JInt 0; JStr "https://cloud.example/a/b.json"; JInt 42])]
  /\ Webdav.get_identifier Demo.lib DemoFalsy.falsy_then_truthy "b" = "x".
Proof. repeat split. Qed.

(** ** Actions that fetch nothing *)

Lemma no_fetch_ret {A} (a : A) : no_fetch (ret a).
Proof. intros c. reflexivity. Qed.

Lemma no_fetch_raise {A} (e : exn) : no_fetch (@raise A e).
Proof. intros c. reflexivity. Qed.

Lemma no_fetch_lift {A} (r : result A) : no_fetch (Webdav.lift r).
Proof. intros c. reflexivity. Qed.

Lemma no_fetch_bind {A B} (m : M A) (k : A -> M B) :
  no_fetch m -> (forall a, no_fetch (k a)) -> no_fetch (bind m k).
Proof.
  intros Hm Hk c. rewrite bind_run. specialize (Hm c).
  destruct (m c) as [[a|e] c1]; cbn [fst snd] in *.
  - rewrite (Hk a c1). exact Hm.
  - exact Hm.
Qed.

Lemma no_fetch_attempt {A} (m : M A) : no_fetch m -> no_fetch (attempt m).
Proof. intros Hm c. rewrite attempt_run. apply Hm. Qed.

Lemma no_fetch_query {A} (W : world) (s : stmt) (run : database -> result A) :
  no_fetch (query W s run).
Proof.
  intros c. unfold query. destruct (db_fault W (issued c)); cbn;
    rewrite fetched_app; apply app_nil_r.
Qed.

Lemma no_fetch_update (W : world) (s : stmt) (run : database -> result database) :
  no_fetch (update W s run).
Proof.
  intros c. unfold update. destruct (db_fault W (issued c)); cbn.
  - rewrite fetched_app. apply app_nil_r.
  - destruct (run (pending c)); cbn; rewrite fetched_app; apply app_nil_r.
Qed.

Lemma no_fetch_commit (W : world) : no_fetch (commit W).
Proof.
  intros c. unfold commit. destruct (db_fault W (issued c)); cbn;
    rewrite fetched_app; apply app_nil_r.
Qed.

Lemma no_fetch_rollback (W : world) : no_fetch (rollback W).
Proof.
  intros c. unfold rollback. destruct (db_fault W (issued c)); cbn;
    rewrite fetched_app; apply app_nil_r.
Qed.

Ltac no_fetch_step :=
  first
    [ apply no_fetch_ret | apply no_fetch_raise | apply no_fetch_lift
    | apply no_fetch_query | apply no_fetch_update | apply no_fetch_commit
    | apply no_fetch_rollback
    | apply no_fetch_attempt
    | apply no_fetch_bind; [|intros ?]
    | match goal with
      | |- no_fetch (match ?x with _ => _ end) => destruct x
      end ].

Ltac no_fetch_auto := repeat no_fetch_step.

Lemma no_fetch_replace_state (W : world) (p : string) (row : state_row) :
  no_fetch (Webdav.replace_state W p row).
Proof. unfold Webdav.replace_state. no_fetch_auto. Qed.

Lemma no_fetch_process_file (L : pylib) (W : world) (schema_dir url : string)
    (data : pydict json) (schema_id identifier : string) (allowed : option (list string)) :
  no_fetch (Webdav.process_file L W schema_dir url data schema_id identifier allowed).
Proof.
  unfold Webdav.process_file, Webdav.insert_if_absent, table_exists, get_columns.
  no_fetch_auto.
Qed.

Lemma no_fetch_process_and_record (L : pylib) (W : world) (schema_dir url : string)
    (data : pydict json) (schema_id identifier : string) (allowed : option (list string))
    (item : entry) :
  no_fetch (Webdav.process_and_record L W schema_dir url data schema_id identifier allowed item).
Proof.
  unfold Webdav.process_and_record.
  apply no_fetch_bind; [apply no_fetch_process_file|]. intros [ok msg].
  apply no_fetch_bind; [apply no_fetch_replace_state|]. intros _. apply no_fetch_commit.
Qed.

Lemma no_fetch_on_processing_error (W : world) (schema_id identifier : string)
    (item : entry) (exc : exn) :
  no_fetch (Webdav.on_processing_error W schema_id identifier item exc).
Proof.
  unfold Webdav.on_processing_error.
  apply no_fetch_bind; [apply no_fetch_rollback|]. intros _.
  apply no_fetch_bind; [apply no_fetch_replace_state|]. intros _. apply no_fetch_commit.
Qed.

(** ** Change detection *)

Lemma column_is_true (stored : option string) (current : string) :
  Webdav.column_is stored current = true <-> stored = Some current.
Proof.
  unfold Webdav.column_is. destruct stored as [s|].
  - rewrite String.eqb_eq. split; [now intros -> | now intros [= ->]].
  - split; discriminate.
Qed.

Lemma unchanged_spec (prev : option Webdav.prev_record) (etag last_modified : string) :
  Webdav.unchanged prev etag last_modified = true
  <-> exists p, prev = Some p
        /\ Webdav.p_etag p = Some etag
        /\ Webdav.p_last_modified p = Some last_modified
        /\ Webdav.p_status p = Some "ok".
Proof.
  unfold Webdav.unchanged. destruct prev as [p|].
  - rewrite !andb_true_iff, !column_is_true. split.
    + intros [[H1 H2] H3]. exists p. auto.
    + intros (p' & [= <-] & H1 & H2 & H3). auto.
  - split; [discriminate | intros (p & H & _); discriminate].
Qed.

Lemma process_item_fetches (L : pylib) (W : world) (base_url schema_dir : string)
    (allowed : option (list string)) (state_map : pydict Webdav.prev_record)
    (item : entry) (c : conn) :
  Webdav.unchanged (dict_get state_map (href item)) (etag item) (last_modified item) = false ->
  fetched (trace (snd (Webdav.process_item L W base_url schema_dir allowed state_map item c)))
  = (fetched (trace c) ++ [Webdav.build_file_url L base_url (href item)])%list.
Proof.
  intros Hun. unfold Webdav.process_item. rewrite Hun, bind_attempt.
  set (url := Webdav.build_file_url L base_url (href item)).
  set (c1 := snd (fetch W url c)).
  assert (H1 : fetched (trace c1) = (fetched (trace c) ++ [url])%list).
  { subst c1. unfold fetch. cbn. rewrite fetched_app. reflexivity. }
  rewrite <- H1.
  assert (Hrec : forall p row, no_fetch (Webdav.replace_state W p row ;; commit W)).
  { intros p row. apply no_fetch_bind; [apply no_fetch_replace_state|].
    intros _. apply no_fetch_commit. }
  destruct (fst (fetch W url c)) as [data|exc]; [|apply Hrec].
  destruct data; try reflexivity.
  destruct (negb _); [apply Hrec|].
  destruct (get_schema_id L members) as [[|ch s]|]; try apply Hrec.
  rewrite bind_attempt.
  match goal with
  | |- context [Webdav.process_and_record ?l ?w ?d ?u ?m ?s ?i ?a ?it c1] =>
      pose proof (no_fetch_process_and_record l w d u m s i a it c1) as Hp;
      destruct (Webdav.process_and_record l w d u m s i a it c1) as [[u0|exc] c2]
  end; cbn [fst snd] in *.
  - exact Hp.
  - rewrite no_fetch_on_processing_error. exact Hp.
Qed.

(** ** The state map *)

Lemma chunks_cover (fuel : nat) (paths : list string) :
  length paths <= fuel -> concat (Webdav.chunks fuel paths) = paths.
Proof.
  revert paths. induction fuel as [|fuel IH]; intros paths Hlen.
  - destruct paths; [reflexivity | inversion Hlen].
  - destruct paths as [|p rest]; [reflexivity|].
    change (Webdav.chunks (S fuel) (p :: rest))
      with (firstn 500 (p :: rest) :: Webdav.chunks fuel (skipn 500 (p :: rest))).
    cbn [concat]. rewrite IH.
    + apply firstn_skipn.
    + rewrite length_skipn. cbn [length] in *. lia.
Qed.

Lemma dict_get_app {V} (l1 l2 : pydict V) (k : string) :
  dict_get (l1 ++ l2)%list k
  = match dict_get l1 k with
    | Some v => Some v
    | None => dict_get l2 k
    end.
Proof.
  induction l1 as [|[k' v] l1 IH]; simpl; [reflexivity|].
  destruct (String.eqb k' k); [reflexivity | exact IH].
Qed.

Lemma dict_get_rev {V} (l : pydict V) (k : string) :
  NoDup (dict_keys l) -> dict_get (rev l) k = dict_get l k.
Proof.
  unfold dict_keys. induction l as [|[k' v] l IH]; simpl; [reflexivity|].
  intros Hnd. inversion Hnd as [|? ? Hnotin Hnd']; subst.
  rewrite dict_get_app, (IH Hnd'). simpl.
  destruct (String.eqb k' k) eqn:E.
  - apply String.eqb_eq in E. subst k'.
    now rewrite (dict_get_none_keys l k Hnotin).
  - destruct (dict_get l k); reflexivity.
Qed.

Lemma dict_get_filter_keys {V} (g : string -> bool) (l : pydict V) (k : string) :
  dict_get (filter (fun entry => g (fst entry)) l) k
  = if g k then dict_get l k else None.
Proof.
  induction l as [|[k' v] l IH]; simpl.
  - now destruct (g k).
  - destruct (g k') eqn:G; simpl.
    + destruct (String.eqb k' k) eqn:E.
      * apply String.eqb_eq in E. subst k'. now rewrite G.
      * exact IH.
    + destruct (String.eqb k' k) eqn:E.
      * apply String.eqb_eq in E. subst k'. now rewrite IH, G.
      * exact IH.
Qed.

Lemma filter_keys_nodup {V} (g : string * V -> bool) (l : pydict V) :
  NoDup (dict_keys l) -> NoDup (dict_keys (filter g l)).
Proof.
  unfold dict_keys. induction l as [|[k v] l IH]; simpl; [constructor|].
  intros Hnd. inversion Hnd as [|? ? Hnotin Hnd']; subst.
  destruct (g (k, v)); simpl; [|now apply IH].
  constructor; [|now apply IH].
  intros Hin. apply Hnotin. apply in_map_iff in Hin. destruct Hin as (e & He & Hf).
  apply filter_In in Hf. apply in_map_iff. exists e. tauto.
Qed.

(** The rows of a chunk entered in the dictionary, one after the other. *)
Lemma enter_rows (found : pydict state_row) (st : pydict Webdav.prev_record) (k : string) :
  dict_get
    (fold_left (fun st row => dict_set (fst row) (Webdav.prev_of (snd row)) st) found st) k
  = match dict_get (rev found) k with
    | Some r => Some (Webdav.prev_of r)
    | None => dict_get st k
    end.
Proof.
  revert st. induction found as [|[k' r] found IH]; intros st; simpl; [reflexivity|].
  rewrite IH, dict_get_app, dict_get_set. simpl.
  destruct (dict_get (rev found) k); [reflexivity|].
  destruct (String.eqb k' k); reflexivity.
Qed.

Section StateMap.
Variable W : world.

(** What the store holds for a path, as the state map will show it. *)
Let stored (d : database) (p : string) : option Webdav.prev_record :=
  option_map Webdav.prev_of (dict_get (ingest_state d) p).

Lemma load_chunks_lookup (cs : list (list string)) (st m : pydict Webdav.prev_record)
    (c c' : conn) :
  NoDup (dict_keys (ingest_state (pending c))) ->
  (forall p, dict_get st p = None \/ dict_get st p = stored (pending c) p) ->
  Webdav.load_chunks W cs st c = (Ok m, c') ->
  pending c' = pending c
  /\ (forall p, dict_get m p = None \/ dict_get m p = stored (pending c) p)
  /\ (forall p, dict_get st p = stored (pending c) p -> dict_get m p = stored (pending c) p)
  /\ (forall p, In p (concat cs) -> dict_get m p = stored (pending c) p).
Proof.
  intros Hnd Hst0 Hrun0.
  assert (Hgen : forall cs st c0 c',
            pending c0 = pending c ->
            (forall p, dict_get st p = None \/ dict_get st p = stored (pending c) p) ->
            Webdav.load_chunks W cs st c0 = (Ok m, c') ->
            pending c' = pending c
            /\ (forall p, dict_get m p = None \/ dict_get m p = stored (pending c) p)
            /\ (forall p, dict_get st p = stored (pending c) p ->
                          dict_get m p = stored (pending c) p)
            /\ (forall p, In p (concat cs) -> dict_get m p = stored (pending c) p)).
  { clear Hst0 Hrun0. intros cs0.
    induction cs0 as [|chunk more IH]; intros st0 c0 c'0 Hp Hst Hrun.
    - cbn in Hrun. injection Hrun as <- <-. repeat split; auto. intros p [].
    - cbn [Webdav.load_chunks] in Hrun. rewrite bind_run in Hrun.
      unfold query in Hrun at 1 2. destruct (db_fault W (issued c0)); [discriminate|].
      cbn [fst snd] in Hrun.
      set (st1 := fold_left _ _ st0) in Hrun.
      assert (Hst1 : forall p,
                dict_get st1 p
                = if existsb (String.eqb p) chunk
                  then match dict_get (ingest_state (pending c)) p with
                       | Some r => Some (Webdav.prev_of r)
                       | None => dict_get st0 p
                       end
                  else dict_get st0 p).
      { intros p. subst st1. rewrite enter_rows. unfold Sql.select_state.
        rewrite dict_get_rev by (apply filter_keys_nodup; rewrite Hp; exact Hnd).
        rewrite (dict_get_filter_keys (fun k => existsb (String.eqb k) chunk)), Hp.
        destruct (existsb (String.eqb p) chunk); reflexivity. }
      assert (Hinv1 : forall p, dict_get st1 p = None \/ dict_get st1 p = stored (pending c) p).
      { intros p. rewrite Hst1. destruct (existsb (String.eqb p) chunk); [|apply Hst].
        specialize (Hst p). unfold stored in *.
        destruct (dict_get (ingest_state (pending c)) p); [now right | exact Hst]. }
      assert (Hkeep : forall p, dict_get st0 p = stored (pending c) p ->
                                dict_get st1 p = stored (pending c) p).
      { intros p Hp0. rewrite Hst1. destruct (existsb (String.eqb p) chunk); [|exact Hp0].
        unfold stored in *. destruct (dict_get (ingest_state (pending c)) p); auto. }
      destruct (IH st1 (tick (Exec (SelectState chunk)) c0) c'0 Hp Hinv1 Hrun)
        as (Hp' & Hinv & Hmono & Hcov).
      repeat split; auto.
      intros p Hin. cbn [concat] in Hin. apply in_app_or in Hin. destruct Hin as [Hin|Hin].
      + apply Hmono. rewrite Hst1.
        replace (existsb (String.eqb p) chunk) with true
          by (symmetry; now apply existsb_eqb_In).
        unfold stored. destruct (dict_get (ingest_state (pending c)) p) eqn:E; [reflexivity|].
        destruct (Hst p) as [H|H]; [exact H|]. unfold stored in H. now rewrite E in H.
      + now apply Hcov. }
  exact (Hgen cs st c c' eq_refl Hst0 Hrun0).
Qed.

(** The state map of a scan shows, for every path listed, the record the
    store holds for it. *)
Lemma get_state_map_lookup (paths : list string) (m : pydict Webdav.prev_record)
    (c c' : conn) :
  NoDup (dict_keys (ingest_state (pending c))) ->
  Webdav.get_state_map W paths c = (Ok m, c') ->
  forall p, In p paths ->
    dict_get m p = option_map Webdav.prev_of (dict_get (ingest_state (pending c)) p).
Proof.
  intros Hnd Hrun p Hin. unfold Webdav.get_state_map in Hrun.
  destruct paths as [|p0 rest]; [contradiction|].
  destruct (load_chunks_lookup _ [] m c c' Hnd (fun _ => or_introl eq_refl) Hrun)
    as (_ & _ & _ & Hcov).
  apply Hcov. rewrite chunks_cover by apply le_n. exact Hin.
Qed.

End StateMap.

(** C1. An entry is passed over without a fetch exactly when the state map
    has a record for its path whose etag and last_modified are the entry's
    and whose status is [ok]; the turn of the loop then does nothing at
    all.  Any other entry, one with a matching record of status [error] or
    [skipped] included, is fetched, once, at the URL built from its href.
    Over a scan that runs to its end the fetches are those of the entries
    that are not passed over, in order.  And the state map a scan builds
    shows, for every path listed, the record the store holds for it. *)
Theorem unchanged_entries_skip_fetch (L : pylib) (W : world) (base_url schema_dir : string)
    (allowed : option (list string)) (state_map : pydict Webdav.prev_record) :
  let skip := fun item : entry =>
    Webdav.unchanged (dict_get state_map (href item)) (etag item) (last_modified item) in
  let step := Webdav.process_item L W base_url schema_dir allowed state_map in
  (forall item,
      skip item = true
      <-> exists p, dict_get state_map (href item) = Some p
            /\ Webdav.p_etag p = Some (etag item)
            /\ Webdav.p_last_modified p = Some (last_modified item)
            /\ Webdav.p_status p = Some "ok")
  /\ (forall item c,
        if skip item then step item c = (Ok tt, c)
        else fetched (trace (snd (step item c)))
             = (fetched (trace c) ++ [Webdav.build_file_url L base_url (href item)])%list)
  /\ (forall files c c',
        for_each step files c = (Ok tt, c') ->
        fetched (trace c')
        = (fetched (trace c)
           ++ map (fun item => Webdav.build_file_url L base_url (href item))
                (filter (fun item => negb (skip item)) files))%list)
  /\ (forall paths c m c',
        NoDup (dict_keys (ingest_state (pending c))) ->
        Webdav.get_state_map W paths c = (Ok m, c') ->
        forall p, In p paths ->
          dict_get m p = option_map Webdav.prev_of (dict_get (ingest_state (pending c)) p)).
Proof.
  intros skip step. split; [|split; [|split]].
  4:{ intros paths c m c'. apply get_state_map_lookup. }
  - intros item. apply unchanged_spec.
  - intros item c. destruct (skip item) eqn:E.
    + subst step skip. unfold Webdav.process_item. cbv beta in E. rewrite E. reflexivity.
    + apply process_item_fetches. exact E.
  - induction files as [|item rest IH]; intros c c' Hrun.
    + cbn in Hrun. injection Hrun as <-. cbn. now rewrite app_nil_r.
    + cbn [for_each] in Hrun. rewrite bind_run in Hrun.
      destruct (step item c) as [[[]|e] c1] eqn:Hstep; cbn [fst snd] in Hrun; [|discriminate].
      rewrite (IH c1 c' Hrun). cbn [filter].
      destruct (skip item) eqn:E; cbn [negb map].
      * subst step skip. unfold Webdav.process_item in Hstep. cbv beta in E.
        rewrite E in Hstep. injection Hstep as <-. reflexivity.
      * pose proof (process_item_fetches L W base_url schema_dir allowed state_map item c E)
          as Hf.
        fold step in Hf. rewrite Hstep in Hf. cbn [snd] in Hf. rewrite Hf, <- app_assoc.
        reflexivity.
Qed.

Lemma unchanged_entries_skip_fetch_witness :
  fetched (trace (snd (Webdav.scan Demo.lib DemoFault.failed_insert DemoFault.base_url
                         DemoFault.target_url "schemas" None (connect Demo.store false))))
  = ["https://cloud.example/dav/EMPI-RF/a.json"; "https://cloud.example/dav/EMPI-RF/b.json"]
  /\ Webdav.process_item Demo.lib DemoFault.failed_insert DemoFault.base_url "schemas" None
       [("/dav/EMPI-RF/a.json",
         {| Webdav.p_etag := Some "e1"; Webdav.p_last_modified := Some "Mon";
            Webdav.p_status := Some "ok" |})]
       DemoFault.first (connect Demo.store false)
     = (Ok tt, connect Demo.store false).
Proof.
  split; [reflexivity|].
  exact (proj1 (proj2 (unchanged_entries_skip_fetch Demo.lib DemoFault.failed_insert
                         DemoFault.base_url "schemas" None
                         [("/dav/EMPI-RF/a.json",
                           {| Webdav.p_etag := Some "e1"; Webdav.p_last_modified := Some "Mon";
                              Webdav.p_status := Some "ok" |})]))
           DemoFault.first (connect Demo.store false)).
Defined.

(** ** The insert-only-if-absent policy *)

(** A document that is allowed, has its schema, passes validation and
    whose table is there with columns reaches the write step. *)
Lemma webdav_process_file_reaches_write (L : pylib) (W : world) (schema_dir url : string)
    (data : pydict json) (schema_id identifier : string) (allowed : option (list string))
    (c : conn) (schema_file : result json) (cols : list string) :
  match allowed with
  | Some l => existsb (String.eqb schema_id) l = true
  | None => True
  end ->
  schema_store W (path_join L schema_dir (schema_id ++ ".json")) = Some schema_file ->
  Webdav.validate_payload L schema_file (JObj data) = Ok None ->
  db_fault W (issued c) = false ->
  db_fault W (S (issued c)) = false ->
  Sql.show_tables_like schema_id (pending c) = true ->
  Sql.show_columns schema_id (pending c) = Ok cols ->
  cols <> [] ->
  Webdav.process_file L W schema_dir url data schema_id identifier allowed c
  = Webdav.insert_if_absent L W url data schema_id identifier cols
      (tick (Exec (ShowColumns schema_id)) (tick (Exec (ShowTablesLike schema_id)) c)).
Proof.
  intros Hal Hst Hval F0 F1 Hlike Hcols Hne. unfold Webdav.process_file.
  replace (match allowed with
           | Some allowed0 => negb (existsb (String.eqb schema_id) allowed0)
           | None => false
           end) with false
    by (destruct allowed; [now rewrite Hal | reflexivity]).
  rewrite Hst.
  rewrite (bind_ok _ _ c c None) by (unfold Webdav.lift; now rewrite Hval).
  rewrite (bind_ok _ _ c (tick (Exec (ShowTablesLike schema_id)) c) true).
  2:{ unfold table_exists. rewrite query_ok by exact F0. now rewrite Hlike. }
  change (negb true) with false. cbv iota.
  rewrite (bind_ok _ _ _
             (tick (Exec (ShowColumns schema_id)) (tick (Exec (ShowTablesLike schema_id)) c))
             cols).
  2:{ unfold get_columns. rewrite query_ok by exact F1. cbn [pending tick]. now rewrite Hcols. }
  destruct cols; [congruence | reflexivity].
Qed.

(** C2. The write step of the insert-only-if-absent policy begins with a
    SELECT ... FOR UPDATE on the identifier column.  When that finds a row,
    the next thing is the commit: nothing is inserted, and the outcome is
    [(False, "Identifier ... already exists ...")], which the caller records
    with the status [skipped].  When it finds none, the plain INSERT of the
    projected row comes next, then the commit, and the outcome is
    [(True, "inserted")]. *)
Theorem insert_only_if_absent (L : pylib) (W : world) (url t identifier : string)
    (data : pydict json) (cols : list string) (c : conn) :
  let col := if existsb (String.eqb "Identifier") cols then "Identifier" else "identifier" in
  let sel := SelectForUpdate t col (JStr identifier) in
  let values := project_values L cols data (JStr identifier) (JStr url) in
  let run := Webdav.insert_if_absent L W url data t identifier cols c in
  (exists rest, trace (snd run) = (trace c ++ Exec sel :: rest)%list)
  /\ (db_fault W (issued c) = false ->
      Sql.select_for_update t col (JStr identifier) (pending c) = Ok true ->
      trace (snd run) = (trace c ++ [Exec sel; Commit])%list
      /\ pending (snd run) = pending c
      /\ (db_fault W (S (issued c)) = false ->
          fst run = Ok (false, "Identifier '" ++ identifier ++ "' already exists in '" ++ t ++ "'.")
          /\ durable (snd run) = pending c))
  /\ (db_fault W (issued c) = false ->
      Sql.select_for_update t col (JStr identifier) (pending c) = Ok false ->
      (exists rest,
          trace (snd run) = (trace c ++ Exec sel :: Exec (Insert t cols values) :: rest)%list)
      /\ (forall d,
            db_fault W (S (issued c)) = false ->
            Sql.insert t cols values (pending c) = Ok d ->
            trace (snd run) = (trace c ++ [Exec sel; Exec (Insert t cols values); Commit])%list
            /\ pending (snd run) = d
            /\ (db_fault W (S (S (issued c))) = false ->
                fst run = Ok (true, "inserted") /\ durable (snd run) = d)))
  /\ (forall schema_dir schema_id allowed item c0 c1 msg,
        Webdav.process_file L W schema_dir url data schema_id identifier allowed c0
        = (Ok (false, msg), c1) ->
        exists rest,
          trace (snd (Webdav.process_and_record L W schema_dir url data schema_id identifier
                        allowed item c0))
          = (trace c1
             ++ Exec (ReplaceState (href item)
                        (Webdav.state_of (etag item) (last_modified item) (Some schema_id)
                           (Some identifier) "skipped" (Some msg)))
             :: rest)%list).
Proof.
  intros col sel values run. subst run.
  unfold Webdav.insert_if_absent. fold col. fold sel. fold values.
  split; [|split; [|split]].
  - unfold bind, query. destruct (db_fault W (issued c)); cbn.
    { now exists []. }
    destruct (Sql.select_for_update t col (JStr identifier) (pending c)) as [[|]|e]; cbn.
    + unfold commit. cbn. destruct (db_fault W (S (issued c))); cbn;
        rewrite <- app_assoc; eexists; reflexivity.
    + unfold update, commit. cbn. destruct (db_fault W (S (issued c))); cbn.
      { rewrite <- app_assoc. eexists; reflexivity. }
      destruct (Sql.insert t cols values (pending c)); cbn.
      * destruct (db_fault W (S (S (issued c)))); cbn; rewrite <- !app_assoc;
          eexists; reflexivity.
      * rewrite <- !app_assoc. eexists; reflexivity.
    + now exists [].
  - intros F0 Hsel. unfold bind, query, commit. rewrite F0, Hsel. cbn.
    destruct (db_fault W (S (issued c))) eqn:F1; cbn; rewrite <- app_assoc;
      repeat split; try discriminate.
  - intros F0 Hsel. unfold bind, query, update, commit. rewrite F0, Hsel. cbn. split.
    + destruct (db_fault W (S (issued c))); cbn.
      { rewrite <- app_assoc. eexists; reflexivity. }
      destruct (Sql.insert t cols values (pending c)); cbn.
      * destruct (db_fault W (S (S (issued c)))); cbn; rewrite <- !app_assoc;
          eexists; reflexivity.
      * rewrite <- !app_assoc. eexists; reflexivity.
    + intros d F1 Hins. rewrite F1, Hins. cbn.
      destruct (db_fault W (S (S (issued c)))) eqn:F2; cbn; rewrite <- !app_assoc;
        repeat split; try discriminate.
  - intros schema_dir schema_id allowed item c0 c1 msg Hpf.
    unfold Webdav.process_and_record. rewrite (bind_ok _ _ _ _ _ Hpf).
    unfold Webdav.replace_state, bind, update, commit.
    destruct (db_fault W (issued c1)); cbn.
    { now exists []. }
    destruct (db_fault W (S (issued c1))); cbn; rewrite <- app_assoc; eexists; reflexivity.
Qed.

Lemma insert_only_if_absent_witness :
  let run := Webdav.insert_if_absent Demo.lib Demo.quiet "https://cloud.example/dav/a.json"
               DemoFault.good "T1" "a" ["Identifier"; "DocumentLocation"; "Value"]
               (connect Demo.store false) in
  trace (snd run)
  = [Exec (SelectForUpdate "T1" "Identifier" (JStr "a"));
     Exec (Insert "T1" ["Identifier"; "DocumentLocation"; "Value"]
             [JStr "a"; JStr "https://cloud.example/dav/a.json"; JInt 42]);
     Commit]
  /\ fst run = Ok (true, "inserted").
Proof.
  pose proof (insert_only_if_absent Demo.lib Demo.quiet "https://cloud.example/dav/a.json"
                "T1" "a" DemoFault.good ["Identifier"; "DocumentLocation"; "Value"]
                (connect Demo.store false)) as (_ & _ & Habsent & _).
  destruct (Habsent eq_refl eq_refl) as [_ Hins].
  destruct (Hins _ eq_refl eq_refl) as (Ht & _ & Hr).
  split; [exact Ht | exact (proj1 (Hr eq_refl))].
Defined.

(** ** Database errors *)

(** C8, as stated, fails.  In [broken_download] the first document cannot
    be downloaded and the REPLACE that records this raises: nothing catches
    it, no rollback is issued, nothing is recorded, and the scan ends
    before the second document is fetched.  In [server_gone] the SELECT
    ... FOR UPDATE of the first document raises and the rollback of the
    handler raises in turn: the scan ends there as well. *)
Lemma database_error_counterexample :
  let run1 := Webdav.scan Demo.lib DemoFault.broken_download DemoFault.base_url
                DemoFault.target_url "schemas" None (connect Demo.store false) in
  let run2 := Webdav.scan Demo.lib DemoFault.server_gone DemoFault.base_url
                DemoFault.target_url "schemas" None (connect Demo.store false) in
  fst run1 = Raise server_fault
  /\ trace (snd run1)
     = [Exec CreateStateTable; Commit;
        Exec (SelectState ["/dav/EMPI-RF/a.json"; "/dav/EMPI-RF/b.json"]);
        Fetch "https://cloud.example/dav/EMPI-RF/a.json";
        Exec (ReplaceState "/dav/EMPI-RF/a.json"
                (Webdav.state_of "e1" "Mon" None None "error"
                   (Some "download/parse error: 500 Server Error")))]
  /\ ingest_state (durable (snd run1)) = []
  /\ fst run2 = Raise server_fault
  /\ trace (snd run2)
     = [Exec CreateStateTable; Commit;
        Exec (SelectState ["/dav/EMPI-RF/a.json"; "/dav/EMPI-RF/b.json"]);
        Fetch "https://cloud.example/dav/EMPI-RF/a.json";
        Exec (ShowTablesLike "T1"); Exec (ShowColumns "T1");
        Exec (SelectForUpdate "T1" "Identifier" (JStr "a"));
        Rollback]
  /\ ingest_state (durable (snd run2)) = [].
Proof. repeat split. Qed.

(** ** The merge-write policy written twice *)

Lemma find_row_none (p : list json -> bool) (rs : list (list json)) :
  Sql.find_row p rs = None -> Forall (fun r => p r = false) rs.
Proof.
  induction rs as [|r rest IH]; simpl; [constructor|].
  destruct (p r) eqn:E; [discriminate|].
  destruct (Sql.find_row p rest); [discriminate|]. intros _. constructor; auto.
Qed.

Lemma find_row_some (p : list json -> bool) (rs : list (list json)) (i : nat) :
  Sql.find_row p rs = Some i ->
  exists l1 r l2, rs = (l1 ++ r :: l2)%list /\ length l1 = i.
Proof.
  revert i. induction rs as [|r rest IH]; simpl; [discriminate|].
  intros i. destruct (p r).
  - intros [= <-]. now exists [], r, rest.
  - destruct (Sql.find_row p rest) as [j|]; [|discriminate]. intros [= <-].
    destruct (IH j eq_refl) as (l1 & r' & l2 & -> & Hl).
    exists (r :: l1), r', l2. simpl. auto.
Qed.

Lemma duplicate_of_some (cols : list string) (keys : list (list string))
    (rs : list (list json)) (v : list json) (i : nat) :
  Sql.duplicate_of cols keys rs v = Some i ->
  exists l1 r l2, rs = (l1 ++ r :: l2)%list /\ length l1 = i.
Proof.
  induction keys as [|key more IH]; simpl; [discriminate|].
  destruct (Sql.find_row _ rs) as [j|] eqn:E.
  - intros [= <-]. eapply find_row_some. exact E.
  - exact IH.
Qed.

Lemma duplicate_of_none (tb : table) (rs : list (list json)) (v : list json) :
  Sql.duplicate_of (columns tb) (uniques tb) rs v = None ->
  Forall (fun r => Sql.conflicts tb v r = false) rs.
Proof.
  unfold Sql.conflicts. induction (uniques tb) as [|key more IH]; simpl.
  - intros _. apply Forall_forall. reflexivity.
  - destruct (Sql.find_row _ rs) eqn:E; [discriminate|]. intros H.
    specialize (IH H). apply find_row_none in E.
    rewrite Forall_forall in *. intros r Hr. now rewrite (E r Hr), (IH r Hr).
Qed.

Lemma replace_nth_middle {A} (l1 l2 : list A) (x y : A) :
  Sql.replace_nth (length l1) y (l1 ++ x :: l2) = (l1 ++ y :: l2)%list.
Proof. induction l1; simpl; congruence. Qed.

Lemma drop_nth_middle {A} (l1 l2 : list A) (x : A) :
  Sql.drop_nth (length l1) (l1 ++ x :: l2) = (l1 ++ l2)%list.
Proof. induction l1; simpl; congruence. Qed.

Lemma existsb_false_Forall {A} (p : A -> bool) (l : list A) :
  existsb p l = false <-> Forall (fun x => p x = false) l.
Proof.
  induction l as [|x l IH]; simpl.
  - split; [constructor | reflexivity].
  - rewrite orb_false_iff, IH. split.
    + intros [H1 H2]. constructor; assumption.
    + intros H. inversion H; auto.
Qed.

(** A first write that goes through leaves the new row in the table, and
    no other row of the table collides with it. *)
Lemma upsert_ok (t : string) (cols : list string) (v : list json) (d d' : database) :
  Sql.insert_on_duplicate_key_update t cols v d = Ok d' ->
  exists tb l1 l2,
    dict_get (tables d) t = Some tb
    /\ Sql.well_shaped tb cols v = true
    /\ d' = Sql.set_table d t (Sql.with_rows tb (l1 ++ v :: l2))
    /\ Forall (fun r => Sql.conflicts tb v r = false) (l1 ++ l2).
Proof.
  unfold Sql.insert_on_duplicate_key_update, Sql.find_table.
  destruct (dict_get (tables d) t) as [tb|]; [|discriminate].
  destruct (Sql.well_shaped tb cols v) eqn:Hshape; [|discriminate]. cbn [negb].
  destruct (Sql.duplicate_of _ _ _ _) as [i|] eqn:Hdup.
  - destruct (existsb _ _) eqn:Hex; [discriminate|]. intros [= <-].
    destruct (duplicate_of_some _ _ _ _ _ Hdup) as (l1 & r & l2 & Hrows & <-).
    rewrite Hrows in *. rewrite drop_nth_middle in Hex. rewrite replace_nth_middle.
    exists tb, l1, l2. repeat split; auto. now apply existsb_false_Forall.
  - intros [= <-]. exists tb, (rows tb), []. repeat split; auto.
    rewrite app_nil_r. now apply duplicate_of_none.
Qed.

Lemma find_row_all_false (p : list json -> bool) (l : list (list json)) :
  Forall (fun r => p r = false) l -> Sql.find_row p l = None.
Proof.
  induction l as [|r l IH]; simpl; [reflexivity|].
  intros H. inversion H as [|? ? Hr Hl]; subst. now rewrite Hr, (IH Hl).
Qed.

Lemma find_row_middle (p : list json -> bool) (l1 l2 : list (list json)) (v : list json) :
  Forall (fun r => p r = false) (l1 ++ l2) ->
  Sql.find_row p (l1 ++ v :: l2) = if p v then Some (length l1) else None.
Proof.
  induction l1 as [|r l1 IH]; simpl; intros H.
  - destruct (p v); [reflexivity|]. now rewrite (find_row_all_false p l2 H).
  - inversion H as [|? ? Hr Hl]; subst. rewrite Hr, (IH Hl). destruct (p v); reflexivity.
Qed.

Lemma conflicts_same_key (tb : table) (key : list string) (v r : list json) :
  In key (uniques tb) -> Sql.conflicts tb v r = false ->
  Sql.same_key (columns tb) key v r = false.
Proof.
  unfold Sql.conflicts. intros Hin H.
  rewrite existsb_false_Forall, Forall_forall in H. exact (H key Hin).
Qed.

Lemma duplicate_of_middle (tb : table) (l1 l2 : list (list json)) (v : list json)
    (key : list string) :
  Forall (fun r => Sql.conflicts tb v r = false) (l1 ++ l2) ->
  In key (uniques tb) ->
  Sql.same_key (columns tb) key v v = true ->
  Sql.duplicate_of (columns tb) (uniques tb) (l1 ++ v :: l2) v = Some (length l1).
Proof.
  intros Hnc Hin Hkey.
  assert (Hall : forall k, In k (uniques tb) ->
            Sql.find_row (Sql.same_key (columns tb) k v) (l1 ++ v :: l2)
            = if Sql.same_key (columns tb) k v v then Some (length l1) else None).
  { intros k Hk. apply find_row_middle. rewrite Forall_forall in *.
    intros r Hr. apply conflicts_same_key; auto. }
  induction (uniques tb) as [|k more IH]; [contradiction|]. simpl.
  rewrite (Hall k (or_introl eq_refl)).
  destruct (Sql.same_key (columns tb) k v v) eqn:E; [reflexivity|].
  destruct Hin as [->|Hin]; [congruence|].
  apply IH; auto. intros k' Hk'. apply Hall. now right.
Qed.

(** Writing the same row again changes nothing. *)
Lemma upsert_again (t : string) (cols : list string) (v : list json) (d : database)
    (tb : table) (l1 l2 : list (list json)) (key : list string) :
  dict_get (tables d) t = Some tb ->
  rows tb = (l1 ++ v :: l2)%list ->
  Sql.well_shaped tb cols v = true ->
  Forall (fun r => Sql.conflicts tb v r = false) (l1 ++ l2) ->
  In key (uniques tb) ->
  Sql.same_key (columns tb) key v v = true ->
  Sql.insert_on_duplicate_key_update t cols v d = Ok (Sql.set_table d t tb).
Proof.
  intros Htb Hrows Hshape Hnc Hin Hkey.
  unfold Sql.insert_on_duplicate_key_update, Sql.find_table. rewrite Htb, Hshape. cbn [negb].
  rewrite Hrows, (duplicate_of_middle tb l1 l2 v key Hnc Hin Hkey).
  rewrite drop_nth_middle, replace_nth_middle.
  rewrite (proj2 (existsb_false_Forall _ _) Hnc), <- Hrows.
  destruct tb; reflexivity.
Qed.

Lemma filter_middle (p : list json -> bool) (l1 l2 : list (list json)) (v : list json) :
  Forall (fun r => p r = false) (l1 ++ l2) -> p v = true ->
  filter p (l1 ++ v :: l2) = [v].
Proof.
  intros H Hv. rewrite filter_app. simpl. rewrite Hv.
  apply Forall_app in H. destruct H as [H1 H2].
  assert (Hnil : forall l, Forall (fun r => p r = false) l -> filter p l = []).
  { induction l as [|r l IH]; simpl; [reflexivity|]. intros H. inversion H; subst.
    rewrite H4. auto. }
  now rewrite (Hnil l1 H1), (Hnil l2 H2).
Qed.

Lemma show_tables_like_set (pattern t : string) (tb tb' : table) (d : database) :
  dict_get (tables d) t = Some tb ->
  Sql.show_tables_like pattern (Sql.set_table d t tb') = Sql.show_tables_like pattern d.
Proof.
  unfold Sql.show_tables_like, Sql.set_table. cbn [tables].
  induction (tables d) as [|[k x] rest IH]; simpl; [discriminate|].
  destruct (String.eqb k t) eqn:E; simpl.
  - reflexivity.
  - intros H. now rewrite IH.
Qed.

(** A run of [process_file] that ends without an exception on a table
    that is there has done its write. *)
Lemma win_process_file_ok (L : pylib) (W : world) (file_path t : string)
    (identifier : json) (data : pydict json) (c c' : conn) (tb : table) :
  Sql.show_tables_like t (pending c) = true ->
  dict_get (tables (pending c)) t = Some tb ->
  columns tb <> [] ->
  Win.process_file L W file_path t identifier data c = (Ok tt, c') ->
  Sql.insert_on_duplicate_key_update t (columns tb)
    (project_values L (columns tb) data identifier (JStr file_path)) (pending c)
  = Ok (pending c').
Proof.
  intros Hlike Htb Hne Hrun.
  destruct (db_fault W (issued c)) eqn:F0.
  { unfold Win.process_file, bind, table_exists, query in Hrun. rewrite F0 in Hrun.
    discriminate. }
  destruct (db_fault W (S (issued c))) eqn:F1.
  { unfold Win.process_file, bind, table_exists, get_columns, query in Hrun.
    rewrite F0, Hlike in Hrun. cbn in Hrun. rewrite F1 in Hrun. discriminate. }
  rewrite (win_process_file_writes L W file_path t identifier data c tb F0 F1 Hlike Htb Hne)
    in Hrun.
  unfold update in Hrun. cbn [tick issued pending] in Hrun.
  destruct (db_fault W (S (S (issued c)))); [discriminate|].
  destruct (Sql.insert_on_duplicate_key_update _ _ _ _) as [d1|e]; [|discriminate].
  injection Hrun as <-. reflexivity.
Qed.

(** C3, as stated, fails: on a table without a PRIMARY or UNIQUE index the
    statement never meets a duplicate key, and the same document processed
    in two runs leaves two rows. *)
Lemma merge_write_counterexample :
  let files := [("/a/b.json", Some (JObj Demo.doc))] in
  let run1 := Win.run_once Demo.lib Demo.quiet files (JObj []) false (connect Demo.store true) in
  let c1 := snd run1 in
  let c2 := snd (Win.run_once Demo.lib Demo.quiet files
                   (Win.snapshot_json (DemoUpper.snapshot run1)) false c1) in
  dict_get (tables (durable c2)) "T1"
  = Some (Sql.with_rows Demo.T1
            [[JStr "b"; JStr "/a/b.json"; JInt 42]; [JStr "b"; JStr "/a/b.json"; JInt 42]]).
Proof. reflexivity. Qed.

(** ** Reconciliation of deletions *)

Lemma shrinks_refl (d : database) : shrinks d d.
Proof. intros t tb H. exists tb. repeat split; auto. apply incl_refl. Qed.

Lemma shrinks_trans (d1 d2 d3 : database) : shrinks d1 d2 -> shrinks d2 d3 -> shrinks d1 d3.
Proof.
  intros H12 H23 t tb3 H3. destruct (H23 t tb3 H3) as (tb2 & H2 & Hc2 & Hr2).
  destruct (H12 t tb2 H2) as (tb1 & H1 & Hc1 & Hr1).
  exists tb1. repeat split; [assumption | congruence | eapply incl_tran; eassumption].
Qed.

Lemma row_gone_shrinks (d d' : database) (t : string) (v : json) :
  shrinks d d' -> row_gone d t v -> row_gone d' t v.
Proof.
  intros Hs Hg tb' Htb' Hcol. destruct (Hs t tb' Htb') as (tb & Htb & Hc & Hr).
  rewrite Hc in *. specialize (Hg tb Htb Hcol).
  rewrite Forall_forall in *. intros r Hin. apply Hg. apply Hr. exact Hin.
Qed.

Lemma column_index_lower (a b : string) (cols : list string) :
  PyStr.lower a = PyStr.lower b -> Sql.column_index a cols = Sql.column_index b cols.
Proof. intros H. induction cols as [|c rest IH]; simpl; [reflexivity|]. now rewrite H, IH. Qed.

Lemma column_index_exact (col : string) (cols : list string) :
  In col cols -> exists i, Sql.column_index col cols = Some i.
Proof.
  induction cols as [|c rest IH]; simpl; [contradiction|].
  intros [->|H].
  - rewrite String.eqb_refl. now exists 0%nat.
  - destruct (String.eqb _ _); [now exists 0%nat|].
    destruct (IH H) as [i ->]. now exists (S i).
Qed.

Section Reconcile.
Variable L : pylib.
Variable W : world.
Hypothesis no_fault : forall n, db_fault W n = false.

(** What [delete_row] does to the store when no statement fails. *)
Lemma delete_row_pending (t : string) (v : json) (c : conn) :
  let c' := snd (Win.delete_row W t v c) in
  match dict_get (tables (pending c)) t with
  | None => pending c' = pending c
  | Some tb =>
      if existsb (String.eqb "Identifier") (columns tb)
         || existsb (String.eqb "identifier") (columns tb)
      then exists i,
             Sql.column_index "identifier" (columns tb) = Some i
             /\ pending c'
                = Sql.set_table (pending c) t
                    (Sql.with_rows tb
                       (filter (fun r => negb (Sql.eq (nth i r JNull) v)) (rows tb)))
      else pending c' = pending c
  end.
Proof.
  unfold Win.delete_row, bind, get_columns, query. rewrite no_fault.
  unfold Sql.show_columns, Sql.find_table.
  destruct (dict_get (tables (pending c)) t) as [tb|] eqn:Htb; [|reflexivity].
  cbn [tick pending].
  destruct (existsb (String.eqb "Identifier") (columns tb)) eqn:E1; cbn [negb andb orb].
  - destruct (column_index_exact "Identifier" (columns tb)) as [i Hi].
    { now apply existsb_eqb_In. }
    exists i. split.
    { rewrite <- Hi. apply column_index_lower. reflexivity. }
    unfold update. cbn [tick issued pending]. rewrite no_fault.
    unfold Sql.delete, Sql.find_table. rewrite Htb, Hi. reflexivity.
  - destruct (existsb (String.eqb "identifier") (columns tb)) eqn:E2; cbn [negb].
    + destruct (column_index_exact "identifier" (columns tb)) as [i Hi].
      { now apply existsb_eqb_In. }
      exists i. split; [exact Hi|].
      unfold update. cbn [tick issued pending]. rewrite no_fault.
      unfold Sql.delete, Sql.find_table. rewrite Htb, Hi. reflexivity.
    + reflexivity.
Qed.

Lemma delete_row_shrinks (t : string) (v : json) (c : conn) :
  shrinks (pending c) (pending (snd (Win.delete_row W t v c))).
Proof.
  pose proof (delete_row_pending t v c) as H. cbv zeta in H.
  destruct (dict_get (tables (pending c)) t) as [tb|] eqn:Htb.
  - destruct (_ || _).
    + destruct H as (i & _ & ->). intros t' tb' Hget.
      unfold Sql.set_table in Hget. cbn [tables] in Hget. rewrite dict_get_set in Hget.
      destruct (String.eqb t t') eqn:E.
      * apply String.eqb_eq in E. subst t'. injection Hget as <-.
        exists tb. repeat split; auto. cbn [Sql.with_rows rows].
        intros r Hr. apply filter_In in Hr. tauto.
      * exists tb'. repeat split; auto. apply incl_refl.
    + rewrite H. apply shrinks_refl.
  - rewrite H. apply shrinks_refl.
Qed.

Lemma delete_row_gone (t : string) (v : json) (c : conn) :
  row_gone (pending (snd (Win.delete_row W t v c))) t v.
Proof.
  pose proof (delete_row_pending t v c) as H. cbv zeta in H.
  intros tb' Htb' Hcol.
  destruct (dict_get (tables (pending c)) t) as [tb|] eqn:Htb.
  - destruct (_ || _) eqn:E.
    + destruct H as (i & Hi & Hp). rewrite Hp in Htb'.
      unfold Sql.set_table in Htb'. cbn [tables] in Htb'.
      rewrite dict_get_set_same in Htb'. injection Htb' as <-.
      cbn [Sql.with_rows rows columns]. apply Forall_forall. intros r Hr.
      apply filter_In in Hr. destruct Hr as [_ Hr]. unfold Sql.cell. rewrite Hi.
      now apply negb_true_iff in Hr.
    + rewrite H, Htb in Htb'. injection Htb' as <-.
      apply orb_false_iff in E. destruct E as [E1 E2].
      destruct Hcol as [Hc|Hc]; apply existsb_eqb_In in Hc; congruence.
  - rewrite H, Htb in Htb'. discriminate.
Qed.

Lemma delete_stored_shrinks (entry : json) (c : conn) :
  shrinks (pending c) (pending (snd (Win.delete_stored L W entry c))).
Proof.
  unfold Win.delete_stored. destruct (Win.stored_row entry) as [[table identifier]|].
  - apply delete_row_shrinks.
  - apply shrinks_refl.
Qed.

Lemma reconcile_step_run (current_state : pydict Win.info) (item : string * json)
    (c : conn) :
  let step := fun item : string * json =>
    if negb (dict_contains current_state (fst item)) then
      _ <- attempt (Win.delete_stored L W (snd item)) ;;
      ret tt
    else ret tt in
  step item c
  = (Ok tt,
     if dict_contains current_state (fst item) then c
     else snd (Win.delete_stored L W (snd item) c)).
Proof.
  cbv beta zeta. destruct (dict_contains current_state (fst item)); cbn [negb].
  - reflexivity.
  - rewrite bind_attempt. reflexivity.
Qed.

Lemma reconcile_shrinks (prev_state : pydict json) (current_state : pydict Win.info)
    (c : conn) :
  fst (Win.reconcile L W prev_state current_state c) = Ok tt
  /\ shrinks (pending c) (pending (snd (Win.reconcile L W prev_state current_state c))).
Proof.
  unfold Win.reconcile. revert c. induction prev_state as [|item rest IH]; intros c.
  - split; [reflexivity | apply shrinks_refl].
  - cbn [for_each]. rewrite bind_run, reconcile_step_run. cbn [fst snd].
    destruct (IH (if dict_contains current_state (fst item) then c
                  else snd (Win.delete_stored L W (snd item) c))) as [H1 H2].
    split; [exact H1|]. eapply shrinks_trans; [|exact H2].
    destruct (dict_contains current_state (fst item));
      [apply shrinks_refl | apply delete_stored_shrinks].
Qed.

Lemma reconcile_gone (prev_state : pydict json) (current_state : pydict Win.info) (c : conn)
    (p : string) (entry table identifier : json) :
  In (p, entry) prev_state ->
  Win.stored_row entry = Some (table, identifier) ->
  dict_contains current_state p = false ->
  row_gone (pending (snd (Win.reconcile L W prev_state current_state c)))
    (py_str L table) identifier.
Proof.
  intros Hin Hrow Hmiss. revert c. induction prev_state as [|item rest IH]; intros c.
  - contradiction.
  - pose proof (reconcile_shrinks rest current_state) as Hrest.
    unfold Win.reconcile in *. cbn [for_each]. rewrite bind_run, reconcile_step_run.
    cbn [fst snd]. destruct Hin as [->|Hin].
    + cbn [fst snd]. rewrite Hmiss.
      eapply row_gone_shrinks; [apply Hrest|].
      unfold Win.delete_stored. rewrite Hrow. apply delete_row_gone.
    + apply IH. exact Hin.
Qed.

End Reconcile.

(** The snapshot a scan builds has the paths of the files scanned, and no
    other. *)
Lemma scan_file_keys (L : pylib) (W : world) (file : string * option json)
    (prev_state : json) (st st' : pydict Win.info) (c c' : conn) :
  Win.scan_file L W file prev_state st c = (Ok st', c') ->
  forall k, In k (dict_keys st') -> k = fst file \/ In k (dict_keys st).
Proof.
  unfold Win.scan_file. destruct file as [file_path content]. cbn [fst].
  destruct (String.eqb _ _).
  { intros [= <- _] k Hk. now right. }
  destruct content as [data|].
  2:{ intros [= <- _] k Hk. now right. }
  destruct data; try discriminate.
  destruct (get_schema_id L members) as [sid|].
  2:{ intros [= <- _] k Hk. now right. }
  destruct (String.eqb sid "").
  { intros [= <- _] k Hk. now right. }
  destruct (py_in file_path prev_state); [|discriminate].
  rewrite bind_attempt. intros [= <- _] k Hk. now apply dict_set_keys_incl in Hk.
Qed.

Lemma scan_files_keys (L : pylib) (W : world) (files : list (string * option json))
    (prev_state : json) (st st' : pydict Win.info) (c c' : conn) :
  Win.scan_files L W files prev_state st c = (Ok st', c') ->
  forall k, In k (dict_keys st') -> In k (map fst files) \/ In k (dict_keys st).
Proof.
  revert st c. induction files as [|file rest IH]; intros st c; cbn [Win.scan_files map].
  - intros [= <- _] k Hk. now right.
  - rewrite bind_run.
    destruct (Win.scan_file L W file prev_state st c) as [[st1|e] c1] eqn:Hfile;
      cbn [fst snd]; [|discriminate].
    intros Hrest k Hk. destruct (IH st1 c1 Hrest k Hk) as [H|H].
    + left. now right.
    + destruct (scan_file_keys L W file prev_state st st1 c c1 Hfile k H) as [->|H'].
      * left. now left.
      * now right.
Qed.

(** C7, as stated, fails.  The identifier column of the table is spelled
    [IDENTIFIER]: the rows of both files are written with their identifier
    in it, yet when the second file is gone the reconciliation issues no
    DELETE, the column being neither [Identifier] nor [identifier], and the
    row of the file stays, while its path leaves the snapshot. *)
Lemma reconcile_counterexample :
  let run1 := Win.run_once Demo.lib Demo.quiet [DemoUpper.file_a; DemoUpper.file_b] (JObj [])
                true (connect DemoUpper.store true) in
  let run2 := Win.run_once Demo.lib Demo.quiet [DemoUpper.file_a]
                (Win.snapshot_json (DemoUpper.snapshot run1)) true (snd run1) in
  DemoUpper.snapshot run1
  = [("/a/a.json", {| Win.i_table := "T1"; Win.i_identifier := JStr "a" |});
     ("/a/b.json", {| Win.i_table := "T1"; Win.i_identifier := JStr "b" |})]
  /\ fst run2 = Ok [("/a/a.json", {| Win.i_table := "T1"; Win.i_identifier := JStr "a" |})]
  /\ dict_get (tables (durable (snd run2))) "T1"
     = Some (Sql.with_rows DemoUpper.T1
               [[JStr "a"; JStr "/a/a.json"; JInt 42]; [JStr "b"; JStr "/a/b.json"; JInt 42]])
  /\ skipn (length (trace (snd run1))) (trace (snd run2))
     = [Exec (ShowTablesLike "T1"); Exec (ShowColumns "T1");
        Exec (InsertOnDuplicateKeyUpdate "T1" ["IDENTIFIER"; "DocumentLocation"; "Value"]
                [JStr "a"; JStr "/a/a.json"; JInt 42]);
        Exec (ShowColumns "T1")].
Proof. repeat split. Qed.

(** ** The representative violation *)

Lemma string_lt_irrefl (a : string) : ~ String_as_OT.lt a a.
Proof. destruct String_as_OT.lt_strorder as [Hirr _]. exact (Hirr a). Qed.

Lemma string_lt_trans (a b c : string) :
  String_as_OT.lt a b -> String_as_OT.lt b c -> String_as_OT.lt a c.
Proof. destruct String_as_OT.lt_strorder as [_ Htr]. exact (Htr a b c). Qed.

Lemma string_compare_eq (a b : string) : String_as_OT.compare a b = Eq <-> a = b.
Proof.
  destruct (String_as_OT.compare_spec a b) as [H|H|H]; unfold String_as_OT.eq in *;
    split; intros E; try discriminate; auto; subst; exfalso; exact (string_lt_irrefl _ H).
Qed.

Lemma string_compare_gt (a b : string) :
  String_as_OT.compare a b = Gt <-> String_as_OT.compare b a = Lt.
Proof.
  destruct (String_as_OT.compare_spec a b) as [H|H|H];
    destruct (String_as_OT.compare_spec b a) as [H'|H'|H']; unfold String_as_OT.eq in *;
    split; intros E; try discriminate; try reflexivity; exfalso; subst;
    first [ exact (string_lt_irrefl _ H)
          | exact (string_lt_irrefl _ H')
          | exact (string_lt_irrefl _ (string_lt_trans _ _ _ H H')) ].
Qed.

Lemma elem_compare_eq (x y : path_elem) : elem_compare x y = Eq <-> x = y.
Proof.
  destruct x as [a|i], y as [b|j]; simpl.
  - rewrite string_compare_eq. split; [now intros -> | now intros [= ->]].
  - split; discriminate.
  - split; discriminate.
  - rewrite Z.compare_eq_iff. split; [now intros -> | now intros [= ->]].
Qed.

Lemma elem_compare_gt (x y : path_elem) : elem_compare x y = Gt <-> elem_compare y x = Lt.
Proof.
  destruct x as [a|i], y as [b|j]; simpl.
  - apply string_compare_gt.
  - split; reflexivity.
  - split; discriminate.
  - rewrite Z.compare_gt_iff, Z.compare_lt_iff. reflexivity.
Qed.

Lemma elem_compare_trans (x y z : path_elem) :
  elem_compare x y = Lt -> elem_compare y z = Lt -> elem_compare x z = Lt.
Proof.
  destruct x as [a|i], y as [b|j], z as [d|k]; simpl; try discriminate; auto.
  - apply string_lt_trans.
  - rewrite !Z.compare_lt_iff. apply Z.lt_trans.
Qed.

Lemma path_compare_eq (a b : list path_elem) : path_compare a b = Eq <-> a = b.
Proof.
  revert b. induction a as [|x a IH]; intros [|y b]; simpl; try (split; [reflexivity|reflexivity]);
    try (split; discriminate).
  destruct (elem_compare x y) eqn:E.
  - apply elem_compare_eq in E. subst y. rewrite IH. split; [now intros -> | now intros [= ->]].
  - split; [discriminate|]. intros [= -> ->].
    rewrite (proj2 (elem_compare_eq y y) eq_refl) in E. discriminate.
  - split; [discriminate|]. intros [= -> ->].
    rewrite (proj2 (elem_compare_eq y y) eq_refl) in E. discriminate.
Qed.

Lemma path_compare_gt (a b : list path_elem) : path_compare a b = Gt <-> path_compare b a = Lt.
Proof.
  revert b. induction a as [|x a IH]; intros [|y b]; simpl; try (split; [reflexivity|reflexivity]);
    try (split; discriminate).
  destruct (elem_compare x y) eqn:E.
  - apply elem_compare_eq in E. subst y.
    rewrite (proj2 (elem_compare_eq x x) eq_refl). apply IH.
  - destruct (elem_compare y x) eqn:E'.
    + apply elem_compare_eq in E'. subst y.
      rewrite (proj2 (elem_compare_eq x x) eq_refl) in E. discriminate.
    + apply elem_compare_gt in E'. congruence.
    + split; discriminate.
  - apply elem_compare_gt in E. rewrite E. split; reflexivity.
Qed.

Lemma path_compare_trans (a b c : list path_elem) :
  path_compare a b = Lt -> path_compare b c = Lt -> path_compare a c = Lt.
Proof.
  revert b c. induction a as [|x a IH]; intros [|y b] [|z c]; simpl; try discriminate; auto.
  destruct (elem_compare x y) eqn:Exy; try discriminate.
  - apply elem_compare_eq in Exy. subst y.
    destruct (elem_compare x z); try discriminate; auto. apply IH.
  - intros _. destruct (elem_compare y z) eqn:Eyz; try discriminate.
    + apply elem_compare_eq in Eyz. subst z. now rewrite Exy.
    + intros _. now rewrite (elem_compare_trans x y z Exy Eyz).
Qed.

(** Not after, then not after: the order is transitive in its weak form. *)
Lemma path_compare_le_trans (a b c : list path_elem) :
  path_compare a b <> Gt -> path_compare b c <> Gt -> path_compare a c <> Gt.
Proof.
  intros Hab Hbc.
  destruct (path_compare a b) eqn:E1; [| |congruence].
  - apply path_compare_eq in E1. now subst.
  - destruct (path_compare b c) eqn:E2; [| |congruence].
    + apply path_compare_eq in E2. subst. now rewrite E1.
    + now rewrite (path_compare_trans a b c E1 E2).
Qed.

(** On two paths into one document the comparison of the program is
    defined, and is the lexicographic order. *)
Lemma path_lt_valid (a b : list path_elem) (v : json) :
  valid_path a v = true -> valid_path b v = true ->
  Webdav.path_lt a b = Ok (match path_compare a b with Lt => true | _ => false end).
Proof.
  revert b v. induction a as [|x a IH]; intros [|y b] v; simpl; try reflexivity.
  destruct x as [k|i], y as [k'|j]; destruct v; try discriminate; simpl.
  - destruct (String.eqb k k') eqn:E.
    + apply String.eqb_eq in E. subst k'.
      rewrite (proj2 (string_compare_eq k k) eq_refl).
      destruct (dict_get members k); [apply IH | discriminate].
    + intros _ _. apply String.eqb_neq in E.
      destruct (String_as_OT.compare k k') eqn:C; try reflexivity.
      apply string_compare_eq in C. contradiction.
  - destruct (Z.eqb i j) eqn:E.
    + apply Z.eqb_eq in E. subst j. rewrite Z.compare_refl.
      destruct (Z.leb 0 i); [|discriminate]. simpl.
      destruct (nth_error items (Z.to_nat i)); [apply IH | discriminate].
    + intros _ _. apply Z.eqb_neq in E. unfold Z.ltb.
      destruct (Z.compare i j) eqn:C; try reflexivity.
      apply Z.compare_eq_iff in C. contradiction.
Qed.

Lemma insert_sorted_valid (payload : json) (e : verror) (l : list verror) :
  valid_path (path e) payload = true ->
  Forall (fun x => valid_path (path x) payload = true) l ->
  exists l',
    Webdav.insert_sorted e l = Ok l'
    /\ Forall (fun x => valid_path (path x) payload = true) l'
    /\ hd_error l'
       = match l with
         | [] => Some e
         | h :: _ =>
             match path_compare (path h) (path e) with
             | Lt => Some h
             | _ => Some e
             end
         end.
Proof.
  intros He. induction l as [|h t IH]; intros Hl; simpl.
  - exists [e]. repeat split; auto.
  - inversion Hl as [|? ? Hh Ht]; subst.
    rewrite (path_lt_valid (path h) (path e) payload Hh He).
    destruct (path_compare (path h) (path e)) eqn:C.
    + exists (e :: h :: t). repeat split; auto.
    + destruct (IH Ht) as (l' & -> & Hv & _). exists (h :: l'). repeat split; auto.
    + exists (e :: h :: t). repeat split; auto.
Qed.

Lemma sorted_valid (payload : json) (errors : list verror) :
  Forall (fun x => valid_path (path x) payload = true) errors ->
  exists l,
    Webdav.sorted errors = Ok l
    /\ Forall (fun x => valid_path (path x) payload = true) l
    /\ hd_error l = first_by_path errors.
Proof.
  induction errors as [|e rest IH]; intros H; simpl.
  - exists []. repeat split; auto.
  - inversion H as [|? ? He Hr]; subst.
    destruct (IH Hr) as (l & -> & Hv & Hhd).
    destruct (insert_sorted_valid payload e l He Hv) as (l' & -> & Hv' & Hhd').
    exists l'. repeat split; auto. rewrite Hhd'. rewrite <- Hhd.
    destruct l; reflexivity.
Qed.

(** The first violation by path is a violation no other goes before, and
    the earliest such. *)
Lemma first_by_path_spec (errors : list verror) :
  match first_by_path errors with
  | None => errors = []
  | Some m =>
      exists before after,
        errors = (before ++ m :: after)%list
        /\ Forall (fun e => path_compare (path m) (path e) = Lt) before
        /\ Forall (fun e => path_compare (path m) (path e) <> Gt) after
  end.
Proof.
  induction errors as [|e rest IH]; simpl; [reflexivity|].
  destruct (first_by_path rest) as [m|].
  - destruct IH as (before & after & -> & Hb & Ha).
    destruct (path_compare (path m) (path e)) eqn:C.
    + exists [], (before ++ m :: after)%list. repeat split; auto.
      apply path_compare_eq in C.
      apply Forall_app. split.
      * eapply Forall_impl; [|exact Hb]. intros x Hx. cbv beta in Hx. rewrite <- C. congruence.
      * constructor; [rewrite <- C; rewrite (proj2 (path_compare_eq _ _) eq_refl); discriminate|].
        eapply Forall_impl; [|exact Ha]. intros x Hx. cbv beta in Hx. now rewrite <- C.
    + exists (e :: before), after. repeat split; auto.
    + exists [], (before ++ m :: after)%list. repeat split; auto.
      assert (Hem : path_compare (path e) (path m) <> Gt).
      { apply path_compare_gt in C. rewrite C. discriminate. }
      apply Forall_app. split.
      * eapply Forall_impl; [|exact Hb]. intros x Hx. cbv beta in Hx.
        apply (path_compare_le_trans _ (path m)); [exact Hem | rewrite Hx; discriminate].
      * constructor; [exact Hem|].
        eapply Forall_impl; [|exact Ha]. intros x Hx. cbv beta in Hx.
        apply (path_compare_le_trans _ (path m)); assumption.
  - subst rest. exists [], []. repeat split; auto.
Qed.

(** C6. [validate_payload] takes all the violations the validator yields
    and, when their paths lead into the document, returns the message
    of the lexicographically-first one by path: no violation has a path
    before its path, and of those that share its path it is the one the
    validator yielded first; without violations it returns None.  The
    result is a function of the violations yielded, hence of the schema
    and the document. *)
Theorem first_error_by_path (L : pylib) (schema payload : json) (v : validator)
    (errors : list verror) :
  Webdav.build_validator schema = Ok v ->
  iter_errors L v schema payload = Ok errors ->
  Forall (fun e => valid_path (path e) payload = true) errors ->
  Webdav.validate_payload L (Ok schema) payload
  = Ok (option_map message (first_by_path errors))
  /\ match first_by_path errors with
     | None => errors = []
     | Some m =>
         exists before after,
           errors = (before ++ m :: after)%list
           /\ Forall (fun e => path_compare (path m) (path e) = Lt) before
           /\ Forall (fun e => path_compare (path m) (path e) <> Gt) after
     end.
Proof.
  intros Hv Herr Hvalid. split; [|apply first_by_path_spec].
  unfold Webdav.validate_payload. rewrite Hv, Herr.
  destruct (sorted_valid payload errors Hvalid) as (l & -> & _ & Hhd).
  rewrite <- Hhd. destruct l; reflexivity.
Qed.

Lemma first_error_by_path_witness :
  Webdav.validate_payload DemoSchema.lib (Ok (JObj [])) DemoSchema.payload
  = Ok (Some "'SchemaID' is a required property").
Proof.
  exact (proj1 (first_error_by_path DemoSchema.lib (JObj []) DemoSchema.payload
                  Draft7Validator DemoSchema.violations eq_refl eq_refl
                  ltac:(repeat constructor))).
Defined.


(** * Further properties of the two programs *)

Lemma deleted_app (a b : list event) : deleted (a ++ b) = (deleted a ++ deleted b)%list.
Proof.
  induction a as [|ev a IH]; simpl; [reflexivity|].
  destruct ev as [u|s| |]; simpl; try exact IH.
  destruct s; simpl; rewrite ?IH; reflexivity.
Qed.

Lemma statements_app (a b : list event) :
  statements (a ++ b) = (statements a ++ statements b)%list.
Proof.
  induction a as [|ev a IH]; simpl; [reflexivity|].
  destruct ev; simpl; rewrite ?IH; reflexivity.
Qed.

Lemma replace_state_get (p : string) (row : state_row) (d : database) :
  dict_get (ingest_state (Sql.replace_state p row d)) p = Some row
  /\ tables (Sql.replace_state p row d) = tables d.
Proof.
  split; [|reflexivity]. unfold Sql.replace_state. cbn [ingest_state].
  rewrite dict_get_app.
  rewrite (dict_get_filter_keys (fun k => negb (String.eqb k p))), String.eqb_refl.
  cbn. now rewrite String.eqb_refl.
Qed.

(** ** The turn of the loop for a document that can be routed *)
Section RoutedTurn.
Variable L : pylib.
Variable W : world.

(** Recording an outcome: the REPLACE and the commit, when both go through. *)
Lemma record_and_commit (p : string) (row : state_row) (c : conn) :
  db_fault W (issued c) = false ->
  db_fault W (S (issued c)) = false ->
  (Webdav.replace_state W p row ;; commit W) c
  = (Ok tt,
     {| durable := Sql.replace_state p row (pending c);
        pending := Sql.replace_state p row (pending c);
        autocommit := autocommit c;
        issued := S (S (issued c));
        trace := (trace c ++ [Exec (ReplaceState p row); Commit])%list |}).
Proof.
  intros F0 F1. unfold Webdav.replace_state, bind, update, commit. rewrite F0. cbn.
  rewrite F1. cbn. rewrite <- app_assoc. reflexivity.
Qed.

(** A recording that ends without an exception has committed the row. *)
Lemma record_and_commit_ok (p : string) (row : state_row) (c c' : conn) :
  (Webdav.replace_state W p row ;; commit W) c = (Ok tt, c') ->
  durable c' = Sql.replace_state p row (pending c)
  /\ pending c' = durable c'
  /\ trace c' = (trace c ++ [Exec (ReplaceState p row); Commit])%list.
Proof.
  unfold Webdav.replace_state, bind, update, commit.
  destruct (db_fault W (issued c)); [discriminate|]. cbn.
  destruct (db_fault W (S (issued c))); [discriminate|]. cbn.
  intros [= <-]. cbn. rewrite <- app_assoc. auto.
Qed.

Lemma process_item_routed (base_url schema_dir : string) (allowed : option (list string))
    (state_map : pydict Webdav.prev_record) (item : entry) (c : conn)
    (data : pydict json) (schema_id : string) :
  let url := Webdav.build_file_url L base_url (href item) in
  let identifier := Webdav.get_identifier L data (PyStr.path_stem (href item)) in
  Webdav.unchanged (dict_get state_map (href item)) (etag item) (last_modified item) = false ->
  http_get_json W url = Ok (JObj data) ->
  py_get data "FileTypeIdentifier" = JStr Webdav.FILE_TYPE_IDENTIFIER ->
  get_schema_id L data = Some schema_id ->
  schema_id <> "" ->
  Webdav.process_item L W base_url schema_dir allowed state_map item c
  = let r := Webdav.process_and_record L W schema_dir url data schema_id identifier allowed
               item (snd (fetch W url c)) in
    match fst r with
    | Ok _ => (Ok tt, snd r)
    | Raise exc => Webdav.on_processing_error W schema_id identifier item exc (snd r)
    end.
Proof.
  intros url identifier Hun Hget Hmark Hid Hne.
  unfold Webdav.process_item. rewrite Hun, bind_attempt. fold url.
  unfold fetch at 1. cbn [fst]. rewrite Hget, Hmark.
  unfold Webdav.FILE_TYPE_IDENTIFIER at 1. cbn [scalar_eqb].
  rewrite String.eqb_refl. cbn [negb]. rewrite Hid.
  destruct schema_id as [|ch s]; [congruence|].
  rewrite bind_attempt. fold identifier. cbv zeta.
  destruct (fst _) as [[]|exc]; reflexivity.
Qed.

End RoutedTurn.

(** ** The allow-list *)

(** X1. A document whose SchemaID is not in the allow-list is fetched and
    recorded as skipped with the reason, and that is all: no schema is
    read, no statement touches a target table, whatever the store holds. *)
Theorem not_allowed_is_skipped (L : pylib) (W : world) (base_url schema_dir : string)
    (allowed : list string) (state_map : pydict Webdav.prev_record) (item : entry)
    (c : conn) (data : pydict json) (schema_id : string) :
  let url := Webdav.build_file_url L base_url (href item) in
  let identifier := Webdav.get_identifier L data (PyStr.path_stem (href item)) in
  let row := Webdav.state_of (etag item) (last_modified item) (Some schema_id)
               (Some identifier) "skipped"
               (Some ("SchemaID '" ++ schema_id ++ "' not in allow-list.")) in
  Webdav.unchanged (dict_get state_map (href item)) (etag item) (last_modified item) = false ->
  http_get_json W url = Ok (JObj data) ->
  py_get data "FileTypeIdentifier" = JStr Webdav.FILE_TYPE_IDENTIFIER ->
  get_schema_id L data = Some schema_id ->
  schema_id <> "" ->
  existsb (String.eqb schema_id) allowed = false ->
  db_fault W (issued c) = false ->
  db_fault W (S (issued c)) = false ->
  let run := Webdav.process_item L W base_url schema_dir (Some allowed) state_map item c in
  fst run = Ok tt
  /\ trace (snd run) = (trace c ++ [Fetch url; Exec (ReplaceState (href item) row); Commit])%list
  /\ dict_get (ingest_state (durable (snd run))) (href item) = Some row
  /\ tables (durable (snd run)) = tables (pending c).
Proof.
  intros url identifier row Hun Hget Hmark Hid Hne Hnot F0 F1 run. subst run.
  rewrite (process_item_routed L W base_url schema_dir (Some allowed) state_map item c data
             schema_id Hun Hget Hmark Hid Hne).
  fold url. fold identifier. cbv zeta.
  unfold Webdav.process_and_record.
  rewrite (bind_ok _ _ (snd (fetch W url c)) (snd (fetch W url c))
             (false, "SchemaID '" ++ schema_id ++ "' not in allow-list.")).
  2:{ unfold Webdav.process_file. rewrite Hnot. reflexivity. }
  cbv iota beta. fold row.
  rewrite (record_and_commit W (href item) row (snd (fetch W url c)) F0 F1).
  cbn [fst snd durable trace fetch pending].
  destruct (replace_state_get (href item) row (pending c)) as [Hrow Htab].
  repeat split; auto. rewrite <- app_assoc. reflexivity.
Qed.

Lemma not_allowed_is_skipped_witness :
  let run := Webdav.process_item Demo.lib DemoFault.failed_insert DemoFault.base_url "schemas"
               (Some ["T2"; "T3"]) [] DemoFault.first (connect Demo.store false) in
  fst run = Ok tt
  /\ trace (snd run)
     = [Fetch "https://cloud.example/dav/EMPI-RF/a.json";
        Exec (ReplaceState "/dav/EMPI-RF/a.json"
                (Webdav.state_of "e1" "Mon" (Some "T1") (Some "a") "skipped"
                   (Some "SchemaID 'T1' not in allow-list.")));
        Commit].
Proof.
  destruct (not_allowed_is_skipped Demo.lib DemoFault.failed_insert DemoFault.base_url
              "schemas" ["T2"; "T3"] [] DemoFault.first (connect Demo.store false)
              DemoFault.good "T1" eq_refl eq_refl eq_refl eq_refl ltac:(discriminate)
              eq_refl eq_refl eq_refl) as (H1 & H2 & _).
  split; [exact H1 | exact H2].
Defined.

(** ** What [process_file] of the remote ingester writes, and when *)

Ltac written_same :=
  cbn; rewrite ?written_app; cbn; rewrite ?app_nil_r; try reflexivity.

Lemma insert_if_absent_written (L : pylib) (W : world) (url t identifier : string)
    (data : pydict json) (cols : list string) (c : conn) :
  let c' := snd (Webdav.insert_if_absent L W url data t identifier cols c) in
  written (trace c') <> written (trace c) ->
  Sql.select_for_update t
    (if existsb (String.eqb "Identifier") cols then "Identifier" else "identifier")
    (JStr identifier) (pending c) = Ok false
  /\ written (trace c')
     = (written (trace c)
        ++ [(t, cols, project_values L cols data (JStr identifier) (JStr url))])%list.
Proof.
  intros c'. subst c'. unfold Webdav.insert_if_absent, bind, query, update, commit.
  destruct (db_fault W (issued c)).
  { intros H. exfalso. apply H. written_same. }
  destruct (Sql.select_for_update _ _ _ _) as [[|]|e].
  - intros H. exfalso. apply H. cbn [tick issued].
    destruct (db_fault W (S (issued c))); written_same.
  - intros _. split; [reflexivity|]. cbn [tick issued pending].
    destruct (db_fault W (S (issued c))); [written_same|].
    destruct (Sql.insert _ _ _ _); [|written_same].
    cbn [store tick issued]. destruct (db_fault W (S (S (issued c)))); written_same.
  - intros H. exfalso. apply H. written_same.
Qed.

(** X2. Nothing is written for a document unless it is allowed, its schema
    file is there, validation found nothing, the table is there with
    columns, and the check under the row lock found no row with its
    identifier; what is written then is the one projected row. *)
Theorem written_only_when_validated (L : pylib) (W : world) (schema_dir url : string)
    (data : pydict json) (schema_id identifier : string) (allowed : option (list string))
    (c : conn) :
  let c' := snd (Webdav.process_file L W schema_dir url data schema_id identifier allowed c) in
  written (trace c') <> written (trace c) ->
  match allowed with
  | Some l => existsb (String.eqb schema_id) l = true
  | None => True
  end
  /\ exists schema_file cols,
       schema_store W (path_join L schema_dir (schema_id ++ ".json")) = Some schema_file
       /\ (Webdav.validate_payload L schema_file (JObj data) = Ok None
           \/ Webdav.validate_payload L schema_file (JObj data) = Ok (Some ""))
       /\ Sql.show_tables_like schema_id (pending c) = true
       /\ Sql.show_columns schema_id (pending c) = Ok cols
       /\ cols <> []
       /\ Sql.select_for_update schema_id
            (if existsb (String.eqb "Identifier") cols then "Identifier" else "identifier")
            (JStr identifier) (pending c) = Ok false
       /\ written (trace c')
          = (written (trace c)
             ++ [(schema_id, cols,
                  project_values L cols data (JStr identifier) (JStr url))])%list.
Proof.
  intros c'. subst c'. unfold Webdav.process_file.
  set (blocked := match allowed with
                  | Some l => negb (existsb (String.eqb schema_id) l)
                  | None => false
                  end).
  destruct blocked eqn:Hblocked.
  { intros H. exfalso. apply H. reflexivity. }
  assert (Hallowed : match allowed with
                     | Some l => existsb (String.eqb schema_id) l = true
                     | None => True
                     end).
  { subst blocked. destruct allowed; [|exact I]. now apply negb_false_iff in Hblocked. }
  destruct (schema_store W (path_join L schema_dir (schema_id ++ ".json"))) as [sf|] eqn:Hst.
  2:{ intros H. exfalso. apply H. reflexivity. }
  unfold Webdav.lift. unfold bind at 1.
  assert (Hmain : forall (Hval : Webdav.validate_payload L sf (JObj data) = Ok None
                              \/ Webdav.validate_payload L sf (JObj data) = Ok (Some "")),
            let k := (found <- table_exists W schema_id ;;
                      if negb found
                      then ret (false, "Table '" ++ schema_id ++ "' does not exist.")
                      else
                        columns <- get_columns W schema_id ;;
                        match columns with
                        | [] => ret (false, "Table '" ++ schema_id ++ "' has no columns.")
                        | _ :: _ =>
                            Webdav.insert_if_absent L W url data schema_id identifier columns
                        end) in
            written (trace (snd (k c))) <> written (trace c) ->
            exists schema_file cols,
              Some sf = Some schema_file
              /\ (Webdav.validate_payload L schema_file (JObj data) = Ok None
                  \/ Webdav.validate_payload L schema_file (JObj data) = Ok (Some ""))
              /\ Sql.show_tables_like schema_id (pending c) = true
              /\ Sql.show_columns schema_id (pending c) = Ok cols
              /\ cols <> []
              /\ Sql.select_for_update schema_id
                   (if existsb (String.eqb "Identifier") cols
                    then "Identifier" else "identifier")
                   (JStr identifier) (pending c) = Ok false
              /\ written (trace (snd (k c)))
                 = (written (trace c)
                    ++ [(schema_id, cols,
                         project_values L cols data (JStr identifier) (JStr url))])%list).
  { intros Hval k.
    set (c2 := tick (Exec (ShowColumns schema_id)) (tick (Exec (ShowTablesLike schema_id)) c)).
    assert (Hbase : written (trace c2) = written (trace c)) by (subst c2; written_same).
    assert (Hcases :
              written (trace (snd (k c))) = written (trace c)
              \/ exists cols,
                   Sql.show_tables_like schema_id (pending c) = true
                   /\ Sql.show_columns schema_id (pending c) = Ok cols
                   /\ cols <> []
                   /\ k c = Webdav.insert_if_absent L W url data schema_id identifier cols c2).
    { subst k c2. unfold bind, table_exists, get_columns, query.
      destruct (db_fault W (issued c)); [left; written_same|].
      destruct (Sql.show_tables_like schema_id (pending c)); cbn [negb];
        [|left; written_same].
      cbn [tick issued pending].
      destruct (db_fault W (S (issued c))); [left; written_same|].
      destruct (Sql.show_columns schema_id (pending c)) as [cols|e]; [|left; written_same].
      destruct cols as [|col cols]; [left; written_same|].
      right. exists (col :: cols). repeat split; auto. discriminate. }
    intros H. destruct Hcases as [Hsame|(cols & Hlike & Hcols & Hne & Hk)]; [contradiction|].
    rewrite Hk in *. rewrite <- Hbase in H.
    destruct (insert_if_absent_written L W url schema_id identifier data cols c2 H)
      as [Hsel Hw].
    exists sf, cols. rewrite Hw, Hbase. repeat split; auto. }
  destruct (Webdav.validate_payload L sf (JObj data)) as [[[|ch m]|]|e] eqn:Hval.
  - intros H. split; [exact Hallowed|]. apply (Hmain (or_intror eq_refl)). exact H.
  - intros H. exfalso. apply H. reflexivity.
  - intros H. split; [exact Hallowed|]. apply (Hmain (or_introl eq_refl)). exact H.
  - intros H. exfalso. apply H. reflexivity.
Qed.

Lemma written_only_when_validated_witness :
  let c' := snd (Webdav.process_file Demo.lib DemoFault.server_gone "schemas"
                   "https://cloud.example/dav/EMPI-RF/a.json" DemoFault.good "T1" "a" None
                   (connect Demo.store false)) in
  written (trace c')
  = [("T1", ["Identifier"; "DocumentLocation"; "Value"],
      [JStr "a"; JStr "https://cloud.example/dav/EMPI-RF/a.json"; JInt 42])].
Proof.
  destruct (written_only_when_validated Demo.lib DemoFault.server_gone "schemas"
              "https://cloud.example/dav/EMPI-RF/a.json" DemoFault.good "T1" "a" None
              (connect Demo.store false) ltac:(discriminate))
    as (_ & sf & cols & _ & _ & _ & Hcols & _ & _ & Hw).
  injection Hcols as <-. exact Hw.
Defined.

(** ** Outcomes of [process_file] and what is committed *)

Lemma same_names_eq (a b : list string) : Sql.same_names a b = true -> a = b.
Proof.
  revert b. induction a as [|x a IH]; intros [|y b]; simpl; try discriminate; auto.
  intros H. apply andb_true_iff in H. destruct H as [H1 H2].
  apply String.eqb_eq in H1. subst. f_equal. auto.
Qed.

Lemma sql_insert_ok (t : string) (cols : list string) (vals : list json) (d d' : database) :
  Sql.insert t cols vals d = Ok d' ->
  exists tb,
    dict_get (tables d) t = Some tb
    /\ cols = columns tb
    /\ length vals = length cols
    /\ Forall (fun r => Sql.conflicts tb vals r = false) (rows tb)
    /\ d' = Sql.set_table d t (Sql.with_rows tb (rows tb ++ [vals])).
Proof.
  unfold Sql.insert, Sql.find_table.
  destruct (dict_get (tables d) t) as [tb|]; [|discriminate].
  destruct (Sql.well_shaped tb cols vals) eqn:Hs; [|discriminate]. cbn [negb].
  destruct (existsb _ _) eqn:Hex; [discriminate|]. intros [= <-].
  unfold Sql.well_shaped in Hs. apply andb_true_iff in Hs. destruct Hs as [H1 H2].
  exists tb. repeat split.
  - now apply same_names_eq.
  - now apply Nat.eqb_eq.
  - now apply existsb_false_Forall.
Qed.

Section Outcomes.
Variable L : pylib.
Variable W : world.

(** What the write step leaves behind when it returns. *)
Lemma insert_if_absent_outcome (url t identifier : string) (data : pydict json)
    (cols : list string) (c c1 : conn) (ok : bool) (msg : string) :
  Webdav.insert_if_absent L W url data t identifier cols c = (Ok (ok, msg), c1) ->
  pending c1 = durable c1
  /\ if ok
     then Sql.insert t cols (project_values L cols data (JStr identifier) (JStr url))
            (pending c) = Ok (durable c1)
     else durable c1 = pending c.
Proof.
  unfold Webdav.insert_if_absent, bind, query, update, commit.
  destruct (db_fault W (issued c)); [discriminate|].
  destruct (Sql.select_for_update _ _ _ _) as [[|]|e]; [| |discriminate].
  - cbn [tick issued pending]. destruct (db_fault W (S (issued c))); [discriminate|].
    intros [= <- _ <-]. cbn. auto.
  - cbn [tick issued pending]. destruct (db_fault W (S (issued c))); [discriminate|].
    destruct (Sql.insert _ _ _ _) as [d|e] eqn:Hins; [|discriminate].
    cbn [store tick issued pending]. destruct (db_fault W (S (S (issued c)))); [discriminate|].
    intros [= <- _ <-]. cbn. auto.
Qed.

(** [process_file] returns without an exception: either nothing was
    inserted and what was pending is as it was, or the projected row was
    inserted into the table named by the SchemaID and committed. *)
Lemma process_file_outcome (schema_dir url : string) (data : pydict json)
    (schema_id identifier : string) (allowed : option (list string)) (c c1 : conn)
    (ok : bool) (msg : string) :
  Webdav.process_file L W schema_dir url data schema_id identifier allowed c
  = (Ok (ok, msg), c1) ->
  if ok
  then pending c1 = durable c1
       /\ exists cols,
            Sql.insert schema_id cols
              (project_values L cols data (JStr identifier) (JStr url)) (pending c)
            = Ok (durable c1)
  else pending c1 = pending c.
Proof.
  unfold Webdav.process_file.
  destruct (match allowed with
            | Some l => negb (existsb (String.eqb schema_id) l)
            | None => false
            end).
  { intros [= <- _ <-]. reflexivity. }
  destruct (schema_store W (path_join L schema_dir (schema_id ++ ".json"))) as [sf|].
  2:{ intros [= <- _ <-]. reflexivity. }
  unfold Webdav.lift. unfold bind at 1.
  assert (Hmain : forall k : M (bool * string),
            k = (found <- table_exists W schema_id ;;
                 if negb found
                 then ret (false, "Table '" ++ schema_id ++ "' does not exist.")
                 else
                   columns <- get_columns W schema_id ;;
                   match columns with
                   | [] => ret (false, "Table '" ++ schema_id ++ "' has no columns.")
                   | _ :: _ =>
                       Webdav.insert_if_absent L W url data schema_id identifier columns
                   end) ->
            k c = (Ok (ok, msg), c1) ->
            if ok
            then pending c1 = durable c1
                 /\ exists cols,
                      Sql.insert schema_id cols
                        (project_values L cols data (JStr identifier) (JStr url)) (pending c)
                      = Ok (durable c1)
            else pending c1 = pending c).
  { intros k ->. unfold bind at 1. unfold table_exists, query at 1.
    destruct (db_fault W (issued c)); [discriminate|].
    destruct (Sql.show_tables_like schema_id (pending c)); cbn [negb].
    2:{ intros [= <- _ <-]. reflexivity. }
    unfold bind at 1. unfold get_columns, query at 1. cbn [tick issued pending].
    destruct (db_fault W (S (issued c))); [discriminate|].
    destruct (Sql.show_columns schema_id (pending c)) as [cols|e]; [|discriminate].
    destruct cols as [|col cols].
    { intros [= <- _ <-]. reflexivity. }
    intros Hrun. apply insert_if_absent_outcome in Hrun. cbn [tick pending] in Hrun.
    destruct Hrun as [Hp Hrest]. destruct ok.
    - split; [exact Hp|]. now exists (col :: cols).
    - congruence. }
  destruct (Webdav.validate_payload L sf (JObj data)) as [[[|ch m]|]|e].
  - apply Hmain. reflexivity.
  - intros [= <- _ <-]. reflexivity.
  - apply Hmain. reflexivity.
  - discriminate.
Qed.

End Outcomes.

(** X3. When the body of the [try] ends without an exception, the record of
    the document is committed with the entry's etag and last_modified, its
    SchemaID and identifier, and nothing is left uncommitted.  A record
    with the status [ok] comes with the projected row committed in the
    table named by the SchemaID; any other record has the status
    [skipped] and a reason. *)
Theorem ok_status_means_row_committed (L : pylib) (W : world) (schema_dir url : string)
    (data : pydict json) (schema_id identifier : string) (allowed : option (list string))
    (item : entry) (c c' : conn) :
  Webdav.process_and_record L W schema_dir url data schema_id identifier allowed item c
  = (Ok tt, c') ->
  pending c' = durable c'
  /\ exists row,
       dict_get (ingest_state (durable c')) (href item) = Some row
       /\ sr_etag row = Some (etag item)
       /\ sr_last_modified row = Some (last_modified item)
       /\ sr_schema_id row = Some schema_id
       /\ sr_identifier row = Some identifier
       /\ ((sr_status row = Some "ok"
            /\ sr_error row = None
            /\ exists tb,
                 dict_get (tables (durable c')) schema_id = Some tb
                 /\ In (project_values L (columns tb) data (JStr identifier) (JStr url))
                      (rows tb))
           \/ (sr_status row = Some "skipped"
               /\ (exists msg, sr_error row = Some msg)
               /\ tables (durable c') = tables (pending c))).
Proof.
  unfold Webdav.process_and_record. rewrite bind_run.
  destruct (Webdav.process_file L W schema_dir url data schema_id identifier allowed c)
    as [[[ok msg]|e] c1] eqn:Hpf; cbn [fst snd]; [|discriminate].
  intros Hrec. apply record_and_commit_ok in Hrec. destruct Hrec as (Hd & Hp & _).
  split; [exact Hp|].
  pose proof (process_file_outcome L W _ _ _ _ _ _ _ _ _ _ Hpf) as Hout.
  eexists. rewrite Hd. split; [apply replace_state_get|].
  cbn [Webdav.state_of sr_etag sr_last_modified sr_schema_id sr_identifier sr_status sr_error].
  repeat split.
  destruct ok.
  - left. repeat split. destruct Hout as [Hpd (cols & Hins)].
    apply sql_insert_ok in Hins. destruct Hins as (tb & Htb & -> & _ & _ & Hd1).
    exists (Sql.with_rows tb (rows tb ++ [project_values L (columns tb) data
                                           (JStr identifier) (JStr url)])).
    split.
    + rewrite (proj2 (replace_state_get _ _ _)), Hpd, Hd1. apply dict_get_set_same.
    + cbn [Sql.with_rows rows columns]. apply in_or_app. right. now left.
  - right. repeat split; [now exists msg|].
    rewrite (proj2 (replace_state_get _ _ _)). now rewrite Hout.
Qed.

Lemma ok_status_means_row_committed_witness :
  let c := {| durable := Demo.store; pending := Demo.store; autocommit := false;
              issued := 7; trace := [] |} in
  let c' := snd (Webdav.process_and_record Demo.lib DemoFault.failed_insert "schemas"
                   "https://cloud.example/dav/EMPI-RF/a.json" DemoFault.good "T1" "a" None
                   DemoFault.first c) in
  pending c' = durable c'
  /\ exists row, dict_get (ingest_state (durable c')) "/dav/EMPI-RF/a.json" = Some row.
Proof.
  intros c c'.
  destruct (ok_status_means_row_committed Demo.lib DemoFault.failed_insert "schemas"
              "https://cloud.example/dav/EMPI-RF/a.json" DemoFault.good "T1" "a" None
              DemoFault.first c c' eq_refl)
    as (Hp & row & Hrow & _).
  split; [exact Hp|]. exists row. exact Hrow.
Defined.

(** ** Every outcome is recorded *)

Lemma scalar_eqb_str (v : json) (s : string) : scalar_eqb v (JStr s) = true <-> v = JStr s.
Proof.
  destruct v; simpl; try (split; discriminate).
  rewrite String.eqb_eq. split; [now intros -> | now intros [= ->]].
Qed.

Section Recording.
Variable L : pylib.
Variable W : world.

Lemma process_and_record_ok (schema_dir url : string) (data : pydict json)
    (schema_id identifier : string) (allowed : option (list string)) (item : entry)
    (c c' : conn) :
  Webdav.process_and_record L W schema_dir url data schema_id identifier allowed item c
  = (Ok tt, c') ->
  pending c' = durable c'
  /\ exists d status err,
       durable c'
       = Sql.replace_state (href item)
           (Webdav.state_of (etag item) (last_modified item) (Some schema_id)
              (Some identifier) status err) d
       /\ (status = "ok" \/ status = "skipped").
Proof.
  unfold Webdav.process_and_record. rewrite bind_run.
  destruct (Webdav.process_file L W schema_dir url data schema_id identifier allowed c)
    as [[[ok msg]|e] c1]; cbn [fst snd]; [|discriminate].
  intros Hrec. apply record_and_commit_ok in Hrec. destruct Hrec as (Hd & Hp & _).
  split; [exact Hp|]. eexists _, _, _. split; [exact Hd|].
  destruct ok; auto.
Qed.

Lemma on_processing_error_ok (schema_id identifier : string) (item : entry) (exc : exn)
    (c c' : conn) :
  Webdav.on_processing_error W schema_id identifier item exc c = (Ok tt, c') ->
  pending c' = durable c'
  /\ durable c'
     = Sql.replace_state (href item)
         (Webdav.state_of (etag item) (last_modified item) (Some schema_id)
            (Some identifier) "error" (Some (exn_str exc))) (durable c).
Proof.
  unfold Webdav.on_processing_error. rewrite bind_run.
  unfold rollback at 1 2. destruct (db_fault W (issued c)); [discriminate|].
  cbn [fst snd]. intros Hrec. apply record_and_commit_ok in Hrec.
  destruct Hrec as (Hd & Hp & _). split; [exact Hp | exact Hd].
Qed.

End Recording.

(** X4. A turn of the loop that ends without an exception, for an entry that
    was not passed over, has committed a record for the entry: it carries
    the entry's etag and last_modified and one of the three statuses, and
    the turn leaves no transaction open.  So does a whole scan that ends
    without an exception. *)
Theorem completed_turn_is_committed (L : pylib) (W : world) (base_url schema_dir : string)
    (allowed : option (list string)) (state_map : pydict Webdav.prev_record) :
  let step := Webdav.process_item L W base_url schema_dir allowed state_map in
  (forall item c c',
      Webdav.unchanged (dict_get state_map (href item)) (etag item) (last_modified item)
      = false ->
      step item c = (Ok tt, c') ->
      pending c' = durable c'
      /\ exists row,
           dict_get (ingest_state (durable c')) (href item) = Some row
           /\ sr_etag row = Some (etag item)
           /\ sr_last_modified row = Some (last_modified item)
           /\ (sr_status row = Some "ok" \/ sr_status row = Some "skipped"
               \/ sr_status row = Some "error"))
  /\ (forall files c c',
        pending c = durable c ->
        for_each step files c = (Ok tt, c') ->
        pending c' = durable c').
Proof.
  intros step.
  assert (Hturn : forall item c c',
      Webdav.unchanged (dict_get state_map (href item)) (etag item) (last_modified item)
      = false ->
      step item c = (Ok tt, c') ->
      pending c' = durable c'
      /\ exists row,
           dict_get (ingest_state (durable c')) (href item) = Some row
           /\ sr_etag row = Some (etag item)
           /\ sr_last_modified row = Some (last_modified item)
           /\ (sr_status row = Some "ok" \/ sr_status row = Some "skipped"
               \/ sr_status row = Some "error")).
  { intros item c c' Hun. subst step. unfold Webdav.process_item.
    rewrite Hun, bind_attempt.
    assert (Hrec : forall sid ident status err c0,
              status = "ok" \/ status = "skipped" \/ status = "error" ->
              (Webdav.replace_state W (href item)
                 (Webdav.state_of (etag item) (last_modified item) sid ident status err) ;;
               commit W) c0 = (Ok tt, c') ->
              pending c' = durable c'
              /\ exists row,
                   dict_get (ingest_state (durable c')) (href item) = Some row
                   /\ sr_etag row = Some (etag item)
                   /\ sr_last_modified row = Some (last_modified item)
                   /\ (sr_status row = Some "ok" \/ sr_status row = Some "skipped"
                       \/ sr_status row = Some "error")).
    { intros sid ident status err c0 Hs Hrun. apply record_and_commit_ok in Hrun.
      destruct Hrun as (Hd & Hp & _). split; [exact Hp|]. eexists. rewrite Hd.
      split; [apply replace_state_get|]. cbn. repeat split.
      destruct Hs as [ -> | [ -> | -> ] ]; auto. }
    destruct (fst (fetch W _ c)) as [data|exc].
    2:{ apply Hrec. auto. }
    destruct data; try discriminate.
    destruct (negb _).
    { apply Hrec. auto. }
    destruct (get_schema_id L members) as [[|ch s]|]; try (apply Hrec; auto).
    rewrite bind_attempt.
    match goal with
    | |- context [Webdav.process_and_record ?l ?w ?d ?u ?m ?s ?i ?a ?it ?c0] =>
        destruct (Webdav.process_and_record l w d u m s i a it c0) as [[[]|exc] c1] eqn:Hpr
    end; cbn [fst snd].
    - intros [= <-]. apply process_and_record_ok in Hpr.
      destruct Hpr as (Hp & d & status & err & Hd & Hs). split; [exact Hp|].
      eexists. rewrite Hd. split; [apply replace_state_get|]. cbn. repeat split.
      destruct Hs as [ -> | -> ]; auto.
    - intros Herr. apply on_processing_error_ok in Herr. destruct Herr as [Hp Hd].
      split; [exact Hp|]. eexists. rewrite Hd. split; [apply replace_state_get|].
      cbn. auto. }
  split; [exact Hturn|].
  induction files as [|item rest IH]; intros c c' Hc Hrun.
  - cbn in Hrun. injection Hrun as <-. exact Hc.
  - cbn [for_each] in Hrun. rewrite bind_run in Hrun.
    destruct (step item c) as [[[]|e] c1] eqn:Hstep; cbn [fst snd] in Hrun; [|discriminate].
    apply (IH c1 c'); [|exact Hrun].
    destruct (Webdav.unchanged (dict_get state_map (href item)) (etag item)
                (last_modified item)) eqn:Hun.
    + subst step. unfold Webdav.process_item in Hstep. rewrite Hun in Hstep.
      injection Hstep as <-. exact Hc.
    + exact (proj1 (Hturn item c c1 Hun Hstep)).
Qed.

Lemma completed_turn_is_committed_witness :
  let c := connect Demo.store false in
  let c' := snd (Webdav.process_item Demo.lib Demo.quiet DemoFault.base_url "schemas" None []
                   DemoFault.first c) in
  pending c' = durable c'
  /\ exists row,
       dict_get (ingest_state (durable c')) "/dav/EMPI-RF/a.json" = Some row
       /\ sr_etag row = Some "e1".
Proof.
  intros c c'.
  destruct (proj1 (completed_turn_is_committed Demo.lib Demo.quiet DemoFault.base_url
                     "schemas" None []) DemoFault.first c c' eq_refl eq_refl)
    as (Hp & row & Hrow & He & _).
  split; [exact Hp|]. exists row. split; [exact Hrow | exact He].
Defined.

(** X5. A document that cannot be downloaded or parsed is recorded with the
    status [error] and the text of the exception, one without the marker
    field with the status [skipped], whatever else it holds: either way no
    schema is read, no statement touches a target table, and the record
    carries no SchemaID and no identifier. *)
Theorem unprocessable_documents_are_recorded (L : pylib) (W : world)
    (base_url schema_dir : string) (allowed : option (list string))
    (state_map : pydict Webdav.prev_record) (item : entry) (c : conn) :
  let url := Webdav.build_file_url L base_url (href item) in
  let run := Webdav.process_item L W base_url schema_dir allowed state_map item c in
  let recorded := fun status reason =>
    let row := Webdav.state_of (etag item) (last_modified item) None None status
                 (Some reason) in
    fst run = Ok tt
    /\ trace (snd run) = (trace c ++ [Fetch url; Exec (ReplaceState (href item) row); Commit])%list
    /\ dict_get (ingest_state (durable (snd run))) (href item) = Some row
    /\ tables (durable (snd run)) = tables (pending c) in
  Webdav.unchanged (dict_get state_map (href item)) (etag item) (last_modified item) = false ->
  db_fault W (issued c) = false ->
  db_fault W (S (issued c)) = false ->
  (forall exc, http_get_json W url = Raise exc ->
               recorded "error" ("download/parse error: " ++ exn_str exc))
  /\ (forall data, http_get_json W url = Ok (JObj data) ->
                   py_get data "FileTypeIdentifier" <> JStr Webdav.FILE_TYPE_IDENTIFIER ->
                   recorded "skipped" "invalid FileTypeIdentifier").
Proof.
  intros url run recorded Hun F0 F1.
  assert (Hrec : forall status reason,
            run = (Webdav.replace_state W (href item)
                     (Webdav.state_of (etag item) (last_modified item) None None status
                        (Some reason)) ;; commit W) (snd (fetch W url c)) ->
            recorded status reason).
  { intros status reason Hrun. subst recorded. cbv beta zeta. rewrite Hrun.
    rewrite (record_and_commit W _ _ (snd (fetch W url c)) F0 F1).
    cbn [fst snd durable trace fetch pending].
    destruct (replace_state_get (href item)
                (Webdav.state_of (etag item) (last_modified item) None None status
                   (Some reason)) (pending c)) as [Hrow Htab].
    repeat split; auto. rewrite <- app_assoc. reflexivity. }
  split.
  - intros exc Hget. apply Hrec. subst run. unfold Webdav.process_item.
    rewrite Hun, bind_attempt. fold url. unfold fetch at 1. cbn [fst]. rewrite Hget.
    reflexivity.
  - intros data Hget Hmark. apply Hrec. subst run. unfold Webdav.process_item.
    rewrite Hun, bind_attempt. fold url. unfold fetch at 1. cbn [fst]. rewrite Hget.
    destruct (scalar_eqb (py_get data "FileTypeIdentifier") (JStr Webdav.FILE_TYPE_IDENTIFIER))
      eqn:E.
    + apply scalar_eqb_str in E. contradiction.
    + reflexivity.
Qed.

Lemma unprocessable_documents_are_recorded_witness :
  let run := Webdav.process_item Demo.lib Demo.quiet DemoFault.base_url "schemas" None []
               DemoFault.first (connect Demo.store false) in
  fst run = Ok tt
  /\ dict_get (ingest_state (durable (snd run))) "/dav/EMPI-RF/a.json"
     = Some (Webdav.state_of "e1" "Mon" None None "error"
               (Some "download/parse error: 404 Client Error")).
Proof.
  destruct (proj1 (unprocessable_documents_are_recorded Demo.lib Demo.quiet DemoFault.base_url
                     "schemas" None [] DemoFault.first (connect Demo.store false)
                     eq_refl eq_refl eq_refl)
              (TransportError "404 Client Error") eq_refl) as (H1 & _ & H3 & _).
  split; [exact H1 | exact H3].
Defined.

(** X6. A document that parses but is not an object (an array, a string, a
    number, null) makes the turn raise outside every handler: the scan
    ends there, nothing is recorded for the entry, no statement is sent,
    and the entries after it are not looked at. *)
Theorem non_object_document_ends_scan (L : pylib) (W : world) (base_url schema_dir : string)
    (allowed : option (list string)) (state_map : pydict Webdav.prev_record)
    (item : entry) (rest : list entry) (c : conn) (v : json) :
  let url := Webdav.build_file_url L base_url (href item) in
  let step := Webdav.process_item L W base_url schema_dir allowed state_map in
  Webdav.unchanged (dict_get state_map (href item)) (etag item) (last_modified item) = false ->
  http_get_json W url = Ok v ->
  (forall members, v <> JObj members) ->
  exists msg,
    for_each step (item :: rest) c
    = (Raise (PythonError msg),
       {| durable := durable c; pending := pending c; autocommit := autocommit c;
          issued := issued c; trace := (trace c ++ [Fetch url])%list |}).
Proof.
  intros url step Hun Hget Hobj.
  exists "AttributeError: object has no attribute 'get'".
  cbn [for_each]. rewrite bind_run. subst step. unfold Webdav.process_item.
  rewrite Hun, bind_attempt. fold url. unfold fetch. cbn [fst snd]. rewrite Hget.
  destruct v; try reflexivity. exfalso. exact (Hobj members eq_refl).
Qed.

Lemma non_object_document_ends_scan_witness :
  exists msg,
    Webdav.scan Demo.lib DemoArray.feed DemoFault.base_url DemoFault.target_url "schemas" None
      (connect Demo.store false)
    = (Raise (PythonError msg),
       {| durable := Demo.store; pending := Demo.store; autocommit := false; issued := 3;
          trace := [Exec CreateStateTable; Commit;
                    Exec (SelectState ["/dav/EMPI-RF/a.json"; "/dav/EMPI-RF/b.json"]);
                    Fetch "https://cloud.example/dav/EMPI-RF/a.json"] |}).
Proof.
  destruct (non_object_document_ends_scan Demo.lib DemoArray.feed DemoFault.base_url "schemas"
              None [] DemoFault.first [DemoFault.second]
              {| durable := Demo.store; pending := Demo.store; autocommit := false;
                 issued := 3;
                 trace := [Exec CreateStateTable; Commit;
                           Exec (SelectState ["/dav/EMPI-RF/a.json"; "/dav/EMPI-RF/b.json"])] |}
              (JArr [JInt 1; JInt 2]) eq_refl eq_refl ltac:(discriminate)) as [msg H].
  exists msg. exact H.
Defined.

(** ** What a scan fetches *)

Lemma no_fetch_load_chunks (W : world) (cs : list (list string))
    (st : pydict Webdav.prev_record) :
  no_fetch (Webdav.load_chunks W cs st).
Proof.
  revert st. induction cs as [|chunk more IH]; intros st; cbn [Webdav.load_chunks].
  - apply no_fetch_ret.
  - apply no_fetch_bind; [apply no_fetch_query|]. intros found. apply IH.
Qed.

Lemma no_fetch_get_state_map (W : world) (paths : list string) :
  no_fetch (Webdav.get_state_map W paths).
Proof.
  unfold Webdav.get_state_map. destruct paths; [apply no_fetch_ret|].
  apply no_fetch_load_chunks.
Qed.

(** The fetches of the loop, however it ends: those of the entries that
    are not passed over, among the first so many. *)
Lemma for_each_fetched (L : pylib) (W : world) (base_url schema_dir : string)
    (allowed : option (list string)) (state_map : pydict Webdav.prev_record)
    (files : list entry) (c : conn) :
  let skip := fun item : entry =>
    Webdav.unchanged (dict_get state_map (href item)) (etag item) (last_modified item) in
  exists k,
    fetched (trace (snd (for_each (Webdav.process_item L W base_url schema_dir allowed state_map)
                           files c)))
    = (fetched (trace c)
       ++ map (fun item => Webdav.build_file_url L base_url (href item))
            (filter (fun item => negb (skip item)) (firstn k files)))%list.
Proof.
  intros skip. revert c. induction files as [|item rest IH]; intros c.
  - exists 0%nat. cbn. now rewrite app_nil_r.
  - cbn [for_each]. rewrite bind_run.
    assert (Hstep : fetched (trace (snd (Webdav.process_item L W base_url schema_dir allowed
                                            state_map item c)))
                    = (fetched (trace c)
                       ++ map (fun item => Webdav.build_file_url L base_url (href item))
                            (filter (fun item => negb (skip item)) [item]))%list).
    { cbn [filter]. destruct (skip item) eqn:E; cbn [negb map].
      - unfold Webdav.process_item. subst skip. cbv beta in E. rewrite E. cbn.
        now rewrite app_nil_r.
      - apply process_item_fetches. exact E. }
    destruct (Webdav.process_item L W base_url schema_dir allowed state_map item c)
      as [[[]|e] c1]; cbn [fst snd] in *.
    + destruct (IH c1) as [k Hk]. exists (S k). rewrite Hk, Hstep. cbn [firstn filter].
      destruct (negb (skip item)); cbn [map app]; rewrite <- app_assoc; reflexivity.
    + exists 1%nat. exact Hstep.
Qed.

(** X7. Whatever a scan fetches is the URL of a listed entry that is not a
    collection and whose href ends in [.json] without regard to case; the
    entries are fetched in the order of the listing, none twice; and when
    the listing fails nothing is fetched. *)
Theorem scan_fetches_only_json_files (L : pylib) (W : world)
    (base_url target_url schema_dir : string) (allowed : option (list string)) (c : conn) :
  let c' := snd (Webdav.scan L W base_url target_url schema_dir allowed c) in
  match propfind W target_url with
  | Raise _ => fetched (trace c') = fetched (trace c)
  | Ok entries =>
      exists k keep,
        fetched (trace c')
        = (fetched (trace c)
           ++ map (fun item => Webdav.build_file_url L base_url (href item))
                (filter keep
                   (firstn k
                      (filter (fun e => negb (is_collection e)
                                        && PyStr.endswith (str_lower L (href e)) ".json")
                         entries))))%list
  end.
Proof.
  intros c'. subst c'. unfold Webdav.scan. rewrite bind_run.
  pose proof (no_fetch_update W CreateStateTable (fun d => Ok d) c) as H0.
  unfold Webdav.ensure_state_table.
  destruct (update W CreateStateTable (fun d => Ok d) c) as [[[]|e] c0]; cbn [fst snd] in *.
  2:{ destruct (propfind W target_url); [exists 0%nat, (fun _ => true); cbn|];
      rewrite ?app_nil_r; exact H0. }
  rewrite bind_run. pose proof (no_fetch_commit W c0) as H1.
  destruct (commit W c0) as [[[]|e] c1]; cbn [fst snd] in *.
  2:{ rewrite H1. destruct (propfind W target_url); [exists 0%nat, (fun _ => true); cbn|];
      rewrite ?app_nil_r; exact H0. }
  rewrite bind_run. unfold Webdav.lift at 1 2. cbn [fst snd].
  destruct (propfind W target_url) as [entries|e].
  2:{ cbn. now rewrite H1. }
  rewrite bind_run.
  pose proof (no_fetch_get_state_map W
                (map href (filter (Webdav.is_json_file L) entries)) c1) as H2.
  destruct (Webdav.get_state_map W _ c1) as [[state_map|e] c2]; cbn [fst snd] in *.
  2:{ exists 0%nat, (fun _ => true). cbn. rewrite app_nil_r. congruence. }
  destruct (for_each_fetched L W base_url schema_dir allowed state_map
              (filter (Webdav.is_json_file L) entries) c2) as [k Hk].
  exists k. eexists. rewrite Hk, H2, H1, H0. reflexivity.
Qed.

(** ** Loading the state map *)

Lemma chunks_sizes (fuel : nat) (paths : list string) :
  length paths <= fuel ->
  Forall (fun chunk => 1 <= length chunk <= 500) (Webdav.chunks fuel paths).
Proof.
  revert paths. induction fuel as [|fuel IH]; intros paths Hlen.
  - constructor.
  - destruct paths as [|p rest]; [constructor|].
    change (Webdav.chunks (S fuel) (p :: rest))
      with (firstn 500 (p :: rest) :: Webdav.chunks fuel (skipn 500 (p :: rest))).
    constructor.
    + rewrite length_firstn. cbn [length]. lia.
    + apply IH. rewrite length_skipn. cbn [length] in *. lia.
Qed.

Lemma load_chunks_trace (W : world) (cs : list (list string))
    (st : pydict Webdav.prev_record) (c : conn) :
  let r := Webdav.load_chunks W cs st c in
  pending (snd r) = pending c
  /\ durable (snd r) = durable c
  /\ exists j,
       trace (snd r)
       = (trace c ++ map (fun chunk => Exec (SelectState chunk)) (firstn j cs))%list
       /\ (forall m, fst r = Ok m -> firstn j cs = cs).
Proof.
  cbv zeta. revert st c.
  induction cs as [|chunk more IH]; intros st c; cbn [Webdav.load_chunks].
  - cbn. repeat split. exists 0%nat. cbn. rewrite app_nil_r. auto.
  - rewrite bind_run. unfold query. destruct (db_fault W (issued c)); cbn [fst snd].
    + cbn. repeat split. exists 1%nat. cbn. split; [reflexivity | discriminate].
    + destruct (IH (fold_left
                      (fun st0 row => dict_set (fst row) (Webdav.prev_of (snd row)) st0)
                      (Sql.select_state chunk (pending c)) st)
                  (tick (Exec (SelectState chunk)) c)) as (Hp & Hd & j & Ht & Hall).
      split; [exact Hp|]. split; [exact Hd|].
      exists (S j). cbn [firstn map]. split.
      * rewrite Ht. cbn [tick trace]. rewrite <- app_assoc. reflexivity.
      * intros m Hm. f_equal. eapply Hall. exact Hm.
Qed.

(** X8. The state map is read with one SELECT for every 500 paths: the chunks
    are the paths cut in order into pieces of at most 500, none of them
    empty, so that no path is left out and an empty listing sends no
    statement; and reading changes nothing in the store. *)
Theorem state_map_is_read_in_chunks (W : world) (paths : list string) (c : conn) :
  let cs := Webdav.chunks (length paths) paths in
  let r := Webdav.get_state_map W paths c in
  concat cs = paths
  /\ Forall (fun chunk => 1 <= length chunk <= 500) cs
  /\ pending (snd r) = pending c
  /\ durable (snd r) = durable c
  /\ exists j,
       trace (snd r)
       = (trace c ++ map (fun chunk => Exec (SelectState chunk)) (firstn j cs))%list
       /\ (forall m, fst r = Ok m -> firstn j cs = cs).
Proof.
  intros cs r. split; [apply chunks_cover; apply le_n|].
  split; [apply chunks_sizes; apply le_n|].
  subst r cs. unfold Webdav.get_state_map. destruct paths as [|p rest].
  - cbn. repeat split. exists 0%nat. cbn. rewrite app_nil_r. auto.
  - apply load_chunks_trace.
Qed.

(** ** The same document fed twice to the insert-only policy *)

Lemma column_index_some (col : string) (cols : list string) (i : nat) :
  Sql.column_index col cols = Some i ->
  exists c, nth_error cols i = Some c /\ PyStr.lower c = PyStr.lower col.
Proof.
  revert i. induction cols as [|c0 rest IH]; simpl; [discriminate|].
  intros i. destruct (String.eqb (PyStr.lower c0) (PyStr.lower col)) eqn:E.
  - intros [= <-]. apply String.eqb_eq in E. now exists c0.
  - destruct (Sql.column_index col rest) as [j|]; [|discriminate].
    intros [= <-]. exact (IH j eq_refl).
Qed.

Lemma document_value_lower (L : pylib) (data : pydict json) (a b : string) :
  str_lower L a = str_lower L b -> document_value L data a = document_value L data b.
Proof. intros H. unfold document_value, matching_key. now rewrite H. Qed.

(** A string that the server folds to an ASCII name is ASCII, and the
    library then lower-cases it to that name. *)
Lemma lower_char_ascii (c : ascii) :
  Nat.ltb (nat_of_ascii (PyStr.lower_char c)) 128 = Nat.ltb (nat_of_ascii c) 128.
Proof.
  destruct c as [b0 b1 b2 b3 b4 b5 b6 b7].
  destruct b0, b1, b2, b3, b4, b5, b6, b7; reflexivity.
Qed.

Lemma lower_is_ascii (s : string) : PyStr.is_ascii (PyStr.lower s) = PyStr.is_ascii s.
Proof.
  induction s as [|c t IH]; [reflexivity|].
  cbn [PyStr.lower PyStr.is_ascii]. now rewrite lower_char_ascii, IH.
Qed.

Lemma str_lower_ascii (L : pylib) (s t : string) :
  PyStr.lower s = t -> PyStr.is_ascii t = true -> str_lower L s = t.
Proof.
  intros <- Ht. rewrite lower_is_ascii in Ht. now apply lower_ascii.
Qed.

Lemma nth_map_default {A B} (f : A -> B) (l : list A) (i : nat) (x : A) (d : B) :
  nth_error l i = Some x -> nth i (map f l) d = f x.
Proof.
  revert i. induction l as [|y l IH]; intros [|i]; simpl; try discriminate.
  - now intros [= ->].
  - apply IH.
Qed.

(** X9. A document that was inserted and is fed again, unchanged, to the
    write step is found by the check under the row lock and turned away
    as a duplicate: nothing is inserted, and the store is as it was.  This
    holds when the row carries the identifier in its identifier column,
    which it does when the document has no value of its own for that
    column, or the identifier itself. *)
Theorem second_insert_is_duplicate (L : pylib) (W : world) (url t identifier : string)
    (data : pydict json) (cols : list string) (c c1 : conn) (msg : string) :
  Webdav.insert_if_absent L W url data t identifier cols c = (Ok (true, msg), c1) ->
  document_value L data "identifier" = JNull
  \/ document_value L data "identifier" = JStr identifier ->
  db_fault W (issued c1) = false ->
  db_fault W (S (issued c1)) = false ->
  let again := Webdav.insert_if_absent L W url data t identifier cols c1 in
  fst again
  = Ok (false, "Identifier '" ++ identifier ++ "' already exists in '" ++ t ++ "'.")
  /\ pending (snd again) = pending c1
  /\ durable (snd again) = pending c1
  /\ written (trace (snd again)) = written (trace c1).
Proof.
  intros Hfirst Hdoc G0 G1 again.
  set (col := if existsb (String.eqb "Identifier") cols then "Identifier" else "identifier").
  set (vals := project_values L cols data (JStr identifier) (JStr url)).
  assert (Hlow : PyStr.lower col = "identifier").
  { subst col. destruct (existsb _ cols); reflexivity. }
  assert (Hname : str_lower L "identifier" = "identifier").
  { now apply lower_ascii. }
  (* what the first run did *)
  assert (Hsel1 : exists b, Sql.select_for_update t col (JStr identifier) (pending c) = Ok b).
  { revert Hfirst. unfold Webdav.insert_if_absent, bind, query. fold col.
    destruct (db_fault W (issued c)); [discriminate|].
    destruct (Sql.select_for_update t col (JStr identifier) (pending c)) as [b|e];
      [intros _; now exists b | discriminate]. }
  pose proof (insert_if_absent_outcome L W url t identifier data cols c c1 true msg Hfirst)
    as [Hpd Hins].
  fold vals in Hins. apply sql_insert_ok in Hins.
  destruct Hins as (tb & Htb & Hcols & _ & _ & Hd1).
  destruct Hsel1 as [b Hsel1]. unfold Sql.select_for_update, Sql.find_table in Hsel1.
  rewrite Htb in Hsel1.
  destruct (Sql.column_index col (columns tb)) as [i|] eqn:Hi; [|discriminate].
  destruct (column_index_some col (columns tb) i Hi) as (c0 & Hnth & Hc0).
  assert (Hcell : nth i vals JNull = JStr identifier).
  { subst vals. unfold project_values. rewrite Hcols.
    rewrite (nth_map_default _ _ i c0 JNull Hnth), project_value_spec.
    assert (Hc0' : str_lower L c0 = "identifier").
    { apply str_lower_ascii; [now rewrite Hc0, Hlow | reflexivity]. }
    rewrite Hc0'. cbn [String.eqb Ascii.eqb Bool.eqb andb].
    rewrite (document_value_lower L data c0 "identifier") by (now rewrite Hc0', Hname).
    destruct Hdoc as [-> | ->]; reflexivity. }
  (* the second run *)
  assert (Hsel2 : Sql.select_for_update t col (JStr identifier) (pending c1) = Ok true).
  { rewrite Hpd, Hd1. unfold Sql.select_for_update, Sql.find_table, Sql.set_table.
    cbn [tables]. rewrite dict_get_set_same. cbn [Sql.with_rows columns rows]. rewrite Hi.
    f_equal. rewrite existsb_app. cbn [existsb]. rewrite Hcell.
    unfold Sql.eq. cbn [is_none negb andb scalar_eqb]. rewrite String.eqb_refl.
    now rewrite orb_true_r. }
  subst again. unfold Webdav.insert_if_absent, bind, query, commit. fold col.
  rewrite G0, Hsel2. cbn [tick issued pending]. rewrite G1. cbn.
  repeat split. rewrite !written_app. cbn. now rewrite !app_nil_r.
Qed.

Lemma second_insert_is_duplicate_witness :
  let c := connect Demo.store false in
  let c1 := snd (Webdav.insert_if_absent Demo.lib Demo.quiet "https://cloud.example/dav/a.json"
                   DemoFault.good "T1" "a" ["Identifier"; "DocumentLocation"; "Value"] c) in
  let again := Webdav.insert_if_absent Demo.lib Demo.quiet "https://cloud.example/dav/a.json"
                 DemoFault.good "T1" "a" ["Identifier"; "DocumentLocation"; "Value"] c1 in
  fst again = Ok (false, "Identifier 'a' already exists in 'T1'.")
  /\ pending (snd again) = pending c1.
Proof.
  intros c c1 again.
  destruct (second_insert_is_duplicate Demo.lib Demo.quiet "https://cloud.example/dav/a.json"
              "T1" "a" DemoFault.good ["Identifier"; "DocumentLocation"; "Value"] c c1
              "inserted" eq_refl (or_introl eq_refl) eq_refl eq_refl) as (H1 & H2 & _).
  split; [exact H1 | exact H2].
Defined.

(** ** The snapshot of the directory ingester *)

Section Keeps.
Context {B : Type}.
Variable proj : list event -> list B.
Hypothesis proj_app : forall a b, proj (a ++ b) = (proj a ++ proj b)%list.
Variable W : world.

Lemma keeps_ret {A} (a : A) : keeps proj (ret a).
Proof. intros c. reflexivity. Qed.

Lemma keeps_bind {A C} (m : M A) (k : A -> M C) :
  keeps proj m -> (forall a, keeps proj (k a)) -> keeps proj (bind m k).
Proof.
  intros Hm Hk c. rewrite bind_run. specialize (Hm c).
  destruct (m c) as [[a|e] c1]; cbn [fst snd] in *.
  - rewrite (Hk a c1). exact Hm.
  - exact Hm.
Qed.

Lemma keeps_attempt {A} (m : M A) : keeps proj m -> keeps proj (attempt m).
Proof. intros Hm c. rewrite attempt_run. apply Hm. Qed.

Lemma keeps_query {A} (s : stmt) (run : database -> result A) :
  proj [Exec s] = [] -> keeps proj (query W s run).
Proof.
  intros Hs c. unfold query. destruct (db_fault W (issued c)); cbn;
    rewrite proj_app, Hs; apply app_nil_r.
Qed.

Lemma keeps_update (s : stmt) (run : database -> result database) :
  proj [Exec s] = [] -> keeps proj (update W s run).
Proof.
  intros Hs c. unfold update. destruct (db_fault W (issued c)); cbn.
  - rewrite proj_app, Hs. apply app_nil_r.
  - destruct (run (pending c)); cbn; rewrite proj_app, Hs; apply app_nil_r.
Qed.

End Keeps.

Lemma win_process_file_no_delete (L : pylib) (W : world) (file_path t : string)
    (identifier : json) (data : pydict json) :
  keeps deleted (Win.process_file L W file_path t identifier data).
Proof.
  unfold Win.process_file, table_exists, get_columns.
  apply (keeps_bind deleted); [apply (keeps_query deleted deleted_app); reflexivity|].
  intros found. destruct (negb found); [apply keeps_ret|].
  apply (keeps_bind deleted); [apply (keeps_query deleted deleted_app); reflexivity|].
  intros cols. destruct cols; [apply keeps_ret|].
  apply (keeps_update deleted deleted_app). reflexivity.
Qed.

Lemma py_in_iterable (x : string) (v : json) :
  match py_in x v with
  | Ok _ => iterable v = true
  | Raise _ => iterable v = false
  end.
Proof. destruct v; reflexivity. Qed.

(** What one turn of the loop over the files does to the snapshot. *)
Lemma scan_file_result (L : pylib) (W : world) (file : string * option json)
    (prev_state : json) (st : pydict Win.info) (c : conn) :
  let r := Win.scan_file L W file prev_state st c in
  deleted (trace (snd r)) = deleted (trace c)
  /\ match fst r with
     | Ok st' =>
         st' = match snapshot_entry L file with
               | Some inf => dict_set (fst file) inf st
               | None => st
               end
         /\ ~ stops_scan L prev_state file
     | Raise _ => stops_scan L prev_state file /\ snd r = c
     end.
Proof.
  cbv zeta. unfold stops_scan, Win.scan_file, snapshot_entry, not_an_object.
  destruct file as [file_path content]. cbn [fst snd].
  destruct (String.eqb (PyStr.path_name file_path) ".db_ingest_state.json").
  { cbn. split; [reflexivity|]. split; [reflexivity|].
    intros [[H _] | [H _]]; [discriminate | now apply H]. }
  destruct content as [v|].
  2:{ cbn. split; [reflexivity|]. split; [reflexivity|].
      intros [(_ & v & Hv & _) | [H _]]; [discriminate | now apply H]. }
  destruct v;
    try (cbn; split; [reflexivity|]; split; [|reflexivity]; left;
         split; [reflexivity|]; eexists; split; [reflexivity | discriminate]).
  destruct (get_schema_id L members) as [[|ch s]|];
    try (cbn; split; [reflexivity|]; split; [reflexivity|];
         intros [(_ & v & Hv & Hobj) | [H _]];
         [injection Hv as <-; now apply (Hobj members) | now apply H]).
  cbn [String.eqb]. pose proof (py_in_iterable file_path prev_state) as Hit.
  destruct (py_in file_path prev_state) as [seen|exc].
  - rewrite bind_attempt. cbn [fst snd ret].
    split; [apply win_process_file_no_delete|]. split; [reflexivity|].
    intros [(_ & v & Hv & Hobj) | [_ H]];
      [injection Hv as <-; now apply (Hobj members) | congruence].
  - cbn. split; [reflexivity|]. split; [|reflexivity]. right. split; [discriminate | exact Hit].
Qed.

Lemma find_by_path (files : list (string * option json)) (p : string) (content : option json) :
  NoDup (map fst files) -> In (p, content) files ->
  find (fun f => String.eqb (fst f) p) files = Some (p, content).
Proof.
  induction files as [|[q x] rest IH]; simpl; [contradiction|].
  intros Hnd Hin. inversion Hnd as [|? ? Hnotin Hnd']; subst.
  destruct Hin as [[= -> ->]|Hin].
  - now rewrite String.eqb_refl.
  - destruct (String.eqb q p) eqn:E; [|now apply IH].
    apply String.eqb_eq in E. subst q. exfalso. apply Hnotin.
    apply in_map_iff. now exists (p, content).
Qed.

Lemma find_by_path_none (files : list (string * option json)) (p : string) :
  ~ In p (map fst files) -> find (fun f => String.eqb (fst f) p) files = None.
Proof.
  induction files as [|[q x] rest IH]; simpl; [reflexivity|].
  intros H. destruct (String.eqb q p) eqn:E.
  - apply String.eqb_eq in E. tauto.
  - apply IH. tauto.
Qed.

Lemma scan_files_lookup (L : pylib) (W : world) (files : list (string * option json))
    (prev_state : json) (st0 st : pydict Win.info) (c c' : conn) :
  NoDup (map fst files) ->
  Win.scan_files L W files prev_state st0 c = (Ok st, c') ->
  forall p,
    dict_get st p
    = match find (fun f => String.eqb (fst f) p) files with
      | Some f =>
          match snapshot_entry L f with
          | Some inf => Some inf
          | None => dict_get st0 p
          end
      | None => dict_get st0 p
      end.
Proof.
  revert st0 c. induction files as [|file rest IH]; intros st0 c Hnd Hrun p.
  - cbn in Hrun. injection Hrun as <- _. reflexivity.
  - cbn [Win.scan_files] in Hrun. rewrite bind_run in Hrun.
    pose proof (scan_file_result L W file prev_state st0 c) as [_ Hfile]. cbv zeta in Hfile.
    destruct (Win.scan_file L W file prev_state st0 c) as [[st1|e] c1]; cbn [fst snd] in *;
      [|discriminate].
    destruct Hfile as [-> _].
    inversion Hnd as [|? ? Hnotin Hnd']; subst.
    rewrite (IH _ c1 Hnd' Hrun p). cbn [find].
    destruct (String.eqb (fst file) p) eqn:E.
    + apply String.eqb_eq in E. subst p. rewrite (find_by_path_none rest _ Hnotin).
      destruct (snapshot_entry L file); [apply dict_get_set_same | reflexivity].
    + destruct (find _ rest) as [f|].
      * destruct (snapshot_entry L f); [reflexivity|].
        destruct (snapshot_entry L file); [|reflexivity].
        rewrite dict_get_set, E. reflexivity.
      * destruct (snapshot_entry L file); [|reflexivity].
        rewrite dict_get_set, E. reflexivity.
Qed.

(** X10. The snapshot a run writes has an entry for exactly the files that
    parsed to an object with a SchemaID that is not empty (the snapshot
    file itself left out): the SchemaID as the table and the identifier of
    the document.  This is so whether or not the table exists and whether
    or not the write went through, and whatever the previous snapshot
    held. *)
Theorem snapshot_records_routed_files (L : pylib) (W : world)
    (files : list (string * option json)) (prev_state : json) (st : pydict Win.info)
    (delete_missing : bool) (c c' : conn) :
  NoDup (map fst files) ->
  Win.run_once L W files prev_state delete_missing c = (Ok st, c') ->
  (forall p data schema_id,
      In (p, Some (JObj data)) files ->
      String.eqb (PyStr.path_name p) ".db_ingest_state.json" = false ->
      get_schema_id L data = Some schema_id ->
      schema_id <> "" ->
      dict_get st p
      = Some {| Win.i_table := schema_id; Win.i_identifier := Win.identifier_of data p |})
  /\ (forall p inf,
        dict_get st p = Some inf ->
        exists data,
          In (p, Some (JObj data)) files
          /\ String.eqb (PyStr.path_name p) ".db_ingest_state.json" = false
          /\ get_schema_id L data = Some (Win.i_table inf)
          /\ Win.i_table inf <> ""
          /\ Win.i_identifier inf = Win.identifier_of data p).
Proof.
  intros Hnd Hrun. unfold Win.run_once in Hrun. rewrite bind_run in Hrun.
  destruct (Win.scan_files L W files prev_state [] c) as [[st1|e] c1] eqn:Hscan;
    cbn [fst snd] in Hrun; [|discriminate].
  rewrite bind_run in Hrun.
  destruct (fst _) in Hrun; [|discriminate]. injection Hrun as <- _.
  pose proof (scan_files_lookup L W files prev_state [] st1 c c1 Hnd Hscan) as Hlook.
  split.
  - intros p data schema_id Hin Hname Hid Hne. rewrite Hlook, (find_by_path _ _ _ Hnd Hin).
    unfold snapshot_entry. cbn [fst snd]. rewrite Hname, Hid.
    destruct schema_id; [congruence | reflexivity].
  - intros p inf Hget. rewrite Hlook in Hget.
    destruct (find _ files) as [[q content]|] eqn:Hfind; [|discriminate].
    apply find_some in Hfind. destruct Hfind as [Hin Hq]. cbn [fst] in Hq.
    apply String.eqb_eq in Hq. subst q.
    unfold snapshot_entry in Hget. cbn [fst snd] in Hget.
    destruct (String.eqb (PyStr.path_name p) ".db_ingest_state.json") eqn:Hname;
      [discriminate|].
    destruct content as [[]|]; try discriminate.
    destruct (get_schema_id L members) as [[|ch s]|] eqn:Hid; try discriminate.
    injection Hget as <-. exists members. cbn. repeat split; auto. discriminate.
Qed.

Lemma snapshot_records_routed_files_witness :
  let run := Win.run_once Demo.lib Demo.quiet DemoDir.good_files (JObj []) true
               (connect Demo.store true) in
  dict_get (DemoUpper.snapshot run) "/a/nowhere.json"
  = Some {| Win.i_table := "Missing"; Win.i_identifier := JStr "nowhere" |}.
Proof.
  intros run.
  exact (proj1 (snapshot_records_routed_files Demo.lib Demo.quiet DemoDir.good_files (JObj [])
                  (DemoUpper.snapshot run) true (connect Demo.store true) (snd run)
                  ltac:(repeat constructor; cbn; intuition discriminate) eq_refl)
           "/a/nowhere.json" [("schema_id", JStr "Missing")] "Missing"
           ltac:(cbn; tauto) eq_refl eq_refl ltac:(discriminate)).
Defined.

(** ** What a run of the directory ingester deletes, and when it stops *)

Lemma scan_files_no_delete (L : pylib) (W : world) (files : list (string * option json))
    (prev_state : json) (st : pydict Win.info) :
  keeps deleted (Win.scan_files L W files prev_state st).
Proof.
  revert st. induction files as [|file rest IH]; intros st c; cbn [Win.scan_files].
  - reflexivity.
  - rewrite bind_run. pose proof (scan_file_result L W file prev_state st c) as [Hd _].
    cbv zeta in Hd.
    destruct (Win.scan_file L W file prev_state st c) as [[st1|e] c1]; cbn [fst snd] in *.
    + rewrite IH. exact Hd.
    + exact Hd.
Qed.

(** [delete_row] issues at most one DELETE, on the table and for the
    identifier it was given, and on a column spelled one of the two ways,
    which the table then has. *)
Lemma delete_row_deleted (W : world) (t : string) (v : json) (c : conn) :
  let c' := snd (Win.delete_row W t v c) in
  deleted (trace c') = deleted (trace c)
  \/ exists col cols,
       (col = "Identifier" \/ col = "identifier")
       /\ Sql.show_columns t (pending c) = Ok cols
       /\ In col cols
       /\ deleted (trace c') = (deleted (trace c) ++ [(t, col, v)])%list.
Proof.
  cbv zeta. unfold Win.delete_row, bind, get_columns, query, update.
  destruct (db_fault W (issued c)).
  { left. cbn. rewrite deleted_app. cbn. apply app_nil_r. }
  destruct (Sql.show_columns t (pending c)) as [cols|e].
  2:{ left. cbn. rewrite deleted_app. cbn. apply app_nil_r. }
  destruct (existsb (String.eqb "Identifier") cols) eqn:E1; cbn [negb andb].
  - right. exists "Identifier", cols. split; [now left|]. split; [reflexivity|].
    split; [now apply existsb_eqb_In|].
    cbn [tick issued pending].
    destruct (db_fault W (S (issued c))); cbn.
    + rewrite !deleted_app. cbn. now rewrite app_nil_r.
    + destruct (Sql.delete _ _ _ _); cbn; rewrite !deleted_app; cbn; now rewrite app_nil_r.
  - destruct (existsb (String.eqb "identifier") cols) eqn:E2; cbn [negb].
    + right. exists "identifier", cols. split; [now right|]. split; [reflexivity|].
      split; [now apply existsb_eqb_In|].
      cbn [tick issued pending].
      destruct (db_fault W (S (issued c))); cbn.
      * rewrite !deleted_app. cbn. now rewrite app_nil_r.
      * destruct (Sql.delete _ _ _ _); cbn; rewrite !deleted_app; cbn; now rewrite app_nil_r.
    + left. cbn. rewrite deleted_app. cbn. apply app_nil_r.
Qed.

Lemma delete_stored_deleted (L : pylib) (W : world) (entry : json) (c : conn) :
  let c' := snd (Win.delete_stored L W entry c) in
  deleted (trace c') = deleted (trace c)
  \/ exists table identifier col cols,
       Win.stored_row entry = Some (table, identifier)
       /\ (col = "Identifier" \/ col = "identifier")
       /\ Sql.show_columns (py_str L table) (pending c) = Ok cols
       /\ In col cols
       /\ deleted (trace c')
          = (deleted (trace c) ++ [(py_str L table, col, identifier)])%list.
Proof.
  cbv zeta. unfold Win.delete_stored.
  destruct (Win.stored_row entry) as [[table identifier]|]; [|now left].
  destruct (delete_row_deleted W (py_str L table) identifier c) as [H|(col & cols & H)].
  - now left.
  - right. exists table, identifier, col, cols. tauto.
Qed.

Lemma reconcile_deleted (L : pylib) (W : world) (prev_state : pydict json)
    (current_state : pydict Win.info) (c : conn) :
  exists l,
    deleted (trace (snd (Win.reconcile L W prev_state current_state c)))
    = (deleted (trace c) ++ l)%list
    /\ Forall (fun d : string * string * json =>
                 exists p entry table identifier,
                   In (p, entry) prev_state
                   /\ Win.stored_row entry = Some (table, identifier)
                   /\ dict_get current_state p = None
                   /\ fst (fst d) = py_str L table
                   /\ snd d = identifier
                   /\ (snd (fst d) = "Identifier" \/ snd (fst d) = "identifier")) l.
Proof.
  unfold Win.reconcile. revert c.
  induction prev_state as [|[p entry] rest IH]; intros c.
  - exists []. cbn. rewrite app_nil_r. auto.
  - cbn [for_each]. rewrite bind_run, reconcile_step_run. cbn [fst snd].
    set (c1 := if dict_contains current_state p then c
               else snd (Win.delete_stored L W entry c)).
    destruct (IH c1) as (l & Hl & Hall).
    assert (Hweak : Forall (fun d : string * string * json =>
                 exists p0 entry0 table identifier,
                   In (p0, entry0) ((p, entry) :: rest)
                   /\ Win.stored_row entry0 = Some (table, identifier)
                   /\ dict_get current_state p0 = None
                   /\ fst (fst d) = py_str L table
                   /\ snd d = identifier
                   /\ (snd (fst d) = "Identifier" \/ snd (fst d) = "identifier")) l).
    { eapply Forall_impl; [|exact Hall]. intros d (p0 & entry0 & tb & idn & Hin & Hrest).
      exists p0, entry0, tb, idn. split; [now right | exact Hrest]. }
    subst c1. unfold dict_contains in *.
    destruct (dict_get current_state p) eqn:Hget.
    + exists l. split; [exact Hl | exact Hweak].
    + pose proof (delete_stored_deleted L W entry c) as Hdel.
      cbv zeta in Hdel.
      destruct Hdel as [Hsame|(table & identifier & col & cols & Hrow & Hcol & _ & _ & Hone)].
      * exists l. split; [now rewrite Hl, Hsame | exact Hweak].
      * exists ((py_str L table, col, identifier) :: l). split.
        -- rewrite Hl, Hone, <- app_assoc. reflexivity.
        -- constructor; [|exact Hweak]. exists p, entry, table, identifier. cbn.
           repeat split; auto.
Qed.

(** The reconciliation prints what a DELETE raises and goes on. *)
Lemma reconcile_never_raises (L : pylib) (W : world) (prev_state : pydict json)
    (current_state : pydict Win.info) (c : conn) :
  fst (Win.reconcile L W prev_state current_state c) = Ok tt.
Proof.
  unfold Win.reconcile. revert c. induction prev_state as [|item rest IH]; intros c.
  - reflexivity.
  - cbn [for_each]. rewrite bind_run, reconcile_step_run. cbn [fst snd]. apply IH.
Qed.

(** X11. A run deletes only through the reconciliation: none when
    [delete_missing] is off or when the run raised, and otherwise each
    DELETE is for an entry of the previous snapshot whose path has no
    entry in the new one, on the table and for the identifier recorded,
    and on a column spelled [Identifier] or [identifier]. *)
Theorem deletes_only_for_missing_paths (L : pylib) (W : world)
    (files : list (string * option json)) (prev_state : json)
    (delete_missing : bool) (c : conn) :
  let r := Win.run_once L W files prev_state delete_missing c in
  match fst r with
  | Raise _ => deleted (trace (snd r)) = deleted (trace c)
  | Ok st =>
      exists l,
        deleted (trace (snd r)) = (deleted (trace c) ++ l)%list
        /\ (delete_missing = false -> l = [])
        /\ Forall (fun d : string * string * json =>
                     exists members p entry table identifier,
                       prev_state = JObj members
                       /\ In (p, entry) members
                       /\ Win.stored_row entry = Some (table, identifier)
                       /\ dict_get st p = None
                       /\ fst (fst d) = py_str L table
                       /\ snd d = identifier
                       /\ (snd (fst d) = "Identifier" \/ snd (fst d) = "identifier")) l
  end.
Proof.
  cbv zeta. unfold Win.run_once. rewrite bind_run.
  pose proof (scan_files_no_delete L W files prev_state [] c) as Hscan.
  destruct (Win.scan_files L W files prev_state [] c) as [[st|e] c1]; cbn [fst snd] in *;
    [|exact Hscan].
  rewrite bind_run. destruct delete_missing.
  - destruct prev_state as [| | | | | |members]; try exact Hscan.
    destruct (reconcile_deleted L W members st c1) as (l & Hl & Hall).
    rewrite (reconcile_never_raises L W members st c1). cbn [fst snd ret].
    exists l. rewrite Hl, Hscan.
    split; [reflexivity|]. split; [discriminate|].
    eapply Forall_impl; [|exact Hall].
    intros d (p & entry & table & identifier & H). exists members, p, entry, table, identifier.
    tauto.
  - cbn. exists []. rewrite app_nil_r. auto.
Qed.

Lemma scan_files_app (L : pylib) (W : world) (a b : list (string * option json))
    (prev_state : json) (st : pydict Win.info) (c : conn) :
  Win.scan_files L W (a ++ b) prev_state st c
  = match fst (Win.scan_files L W a prev_state st c) with
    | Ok st' => Win.scan_files L W b prev_state st' (snd (Win.scan_files L W a prev_state st c))
    | Raise e => (Raise e, snd (Win.scan_files L W a prev_state st c))
    end.
Proof.
  revert st c. induction a as [|file rest IH]; intros st c; cbn [app Win.scan_files].
  - reflexivity.
  - rewrite !bind_run.
    destruct (Win.scan_file L W file prev_state st c) as [[st1|e] c1]; cbn [fst snd].
    + apply IH.
    + reflexivity.
Qed.

(** The loop over the files ends without an exception exactly when it
    meets no file at which it stops. *)
Lemma scan_files_completes (L : pylib) (W : world) (files : list (string * option json))
    (prev_state : json) (st : pydict Win.info) (c : conn) :
  (exists st', fst (Win.scan_files L W files prev_state st c) = Ok st')
  <-> ~ Exists (stops_scan L prev_state) files.
Proof.
  revert st c. induction files as [|file rest IH]; intros st c; cbn [Win.scan_files].
  - split; [intros _ H; inversion H | intros _; now exists st].
  - rewrite bind_run. pose proof (scan_file_result L W file prev_state st c) as [_ Hfile].
    cbv zeta in Hfile.
    destruct (Win.scan_file L W file prev_state st c) as [[st1|e] c1]; cbn [fst snd] in *.
    + destruct Hfile as [_ Hgo]. rewrite (IH st1 c1). split.
      * intros Hrest H. inversion H; subst; tauto.
      * intros H Hrest. apply H. now right.
    + destruct Hfile as [Hstop _]. split.
      * intros [st' H]. discriminate.
      * intros H. exfalso. apply H. now left.
Qed.

(** X12. A run ends without an exception exactly when it meets no file at
    which the loop stops, that is no file that parses to something that
    is not an object and, where the previous snapshot is null, a boolean
    or a number, no file that gets an entry, and when, with deletion
    enabled, the previous snapshot is an object.  At the first file at
    which the loop stops the run raises: the files before it have been
    processed, those after it are not looked at, nothing is reconciled,
    and no snapshot is returned to be written.  With deletion enabled and
    a previous snapshot that is not an object the run raises after the
    loop, and deletes nothing. *)
Theorem run_stops_at_non_object_file (L : pylib) (W : world)
    (files : list (string * option json)) (prev_state : json)
    (delete_missing : bool) (c : conn) :
  ((exists st, fst (Win.run_once L W files prev_state delete_missing c) = Ok st)
   <-> ~ Exists (stops_scan L prev_state) files
       /\ (delete_missing = true -> exists members, prev_state = JObj members))
  /\ (forall before bad after,
        files = (before ++ bad :: after)%list ->
        ~ Exists (stops_scan L prev_state) before ->
        stops_scan L prev_state bad ->
        exists exc st,
          fst (Win.scan_files L W before prev_state [] c) = Ok st
          /\ Win.run_once L W files prev_state delete_missing c
             = (Raise exc, snd (Win.scan_files L W before prev_state [] c)))
  /\ (~ Exists (stops_scan L prev_state) files ->
      delete_missing = true ->
      (forall members, prev_state <> JObj members) ->
      exists exc,
        Win.run_once L W files prev_state delete_missing c
        = (Raise exc, snd (Win.scan_files L W files prev_state [] c))).
Proof.
  split; [|split].
  - unfold Win.run_once. rewrite bind_run.
    pose proof (scan_files_completes L W files prev_state [] c) as Hscan.
    destruct (Win.scan_files L W files prev_state [] c) as [[st|e] c1]; cbn [fst snd] in *.
    + rewrite bind_run. destruct delete_missing.
      * destruct prev_state as [| | | | | |members];
          try (cbn; split;
               [intros [st' H]; discriminate
               | intros [_ H]; destruct (H eq_refl) as [members Hm]; discriminate]).
        rewrite reconcile_never_raises. cbn. split.
        -- intros _. split; [apply Hscan; now exists st | intros _; now exists members].
        -- intros _. now exists st.
      * cbn. split.
        -- intros _. split; [apply Hscan; now exists st | discriminate].
        -- intros _. now exists st.
    + split.
      * intros [st H]. discriminate.
      * intros [H _]. apply Hscan in H. destruct H as [st H]. discriminate.
  - intros before bad after -> Hfine Hbad.
    apply (scan_files_completes L W before prev_state [] c) in Hfine.
    destruct Hfine as [st Hst].
    pose proof (scan_file_result L W bad prev_state st
                  (snd (Win.scan_files L W before prev_state [] c))) as [_ Hfile].
    cbv zeta in Hfile.
    unfold Win.run_once. rewrite bind_run, scan_files_app, Hst.
    cbn [Win.scan_files]. rewrite bind_run.
    destruct (Win.scan_file L W bad prev_state st _) as [[st1|exc] c1]; cbn [fst snd] in *.
    + destruct Hfile as [_ Hgo]. contradiction.
    + destruct Hfile as [_ ->]. exists exc, st. split; reflexivity.
  - intros Hfine -> Hobj.
    apply (scan_files_completes L W files prev_state [] c) in Hfine.
    destruct Hfine as [st Hst].
    unfold Win.run_once. rewrite bind_run.
    destruct (Win.scan_files L W files prev_state [] c) as [[st1|e] c1]; cbn [fst snd] in *;
      [|discriminate].
    rewrite bind_run.
    destruct prev_state as [| | | | | |members]; try (eexists; reflexivity).
    now destruct (Hobj members).
Qed.

Lemma run_stops_at_non_object_file_witness :
  exists exc,
    fst (Win.run_once Demo.lib Demo.quiet DemoDir.files (JObj []) true
           (connect Demo.store true))
    = Raise exc
    /\ written (trace (snd (Win.run_once Demo.lib Demo.quiet DemoDir.files (JObj []) true
                              (connect Demo.store true))))
       = [("T1", ["Identifier"; "DocumentLocation"; "Value"],
           [JStr "a"; JStr "/a/a.json"; JInt 42])]
    /\ exists exc',
         Win.run_once Demo.lib Demo.quiet DemoDir.good_files JNull false
           (connect Demo.store true)
         = (Raise exc', connect Demo.store true).
Proof.
  destruct (proj1 (proj2 (run_stops_at_non_object_file Demo.lib Demo.quiet DemoDir.files
                            (JObj []) true (connect Demo.store true)))
              [("/a/a.json", Some (JObj Demo.doc))] ("/a/list.json", Some (JArr [JInt 1]))
              [("/a/b.json", Some (JObj Demo.doc))] eq_refl)
    as (exc & st & _ & Hrun).
  - intros H. inversion H as [? ? Hbad|? ? Hnil]; subst.
    + destruct Hbad as [(_ & v & Hv & Hobj) | [_ Hit]]; [|discriminate].
      cbn in Hv. injection Hv as <-. exact (Hobj Demo.doc eq_refl).
    + inversion Hnil.
  - left. split; [reflexivity|]. eexists. split; [reflexivity | discriminate].
  - exists exc. rewrite Hrun. split; [reflexivity|]. split; [reflexivity|].
    destruct (proj1 (proj2 (run_stops_at_non_object_file Demo.lib Demo.quiet
                              DemoDir.good_files JNull false (connect Demo.store true)))
                [] ("/a/a.json", Some (JObj Demo.doc)) (tl DemoDir.good_files) eq_refl)
      as (exc' & st' & _ & Hrun').
    + intros H. inversion H.
    + right. split; [discriminate | reflexivity].
    + exists exc'. exact Hrun'.
Defined.

(** ** Routing and projection under changes of the document *)

Lemma str_of_int_not_empty (n : Z) : PyStr.str_of_int n <> "".
Proof.
  unfold PyStr.str_of_int. destruct (Z.to_int n) as [d|d]; simpl.
  - destruct d; simpl; discriminate.
  - discriminate.
Qed.

(** X13. The SchemaID depends on the keys that read [schemaid] only, on the
    first of them: any other key may come, go or move without changing
    it.  And the value is taken through [str], so that a SchemaID that is
    null, a boolean or an integer is a SchemaID: such a document is routed
    to the table of that name and not skipped as having none. *)
Theorem schema_id_ignores_other_keys (L : pylib) :
  (forall data,
      get_schema_id L data
      = match filter (fun kv => String.eqb (str_lower L (PyStr.remove_char "_" (fst kv)))
                                  "schemaid") data with
        | [] => None
        | (_, v) :: _ => Some (py_str L v)
        end)
  /\ (forall before k v after,
        str_lower L (PyStr.remove_char "_" k) <> "schemaid" ->
        get_schema_id L (before ++ (k, v) :: after)%list = get_schema_id L (before ++ after)%list)
  /\ (forall k v rest,
        str_lower L (PyStr.remove_char "_" k) = "schemaid" ->
        match v with
        | JNull | JBool _ | JInt _ => True
        | _ => False
        end ->
        exists s, get_schema_id L ((k, v) :: rest) = Some s /\ s <> "").
Proof.
  assert (Hfilter : forall data,
      get_schema_id L data
      = match filter (fun kv => String.eqb (str_lower L (PyStr.remove_char "_" (fst kv)))
                                  "schemaid") data with
        | [] => None
        | (_, v) :: _ => Some (py_str L v)
        end).
  { induction data as [|[k v] rest IH]; simpl; [reflexivity|].
    unfold normalize_key. destruct (String.eqb _ "schemaid"); [reflexivity | exact IH]. }
  split; [exact Hfilter|]. split.
  - intros before k v after Hk. rewrite !Hfilter, !filter_app. cbn [filter fst].
    apply String.eqb_neq in Hk. now rewrite Hk.
  - intros k v rest Hk Hv. cbn [get_schema_id]. unfold normalize_key. rewrite Hk.
    cbn [String.eqb Ascii.eqb Bool.eqb andb]. eexists. split; [reflexivity|].
    destruct v as [|[|]|n| | | |]; try contradiction; cbn; try discriminate.
    apply str_of_int_not_empty.
Qed.

Lemma schema_id_ignores_other_keys_witness :
  get_schema_id Demo.lib ([("Value", JInt 1)] ++ ("Comment", JStr "x") :: [("schemaid", JStr "T1")])%list
  = get_schema_id Demo.lib ([("Value", JInt 1)] ++ [("schemaid", JStr "T1")])%list
  /\ exists s, get_schema_id Demo.lib [("Schema_ID", JNull); ("schemaid", JStr "T1")] = Some s
             /\ s <> "".
Proof.
  split.
  - apply (proj1 (proj2 (schema_id_ignores_other_keys Demo.lib))). discriminate.
  - apply (proj2 (proj2 (schema_id_ignores_other_keys Demo.lib))); [reflexivity | exact I].
Defined.

Lemma dict_get_insert_other {V} (a b : pydict V) (k k' : string) (v : V) :
  k <> k' -> dict_get (a ++ (k, v) :: b)%list k' = dict_get (a ++ b)%list k'.
Proof.
  intros Hk. rewrite !dict_get_app. cbn [dict_get].
  apply String.eqb_neq in Hk. now rewrite Hk.
Qed.

Lemma matching_key_insert_other (L : pylib) (a b : pydict json) (k column : string) (v : json) :
  str_lower L k <> str_lower L column ->
  matching_key L (a ++ (k, v) :: b)%list column = matching_key L (a ++ b)%list column.
Proof.
  intros Hk. unfold matching_key. rewrite !fold_left_app. cbn [fold_left fst].
  apply String.eqb_neq in Hk. now rewrite Hk.
Qed.

(** X14. A key of the document that matches no column, whatever the case,
    leaves no trace in the row: with it or without it the projection is
    the same. *)
Theorem projection_ignores_unmatched_keys (L : pylib) (cols : list string)
    (before after : pydict json) (k : string) (v identifier location : json) :
  Forall (fun col => str_lower L k <> str_lower L col) cols ->
  project_values L cols (before ++ (k, v) :: after)%list identifier location
  = project_values L cols (before ++ after)%list identifier location.
Proof.
  intros Hcols. unfold project_values. apply map_ext_in. intros col Hin.
  rewrite Forall_forall in Hcols. specialize (Hcols col Hin).
  rewrite !project_value_spec. unfold document_value.
  rewrite (matching_key_insert_other L before after k col v Hcols).
  destruct (matching_key L (before ++ after)%list col) as [k'|] eqn:Hm; [|reflexivity].
  destruct (proj2 (matching_key_spec L (before ++ after)%list col) k' Hm) as [_ Hlow].
  unfold py_get. rewrite dict_get_insert_other; [reflexivity|].
  intros ->. congruence.
Qed.

Lemma projection_ignores_unmatched_keys_witness :
  project_values Demo.lib ["Identifier"; "Value"]
    [("SchemaID", JStr "T1"); ("Comment", JStr "x"); ("Value", JInt 42)] (JStr "b") (JStr "/b")
  = project_values Demo.lib ["Identifier"; "Value"]
      [("SchemaID", JStr "T1"); ("Value", JInt 42)] (JStr "b") (JStr "/b").
Proof.
  apply (projection_ignores_unmatched_keys Demo.lib ["Identifier"; "Value"]
           [("SchemaID", JStr "T1")] [("Value", JInt 42)] "Comment" (JStr "x")).
  repeat constructor; discriminate.
Defined.

(** X15. When several keys of the document match a column, differing in case
    only, the last of them in the order of the document gives the value,
    if it is not null. *)
Theorem last_matching_key_wins (L : pylib) (before after : pydict json) (k column : string)
    (v identifier location : json) :
  str_lower L k = str_lower L column ->
  dict_get before k = None ->
  Forall (fun kv => str_lower L (fst kv) <> str_lower L column) after ->
  v <> JNull ->
  project_value L (before ++ (k, v) :: after)%list identifier location column
  = normalize_value L v.
Proof.
  intros Hk Hfresh Hafter Hv. rewrite project_value_spec. unfold document_value.
  assert (Hm : matching_key L (before ++ (k, v) :: after)%list column = Some k).
  { unfold matching_key. rewrite fold_left_app. cbn [fold_left fst].
    rewrite Hk, String.eqb_refl.
    exact (proj1 (matching_key_acc L after (str_lower L column) (Some k)) Hafter). }
  rewrite Hm. unfold py_get. rewrite dict_get_app, Hfresh. cbn [dict_get].
  rewrite String.eqb_refl. destruct v; try reflexivity. congruence.
Qed.

Lemma last_matching_key_wins_witness :
  project_value Demo.lib [("VALUE", JInt 1); ("Value", JInt 2); ("SchemaID", JStr "T1")]
    (JStr "b") (JStr "/b") "value"
  = JInt 2.
Proof.
  exact (last_matching_key_wins Demo.lib [("VALUE", JInt 1)] [("SchemaID", JStr "T1")]
           "Value" "value" (JInt 2) (JStr "b") (JStr "/b") eq_refl eq_refl
           ltac:(repeat constructor; discriminate) ltac:(discriminate)).
Defined.

(** ** Settings *)

Section Strip.
Variable p : ascii -> bool.

Lemma lstrip_trimmed (s : string) :
  match PyStr.lstrip p s with
  | EmptyString => True
  | String c _ => p c = false
  end.
Proof.
  induction s as [|c t IH]; simpl; [exact I|].
  destruct (p c) eqn:Hc; [exact IH | exact Hc].
Qed.

Lemma lstrip_head (c : ascii) (t : string) :
  p c = false -> PyStr.lstrip p (String c t) = String c t.
Proof. intros Hc. simpl. now rewrite Hc. Qed.

Lemma lstrip_idem (s : string) : PyStr.lstrip p (PyStr.lstrip p s) = PyStr.lstrip p s.
Proof.
  pose proof (lstrip_trimmed s) as H.
  destruct (PyStr.lstrip p s) as [|c t]; [reflexivity|]. now apply lstrip_head.
Qed.

Lemma rstrip_head (c : ascii) (t : string) :
  p c = false -> PyStr.rstrip p (String c t) = String c (PyStr.rstrip p t).
Proof. intros Hc. simpl. rewrite Hc. now destruct (PyStr.rstrip p t). Qed.

Lemma rstrip_idem (s : string) : PyStr.rstrip p (PyStr.rstrip p s) = PyStr.rstrip p s.
Proof.
  induction s as [|c t IH]; [reflexivity|].
  simpl. destruct (PyStr.rstrip p t) as [|c' r] eqn:Hr.
  - destruct (p c) eqn:Hc; [reflexivity|]. simpl. now rewrite Hc.
  - change (PyStr.rstrip p (String c (String c' r))) with
      (match PyStr.rstrip p (String c' r) with
       | EmptyString => if p c then EmptyString else String c EmptyString
       | r0 => String c r0
       end).
    now rewrite IH.
Qed.

Lemma lstrip_rstrip (s : string) :
  PyStr.lstrip p (PyStr.rstrip p s) = PyStr.rstrip p (PyStr.lstrip p s).
Proof.
  induction s as [|c t IH]; [reflexivity|].
  destruct (p c) eqn:Hc.
  - change (PyStr.lstrip p (String c t)) with (if p c then PyStr.lstrip p t else String c t).
    rewrite Hc, <- IH. simpl.
    destruct (PyStr.rstrip p t) as [|c' r]; [now rewrite Hc|].
    change (PyStr.lstrip p (String c (String c' r)))
      with (if p c then PyStr.lstrip p (String c' r) else String c (String c' r)).
    now rewrite Hc.
  - rewrite (lstrip_head c t Hc), (rstrip_head c t Hc). now apply lstrip_head.
Qed.

Lemma strip_chars_idem (s : string) :
  PyStr.strip_chars p (PyStr.strip_chars p s) = PyStr.strip_chars p s.
Proof.
  unfold PyStr.strip_chars.
  now rewrite lstrip_rstrip, lstrip_idem, rstrip_idem.
Qed.

Lemma strip_chars_lstrip (s : string) :
  PyStr.strip_chars p (PyStr.lstrip p s) = PyStr.strip_chars p s.
Proof. unfold PyStr.strip_chars. now rewrite lstrip_idem. Qed.

Lemma strip_chars_rstrip (s : string) :
  PyStr.strip_chars p (PyStr.rstrip p s) = PyStr.strip_chars p s.
Proof. unfold PyStr.strip_chars. now rewrite lstrip_rstrip, rstrip_idem. Qed.

Lemma lstrip_app (a b : string) (c : ascii) :
  p c = false ->
  PyStr.lstrip p (a ++ String c b) = PyStr.lstrip p a ++ String c b.
Proof.
  intros Hc. induction a as [|x a IH]; simpl.
  - now rewrite Hc.
  - destruct (p x); [exact IH | reflexivity].
Qed.

Lemma rstrip_app (a b : string) (c : ascii) :
  p c = false ->
  PyStr.rstrip p (a ++ String c b) = a ++ String c (PyStr.rstrip p b).
Proof.
  intros Hc. induction a as [|x a IH].
  - now apply rstrip_head.
  - change (PyStr.rstrip p (String x a ++ String c b)) with
      (match PyStr.rstrip p (a ++ String c b) with
       | EmptyString => if p x then EmptyString else String x EmptyString
       | r0 => String x r0
       end).
    rewrite IH. now destruct a.
Qed.

Lemma has_char_lstrip (x : ascii) (s : string) :
  PyStr.has_char x s = false -> PyStr.has_char x (PyStr.lstrip p s) = false.
Proof.
  induction s as [|c t IH]; simpl; [reflexivity|].
  intros H. apply orb_false_elim in H as [Hc Ht].
  destruct (p c); [auto|]. simpl. now rewrite Hc, Ht.
Qed.

Lemma has_char_rstrip (x : ascii) (s : string) :
  PyStr.has_char x s = false -> PyStr.has_char x (PyStr.rstrip p s) = false.
Proof.
  induction s as [|c t IH]; simpl; [reflexivity|].
  intros H. apply orb_false_elim in H as [Hc Ht]. specialize (IH Ht).
  destruct (PyStr.rstrip p t) as [|c' r].
  - destruct (p c); [reflexivity|]. simpl. now rewrite Hc.
  - change (PyStr.has_char x (String c (String c' r)))
      with (Ascii.eqb c x || PyStr.has_char x (String c' r)).
    now rewrite Hc, IH.
Qed.

End Strip.

Lemma split_not_nil (x : ascii) (s : string) : PyStr.split x s <> [].
Proof.
  induction s as [|c t IH]; simpl; [discriminate|].
  destruct (Ascii.eqb c x); [discriminate|].
  destruct (PyStr.split x t); discriminate.
Qed.

Lemma split_pieces (x : ascii) (s : string) :
  Forall (fun piece => PyStr.has_char x piece = false) (PyStr.split x s).
Proof.
  induction s as [|c t IH]; simpl.
  - repeat constructor.
  - destruct (Ascii.eqb c x) eqn:Hc.
    + constructor; [reflexivity | exact IH].
    + destruct (PyStr.split x t) as [|h r]; [repeat constructor; simpl; now rewrite Hc|].
      inversion IH as [|? ? Hh Hr]; subst. constructor; [|exact Hr].
      simpl. now rewrite Hc, Hh.
Qed.

Lemma within_no_char (x : ascii) (a s b : string) :
  PyStr.has_char x (a ++ s ++ b) = false -> PyStr.has_char x s = false.
Proof.
  induction a as [|c a IH]; simpl.
  - induction s as [|c s IHs]; simpl; [reflexivity|].
    intros H. apply orb_false_elim in H as [Hc Hs]. now rewrite Hc, IHs.
  - intros H. apply orb_false_elim in H as [_ H]. auto.
Qed.

Lemma strip_within (s : string) : exists a b, s = a ++ PyStr.strip s ++ b.
Proof.
  assert (Hl : forall p s, exists a, s = a ++ PyStr.lstrip p s).
  { intros p. induction s0 as [|c t [a IH]]; [now exists ""|].
    simpl. destruct (p c); [|now exists ""]. exists (String c a). simpl. now rewrite <- IH. }
  assert (Hr : forall p s, exists b, s = PyStr.rstrip p s ++ b).
  { intros p. induction s0 as [|c t [b IH]]; [now exists ""|].
    simpl. destruct (PyStr.rstrip p t) as [|c' r].
    - destruct (p c); [now exists (String c t)|]. exists t. reflexivity.
    - exists b. change (String c t = String c (String c' r ++ b)). now rewrite <- IH. }
  destruct (Hl PyStr.is_space s) as [a Ha].
  destruct (Hr PyStr.is_space (PyStr.lstrip PyStr.is_space s)) as [b Hb].
  exists a, b. unfold PyStr.strip, PyStr.strip_chars. now rewrite <- Hb.
Qed.

(** X16. The names of an allow-list are not empty, have no white space
    around them and hold no comma: where an allow-list is set, a SchemaID
    that is empty, that begins or ends with white space or that holds a
    comma is in no allow-list, and its documents are skipped.  This rests
    on two facts about [str.strip]: what it returns is a part of its
    argument, and it leaves what it returned as it is. *)
Theorem allow_list_names_are_trimmed (L : pylib) (W : world) (setting : string)
    (allowed : list string) :
  (forall s, str_strip L (str_strip L s) = str_strip L s) ->
  (forall s, exists a b, s = a ++ str_strip L s ++ b) ->
  Config.allow_list L setting = Some allowed ->
  Forall (fun name => name <> "" /\ str_strip L name = name
                      /\ PyStr.has_char "," name = false) allowed
  /\ forall schema_dir url data schema_id identifier c,
       schema_id = "" \/ str_strip L schema_id <> schema_id
       \/ PyStr.has_char "," schema_id = true ->
       Webdav.process_file L W schema_dir url data schema_id identifier (Some allowed) c
       = (Ok (false, "SchemaID '" ++ schema_id ++ "' not in allow-list."), c).
Proof.
  intros Hidem Hwithin Hlist.
  assert (Hnames : Forall (fun name => name <> "" /\ str_strip L name = name
                                       /\ PyStr.has_char "," name = false) allowed).
  { unfold Config.allow_list in Hlist. destruct (String.eqb setting ""); [discriminate|].
    injection Hlist as <-. apply Forall_forall. intros name Hin.
    apply filter_In in Hin as [Hin Hne]. apply in_map_iff in Hin as (piece & <- & Hpiece).
    split; [|split].
    - intros Heq. rewrite Heq in Hne. discriminate.
    - apply Hidem.
    - pose proof (split_pieces "," setting) as Hall. rewrite Forall_forall in Hall.
      destruct (Hwithin piece) as (a & b & Hab).
      apply (within_no_char "," a _ b). rewrite <- Hab. now apply Hall. }
  split; [exact Hnames|].
  intros schema_dir url data schema_id identifier c Hbad.
  unfold Webdav.process_file.
  assert (Hout : existsb (String.eqb schema_id) allowed = false).
  { apply not_true_is_false. intros Hex. apply existsb_exists in Hex as (name & Hin & Heq).
    apply String.eqb_eq in Heq. subst name.
    rewrite Forall_forall in Hnames. destruct (Hnames schema_id Hin) as (Hne & Hstrip & Hcomma).
    destruct Hbad as [Hbad | [Hbad | Hbad]]; [contradiction | contradiction | congruence]. }
  rewrite Hout. reflexivity.
Qed.

Lemma allow_list_names_are_trimmed_witness :
  Webdav.process_file Demo.lib Demo.quiet "/schemas" "/b" Demo.doc " T1" "b"
    (Some ["T1"; "T2"]) (connect Demo.store false)
  = (Ok (false, "SchemaID ' T1' not in allow-list."), connect Demo.store false).
Proof.
  apply (proj2 (allow_list_names_are_trimmed Demo.lib Demo.quiet " T1 ,, T2" ["T1"; "T2"]
                  (strip_chars_idem PyStr.is_space) strip_within eq_refl)).
  right. left. discriminate.
Defined.

(** X17. Whether there is an allow-list, for the settings [load_config]
    returns.  There is none exactly when ALLOWED_SCHEMAIDS, without the
    white space around it, is empty: when it is not set, is empty or is
    blank.  When it is not empty but every piece between its commas is
    blank, the allow-list is there and is empty, and every document is
    skipped as not being in it. *)
Theorem blank_allow_list_skips_everything (L : pylib) (W : world)
    (py_int : json -> result Z) (root_env bin_env : option (list string))
    (db_cfg_file : option (result json)) (default_schema_dir : string)
    (cfg : Config.config) :
  Config.load_config L py_int root_env bin_env db_cfg_file default_schema_dir = Ok cfg ->
  let raw := Config.env_str (Config.merged_env L root_env bin_env) "ALLOWED_SCHEMAIDS" "" in
  let allowed := Config.allow_list L (Config.allowed_schemaids cfg) in
  Config.allowed_schemaids cfg = str_strip L raw
  /\ (allowed = None <-> str_strip L raw = "")
  /\ (allowed = Some []
      <-> str_strip L raw <> ""
          /\ Forall (fun piece => str_strip L piece = "")
               (PyStr.split "," (str_strip L raw)))
  /\ (allowed = Some [] ->
      forall schema_dir url data schema_id identifier c,
        Webdav.process_file L W schema_dir url data schema_id identifier allowed c
        = (Ok (false, "SchemaID '" ++ schema_id ++ "' not in allow-list."), c)).
Proof.
  intros Hload raw allowed.
  assert (Hcfg : Config.allowed_schemaids cfg = str_strip L raw).
  { unfold Config.load_config, Config.and_then in Hload.
    repeat match type of Hload with
           | match ?x with Ok _ => _ | Raise _ => _ end = _ =>
               destruct x; [|discriminate]
           end.
    injection Hload as <-. reflexivity. }
  subst allowed. rewrite Hcfg. split; [reflexivity|].
  unfold Config.allow_list. destruct (String.eqb (str_strip L raw) "") eqn:He.
  - apply String.eqb_eq in He. split; [tauto|]. split.
    + split; [discriminate | intros [H _]; contradiction].
    + discriminate.
  - apply String.eqb_neq in He. split; [split; [discriminate | contradiction]|].
    assert (Hblank : forall pieces,
              filter (fun s => negb (String.eqb s "")) (map (str_strip L) pieces) = []
              <-> Forall (fun piece => str_strip L piece = "") pieces).
    { induction pieces as [|piece rest IH]; cbn [map filter].
      - split; [constructor | reflexivity].
      - destruct (String.eqb (str_strip L piece) "") eqn:Hp; cbn [negb].
        + apply String.eqb_eq in Hp. rewrite IH. split.
          * intros H. now constructor.
          * intros H. now inversion H.
        + apply String.eqb_neq in Hp. split; [discriminate|].
          intros H. inversion H. contradiction. }
    split.
    + split.
      * intros [= H]. split; [exact He | now apply Hblank].
      * intros [_ H]. f_equal. now apply Hblank.
    + intros ->. reflexivity.
Qed.

Lemma blank_allow_list_skips_everything_witness :
  exists cfg,
    Config.load_config Demo.lib Config.demo_int (Some ["ALLOWED_SCHEMAIDS =  , , "]) None None
      "/repo/backend/schemas" = Ok cfg
    /\ Config.allowed_schemaids cfg = ", ,"
    /\ Webdav.process_file Demo.lib Demo.quiet "/schemas" "/b" Demo.doc "T1" "b"
         (Config.allow_list Demo.lib (Config.allowed_schemaids cfg)) (connect Demo.store false)
       = (Ok (false, "SchemaID 'T1' not in allow-list."), connect Demo.store false).
Proof.
  eexists. split; [vm_compute; reflexivity|].
  pose proof (blank_allow_list_skips_everything Demo.lib Demo.quiet Config.demo_int
                (Some ["ALLOWED_SCHEMAIDS =  , , "]) None None "/repo/backend/schemas" _
                eq_refl) as H.
  cbv zeta in H. destruct H as (Hcfg & _ & _ & Hskip).
  split; [exact Hcfg|]. apply Hskip. reflexivity.
Defined.

(** ** The [.env] files *)

Lemma app_String_not_empty (a b : string) (c : ascii) :
  String.eqb (a ++ String c b) "" = false.
Proof. now destruct a. Qed.

Lemma has_char_app_mid (x : ascii) (a b : string) :
  PyStr.has_char x (a ++ String x b) = true.
Proof.
  induction a as [|c a IH]; simpl.
  - now rewrite Ascii.eqb_refl.
  - rewrite IH. apply orb_true_r.
Qed.

Lemma split_once_app (x : ascii) (a b : string) :
  PyStr.has_char x a = false -> PyStr.split_once x (a ++ String x b) = (a, b).
Proof.
  induction a as [|c a IH]; simpl.
  - intros _. now rewrite Ascii.eqb_refl.
  - intros H. apply orb_false_elim in H as [Hc Ha]. now rewrite Hc, (IH Ha).
Qed.

Lemma prefix_head (c : ascii) (t t' : string) :
  String.prefix "#" (String c t) = String.prefix "#" (String c t').
Proof.
  change (String.prefix "#" (String c t))
    with (match ascii_dec "#" c with left _ => String.prefix "" t | right _ => false end).
  change (String.prefix "#" (String c t'))
    with (match ascii_dec "#" c with left _ => String.prefix "" t' | right _ => false end).
  destruct (ascii_dec "#" c); [now destruct t, t' | reflexivity].
Qed.

Lemma has_char_strip (x : ascii) (s : string) :
  PyStr.has_char x s = false -> PyStr.has_char x (PyStr.strip s) = false.
Proof. intros H. now apply has_char_rstrip, has_char_lstrip. Qed.

Lemma is_ascii_app (a b : string) :
  PyStr.is_ascii (a ++ b) = PyStr.is_ascii a && PyStr.is_ascii b.
Proof.
  induction a as [|c a IH]; simpl; [reflexivity|]. now rewrite IH, andb_assoc.
Qed.

Lemma is_ascii_lstrip (p : ascii -> bool) (s : string) :
  PyStr.is_ascii s = true -> PyStr.is_ascii (PyStr.lstrip p s) = true.
Proof.
  induction s as [|c t IH]; simpl; [reflexivity|].
  intros H. destruct (p c); [|exact H]. apply andb_prop in H as [_ H]. auto.
Qed.

Lemma is_ascii_rstrip (p : ascii -> bool) (s : string) :
  PyStr.is_ascii s = true -> PyStr.is_ascii (PyStr.rstrip p s) = true.
Proof.
  induction s as [|c t IH]; [reflexivity|].
  intros H. cbn [PyStr.is_ascii] in H. apply andb_prop in H as [Hc Ht]. specialize (IH Ht).
  cbn [PyStr.rstrip]. destruct (PyStr.rstrip p t) as [|c' r].
  - destruct (p c); [reflexivity|]. cbn [PyStr.is_ascii]. now rewrite Hc.
  - change (PyStr.is_ascii (String c (String c' r)))
      with (Nat.ltb (nat_of_ascii c) 128 && PyStr.is_ascii (String c' r)).
    now rewrite Hc, IH.
Qed.

(** X18. What a line of a [.env] file means.  A line [key=value] of ASCII
    characters, where [key] holds no [=] and does not begin, after white
    space, with [#], assigns to [key] without the white space around it
    the text after the first [=], further [=] signs included, without
    the white space around it and then without the double quotes, and
    then the single quotes, around that.  Any line, of ASCII characters or
    not, that without the white space around it is empty, begins with [#]
    or holds no [=] assigns nothing; and any other line is cut, once the
    white space around it is gone, at its first [=] into the key and the
    value, each taken without the white space around it, the value then
    without its quotes. *)
Theorem env_line_meaning (L : pylib) :
  (forall key value,
      PyStr.is_ascii key = true ->
      PyStr.is_ascii value = true ->
      PyStr.has_char "=" key = false ->
      String.prefix "#" (PyStr.strip key) = false ->
      Config.env_entry L (key ++ "=" ++ value)
      = Some (PyStr.strip key,
              PyStr.strip_char "'" (PyStr.strip_char Config.dquote (PyStr.strip value))))
  /\ (forall line,
        str_strip L line = "" \/ String.prefix "#" (str_strip L line) = true
        \/ PyStr.has_char "=" (str_strip L line) = false ->
        Config.env_entry L line = None)
  /\ (forall line key value,
        str_strip L line = key ++ "=" ++ value ->
        PyStr.has_char "=" key = false ->
        String.prefix "#" (str_strip L line) = false ->
        Config.env_entry L line
        = Some (str_strip L key,
                PyStr.strip_char "'" (PyStr.strip_char Config.dquote (str_strip L value)))).
Proof.
  split; [|split].
  - intros key value Akey Avalue Hkey Hcomment.
    change (key ++ "=" ++ value) with (key ++ String "=" value).
    assert (Hline : str_strip L (key ++ String "=" value)
                    = PyStr.lstrip PyStr.is_space key
                      ++ String "=" (PyStr.rstrip PyStr.is_space value)).
    { rewrite (strip_ascii L).
      2:{ rewrite is_ascii_app. cbn [PyStr.is_ascii]. now rewrite Akey, Avalue. }
      unfold PyStr.strip, PyStr.strip_chars.
      rewrite lstrip_app by reflexivity. now rewrite rstrip_app by reflexivity. }
    unfold Config.env_entry. cbv zeta. rewrite Hline, app_String_not_empty, has_char_app_mid.
    assert (Hhash : String.prefix "#" (PyStr.lstrip PyStr.is_space key
                      ++ String "=" (PyStr.rstrip PyStr.is_space value)) = false).
    { unfold PyStr.strip, PyStr.strip_chars in Hcomment.
      pose proof (lstrip_trimmed PyStr.is_space key) as Hhead.
      destruct (PyStr.lstrip PyStr.is_space key) as [|c t]; [reflexivity|].
      rewrite (rstrip_head _ c t Hhead) in Hcomment.
      change (String c t ++ String "=" (PyStr.rstrip PyStr.is_space value))
        with (String c (t ++ String "=" (PyStr.rstrip PyStr.is_space value))).
      now rewrite (prefix_head c _ (PyStr.rstrip PyStr.is_space t)). }
    rewrite Hhash. cbn [orb negb].
    rewrite (split_once_app "=" _ _ (has_char_lstrip PyStr.is_space "=" key Hkey)).
    rewrite !(strip_ascii L) by (now apply is_ascii_lstrip || now apply is_ascii_rstrip).
    unfold PyStr.strip.
    now rewrite strip_chars_lstrip, strip_chars_rstrip.
  - intros line Hline. unfold Config.env_entry. cbv zeta.
    destruct Hline as [H | [H | H]].
    + now rewrite H.
    + rewrite H. now rewrite orb_true_r.
    + rewrite H. cbn [negb]. now rewrite orb_true_r.
  - intros line key value Hline Hkey Hcomment.
    unfold Config.env_entry. cbv zeta. rewrite Hcomment. rewrite Hline.
    change (key ++ "=" ++ value) with (key ++ String "=" value).
    rewrite app_String_not_empty, has_char_app_mid. cbn [orb negb].
    now rewrite (split_once_app "=" _ _ Hkey).
Qed.

Lemma env_line_meaning_witness :
  Config.env_entry Demo.lib ("  DB_NAME " ++ "=" ++ " 'a=b' ") = Some ("DB_NAME", "a=b")
  /\ Config.env_entry Demo.lib " # DB_NAME=x" = None
  /\ Config.env_entry Demo.lib " DB_USER = me " = Some ("DB_USER", "me").
Proof.
  split; [|split].
  - exact (proj1 (env_line_meaning Demo.lib) "  DB_NAME " " 'a=b' " eq_refl eq_refl eq_refl
             eq_refl).
  - apply (proj1 (proj2 (env_line_meaning Demo.lib))). right. left. reflexivity.
  - exact (proj2 (proj2 (env_line_meaning Demo.lib)) " DB_USER = me " "DB_USER " " me"
             eq_refl eq_refl eq_refl).
Defined.

Lemma env_step_other (L : pylib) (env : pydict string) (l k : string) :
  (forall v', Config.env_entry L l <> Some (k, v')) ->
  dict_get match Config.env_entry L l with
           | Some (key, value) => dict_set key value env
           | None => env
           end k
  = dict_get env k.
Proof.
  intros Hl. destruct (Config.env_entry L l) as [[k' v']|]; [|reflexivity].
  rewrite dict_get_set. destruct (String.eqb k' k) eqn:Hk; [|reflexivity].
  apply String.eqb_eq in Hk. subst k'. now destruct (Hl v').
Qed.

Lemma env_fold_other (L : pylib) (lines : list string) (env : pydict string) (k : string) :
  Forall (fun l => forall v', Config.env_entry L l <> Some (k, v')) lines ->
  dict_get (fold_left (fun env line =>
                         match Config.env_entry L line with
                         | Some (key, value) => dict_set key value env
                         | None => env
                         end) lines env) k
  = dict_get env k.
Proof.
  intros Hall. revert env. induction Hall as [|l rest Hl _ IH]; intros env; [reflexivity|].
  cbn [fold_left]. rewrite IH. now apply env_step_other.
Qed.

(** X19. Of the lines of a [.env] file that assign a key, the last one gives
    its value, whatever comes before it; a key that no line assigns is
    not in the result. *)
Theorem env_file_last_assignment_wins (L : pylib) (k : string) :
  (forall before line after v,
      Config.env_entry L line = Some (k, v) ->
      Forall (fun l => forall v', Config.env_entry L l <> Some (k, v')) after ->
      dict_get (Config.load_env_file L (Some (before ++ line :: after)%list)) k = Some v)
  /\ (forall lines,
        Forall (fun l => forall v', Config.env_entry L l <> Some (k, v')) lines ->
        dict_get (Config.load_env_file L (Some lines)) k = None).
Proof.
  split.
  - intros before line after v Hline Hafter. unfold Config.load_env_file.
    rewrite fold_left_app. cbn [fold_left]. rewrite (env_fold_other L after _ k Hafter).
    rewrite Hline. apply dict_get_set_same.
  - intros lines Hlines. unfold Config.load_env_file.
    now rewrite (env_fold_other L lines [] k Hlines).
Qed.

Lemma env_file_last_assignment_wins_witness :
  dict_get (Config.load_env_file Demo.lib
              (Some (["DB_HOST=a"; "DB_USER=u"] ++ "DB_HOST = b" :: ["# DB_HOST=c"; "DB_PORT=1"])%list))
    "DB_HOST"
  = Some "b".
Proof.
  apply (proj1 (env_file_last_assignment_wins Demo.lib "DB_HOST")); [reflexivity|].
  repeat constructor; intros v'; discriminate.
Defined.

(** ** The settings of the remote ingester *)

Lemma dict_set_nodup {V} (k : string) (v : V) (d : pydict V) :
  NoDup (dict_keys d) -> NoDup (dict_keys (dict_set k v d)).
Proof.
  unfold dict_keys. induction d as [|[k' v'] rest IH]; simpl.
  - intros _. repeat constructor. intros [].
  - intros Hnd. inversion Hnd as [|? ? Hnotin Hrest]; subst.
    destruct (String.eqb k' k) eqn:Hk; simpl.
    + now constructor.
    + constructor; [|now apply IH].
      intros Hin. destruct (dict_set_keys_incl k v rest k' Hin) as [Heq | Hold].
      * subst k'. now rewrite String.eqb_refl in Hk.
      * now apply Hnotin.
Qed.

Lemma load_env_file_nodup (L : pylib) (file : option (list string)) :
  NoDup (dict_keys (Config.load_env_file L file)).
Proof.
  destruct file as [lines|]; [|constructor].
  unfold Config.load_env_file.
  assert (Hgen : forall env, NoDup (dict_keys env) ->
            NoDup (dict_keys (fold_left (fun env line =>
                         match Config.env_entry L line with
                         | Some (key, value) => dict_set key value env
                         | None => env
                         end) lines env))).
  { induction lines as [|l rest IH]; intros env Henv; [exact Henv|].
    cbn [fold_left]. apply IH. destruct (Config.env_entry L l) as [[key value]|]; [|exact Henv].
    now apply dict_set_nodup. }
  apply Hgen. constructor.
Qed.

Lemma dict_update_get {V} (other d : pydict V) (k : string) :
  NoDup (dict_keys other) ->
  dict_get (Config.dict_update d other) k
  = match dict_get other k with
    | Some v => Some v
    | None => dict_get d k
    end.
Proof.
  unfold Config.dict_update. revert d.
  induction other as [|[k' v'] rest IH]; intros d Hnd; [reflexivity|].
  inversion Hnd as [|? ? Hnotin Hrest]; subst.
  cbn [fold_left fst snd dict_get]. rewrite (IH _ Hrest).
  destruct (String.eqb k' k) eqn:Hk.
  - apply String.eqb_eq in Hk. subst k'.
    rewrite (dict_get_none_keys rest k Hnotin). apply dict_get_set_same.
  - destruct (dict_get rest k); [reflexivity|]. now rewrite dict_get_set, Hk.
Qed.

Lemma merged_env_get (L : pylib) (root_env bin_env : option (list string)) (k : string) :
  dict_get (Config.merged_env L root_env bin_env) k
  = match dict_get (Config.load_env_file L bin_env) k with
    | Some v => Some v
    | None => dict_get (Config.load_env_file L root_env) k
    end.
Proof.
  unfold Config.merged_env.
  rewrite !dict_update_get by apply load_env_file_nodup.
  now destruct (dict_get (Config.load_env_file L root_env) k).
Qed.

(** X20. Where the settings come from.  A key set in [bin/.env] is taken from
    there, else from [.env]; the five settings of the database that
    neither file sets are taken from [db_config.json], and from the
    default if it does not hold them; the settings of the WebDAV side are
    never taken from [db_config.json].  And a [db_config.json] that does
    not hold an object makes [load_config] raise, also when the [.env]
    files set every setting. *)
Theorem load_config_precedence (L : pylib) (py_int : json -> result Z)
    (root_env bin_env : option (list string)) (default_schema_dir : string) :
  (forall key,
      dict_get (Config.merged_env L root_env bin_env) key
      = match dict_get (Config.load_env_file L bin_env) key with
        | Some v => Some v
        | None => dict_get (Config.load_env_file L root_env) key
        end)
  /\ (forall db_cfg_file members cfg,
        db_cfg_file = Some (Ok (JObj members)) \/ (db_cfg_file = None /\ members = []) ->
        Config.load_config L py_int root_env bin_env db_cfg_file default_schema_dir = Ok cfg ->
        forall pick,
          pick = (fun key default =>
                    match dict_get (Config.merged_env L root_env bin_env) key with
                    | Some s => JStr s
                    | None => match dict_get members key with Some v => v | None => default end
                    end) ->
          Config.db_host cfg = pick "DB_HOST" (JStr "127.0.0.1")
          /\ py_int (pick "DB_PORT" (JInt 3306)) = Ok (Config.db_port cfg)
          /\ Config.db_user cfg = pick "DB_USER" (JStr "root")
          /\ Config.db_password cfg = pick "DB_PASSWORD" (JStr "password")
          /\ Config.db_name cfg = pick "DB_NAME" (JStr "experiment_data")
          /\ Config.webdav_url cfg
             = Config.env_str (Config.merged_env L root_env bin_env) "WEBDAV_URL"
                 "https://example.nextcloud.com/remote.php/dav/files/demo/"
          /\ Config.webdav_user cfg
             = Config.env_str (Config.merged_env L root_env bin_env) "WEBDAV_USER" "demo"
          /\ Config.webdav_password cfg
             = Config.env_str (Config.merged_env L root_env bin_env) "WEBDAV_PASSWORD"
                 "demo_password"
          /\ Config.webdav_root cfg
             = Config.env_str (Config.merged_env L root_env bin_env) "WEBDAV_ROOT" "EMPI-RF")
  /\ (forall v,
        (forall members, v <> JObj members) ->
        Config.load_config L py_int root_env bin_env (Some (Ok v)) default_schema_dir
        = Raise (PythonError "AttributeError: object has no attribute 'get'")).
Proof.
  split; [intros key; apply merged_env_get|]. split.
  - intros db_cfg_file members cfg Hfile Hload pick ->.
    assert (Hcfg : match db_cfg_file with Some r => r | None => Ok (JObj []) end
                   = Ok (JObj members)).
    { destruct Hfile as [-> | [-> ->]]; reflexivity. }
    unfold Config.load_config in Hload. cbv zeta in Hload. rewrite Hcfg in Hload.
    cbn [Config.and_then Config.db_cfg_get] in Hload.
    unfold Config.env_get in Hload at 1.
    destruct (py_int _) as [port|e] eqn:Hport in Hload; [|discriminate].
    cbn [Config.and_then] in Hload.
    destruct (py_int _) as [interval|e] eqn:Hinterval in Hload; [|discriminate].
    cbn [Config.and_then] in Hload. injection Hload as <-.
    cbn [Config.db_host Config.db_port Config.db_user Config.db_password Config.db_name
         Config.webdav_url Config.webdav_user Config.webdav_password Config.webdav_root].
    unfold Config.env_get. repeat split; try reflexivity. exact Hport.
  - intros v Hv. unfold Config.load_config. cbv zeta. cbn [Config.and_then].
    destruct v; try reflexivity. now destruct (Hv members).
Qed.

Lemma load_config_precedence_witness :
  exists cfg,
    Config.load_config Demo.lib Config.demo_int
      (Some ["DB_HOST=a"; "DB_PORT=3307"]) (Some ["DB_HOST=b"])
      (Some (Ok (JObj [("DB_HOST", JStr "c"); ("DB_USER", JStr "u"); ("WEBDAV_USER", JStr "w")])))
      "/repo/backend/schemas" = Ok cfg
    /\ Config.db_host cfg = JStr "b"
    /\ Config.db_user cfg = JStr "u"
    /\ Config.webdav_user cfg = "demo"
    /\ Config.load_config Demo.lib Config.demo_int (Some ["DB_HOST=a"]) None (Some (Ok (JArr [])))
         "/repo/backend/schemas"
       = Raise (PythonError "AttributeError: object has no attribute 'get'").
Proof.
  eexists. split; [vm_compute; reflexivity|].
  pose proof (load_config_precedence Demo.lib Config.demo_int
                (Some ["DB_HOST=a"; "DB_PORT=3307"]) (Some ["DB_HOST=b"])
                "/repo/backend/schemas") as (_ & Hobj & _).
  specialize (Hobj _ [("DB_HOST", JStr "c"); ("DB_USER", JStr "u"); ("WEBDAV_USER", JStr "w")]
                _ (or_introl eq_refl) eq_refl _ eq_refl).
  destruct Hobj as (Hhost & _ & Huser & _ & _ & _ & Hwuser & _).
  split; [exact Hhost|]. split; [exact Huser|]. split; [exact Hwuser|].
  apply (proj2 (proj2 (load_config_precedence Demo.lib Config.demo_int (Some ["DB_HOST=a"]) None
                         "/repo/backend/schemas"))).
  discriminate.
Defined.

(** ** The base URL *)

Lemma length_app_slash (u : string) : String.length (u ++ "/") = S (String.length u).
Proof. induction u as [|c u IH]; simpl; [reflexivity | now rewrite IH]. Qed.

Lemma substring_last_slash (u : string) : substring (String.length u) 1 (u ++ "/") = "/".
Proof. induction u as [|c u IH]; simpl; [reflexivity | exact IH]. Qed.

Lemma endswith_app_slash (u : string) : PyStr.endswith (u ++ "/") "/" = true.
Proof.
  unfold PyStr.endswith. rewrite length_app_slash.
  change (String.length "/") with 1%nat.
  replace (S (String.length u) - 1)%nat with (String.length u) by lia.
  now rewrite substring_last_slash.
Qed.

(** X21. The base URL the scan works with ends with a slash; a URL that has
    one is left as it is, so that normalising twice is normalising
    once. *)
Theorem normalized_url_ends_with_slash (url : string) :
  PyStr.endswith (Webdav.normalize_webdav_url url) "/" = true
  /\ Webdav.normalize_webdav_url (Webdav.normalize_webdav_url url)
     = Webdav.normalize_webdav_url url
  /\ (Webdav.normalize_webdav_url url = url <-> PyStr.endswith url "/" = true).
Proof.
  assert (Hends : PyStr.endswith (Webdav.normalize_webdav_url url) "/" = true).
  { unfold Webdav.normalize_webdav_url.
    destruct (PyStr.endswith url "/") eqn:He; [exact He | apply endswith_app_slash]. }
  split; [exact Hends|]. split.
  - unfold Webdav.normalize_webdav_url at 1. now rewrite Hends.
  - split.
    + intros Heq. now rewrite <- Heq.
    + intros He. unfold Webdav.normalize_webdav_url. now rewrite He.
Qed.

Lemma normalized_url_ends_with_slash_witness :
  Webdav.normalize_webdav_url "https://cloud.example.org/dav/" = "https://cloud.example.org/dav/".
Proof.
  apply (proj2 (proj2 (normalized_url_ends_with_slash "https://cloud.example.org/dav/"))).
  reflexivity.
Defined.

(** * The claims on a whole write, a whole turn and a whole run *)

(** ** The merge-write policy written twice, with and without an index *)

Lemma SFeqb_refl_false (f g : spec_float) : SFeqb f f = false -> SFeqb f g = false.
Proof.
  destruct f as [s|s| |s m e]; unfold SFeqb, SFcompare.
  - discriminate.
  - destruct s; discriminate.
  - reflexivity.
  - rewrite Z.compare_refl. destruct s; rewrite Pos.compare_cont_refl; discriminate.
Qed.

(** A value that does not equal itself, NULL or a NaN, equals nothing. *)
Lemma sql_eq_self (a b : json) : Sql.eq a a = false -> Sql.eq a b = false.
Proof.
  unfold Sql.eq. destruct a as [|x|n|f|x| |]; cbn [is_none negb andb scalar_eqb].
  - reflexivity.
  - now rewrite Bool.eqb_reflx.
  - now rewrite Z.eqb_refl.
  - intros H. destruct b; cbn [is_none negb andb]; try reflexivity.
    now apply SFeqb_refl_false.
  - now rewrite String.eqb_refl.
  - intros _. now destruct b.
  - intros _. now destruct b.
Qed.

(** A row that does not collide with itself on an index collides with no
    row on it. *)
Lemma same_key_self (cols key : list string) (v r : list json) :
  Sql.same_key cols key v v = false -> Sql.same_key cols key v r = false.
Proof.
  unfold Sql.same_key. induction key as [|col key IH]; cbn [forallb]; [discriminate|].
  intros H. apply andb_false_iff in H as [H|H].
  - now rewrite (sql_eq_self _ (Sql.cell cols r col) H).
  - rewrite (IH H). apply andb_false_r.
Qed.

Lemma find_row_never (p : list json -> bool) (rs : list (list json)) :
  (forall r, p r = false) -> Sql.find_row p rs = None.
Proof.
  intros Hp. induction rs as [|r rest IH]; simpl; [reflexivity|]. now rewrite Hp, IH.
Qed.

(** On a table on none of whose indexes the new row collides with
    itself, the statement meets no duplicate and appends the row. *)
Lemma upsert_appends (t : string) (cols : list string) (v : list json) (d d' : database)
    (tb : table) :
  dict_get (tables d) t = Some tb ->
  (forall key, In key (uniques tb) -> Sql.same_key (columns tb) key v v = false) ->
  Sql.insert_on_duplicate_key_update t cols v d = Ok d' ->
  d' = Sql.set_table d t (Sql.with_rows tb (rows tb ++ [v])).
Proof.
  intros Htb Hnull. unfold Sql.insert_on_duplicate_key_update, Sql.find_table. rewrite Htb.
  destruct (negb _); [discriminate|].
  assert (Hdup : forall rs, Sql.duplicate_of (columns tb) (uniques tb) rs v = None).
  { intros rs. induction (uniques tb) as [|key more IH]; [reflexivity|].
    cbn [Sql.duplicate_of]. rewrite find_row_never.
    - apply IH. intros k Hk. apply Hnull. now right.
    - intros r. apply same_key_self. apply Hnull. now left. }
  rewrite Hdup. now intros [= <-].
Qed.

(** C3, amended.  Let [process_file] run twice on the document without an
    exception, on a table that is there.  If the table has a PRIMARY or
    UNIQUE index on which the projection of the document agrees with
    itself, holding on its columns no NULL (and no NaN, which equals
    nothing), the second run leaves the table as the first left it, and
    in it exactly one row agrees with the projection on that index: the
    projection itself.  If the table has no such index, and so if it has
    no index at all, each run appends the projection to the rows: after
    the two runs the table holds it twice more than before.  Every table
    falls under one of the two cases. *)
Theorem merge_write_idempotent (L : pylib) (W : world) (file_path t : string)
    (identifier : json) (data : pydict json) (c c1 c2 : conn) (tb : table) :
  let v := project_values L (columns tb) data identifier (JStr file_path) in
  Sql.show_tables_like t (pending c) = true ->
  dict_get (tables (pending c)) t = Some tb ->
  columns tb <> [] ->
  Win.process_file L W file_path t identifier data c = (Ok tt, c1) ->
  Win.process_file L W file_path t identifier data c1 = (Ok tt, c2) ->
  (forall key,
      In key (uniques tb) ->
      Sql.same_key (columns tb) key v v = true ->
      exists tb',
        dict_get (tables (pending c1)) t = Some tb'
        /\ dict_get (tables (pending c2)) t = Some tb'
        /\ columns tb' = columns tb
        /\ filter (Sql.same_key (columns tb) key v) (rows tb') = [v])
  /\ ((forall key, In key (uniques tb) -> Sql.same_key (columns tb) key v v = false) ->
      dict_get (tables (pending c1)) t = Some (Sql.with_rows tb (rows tb ++ [v]))
      /\ dict_get (tables (pending c2)) t = Some (Sql.with_rows tb (rows tb ++ [v; v]))).
Proof.
  intros v Hlike Htb Hne Hrun1 Hrun2.
  pose proof (win_process_file_ok L W file_path t identifier data c c1 tb Hlike Htb Hne Hrun1)
    as Hup.
  fold v in Hup. split.
  - intros key Hin Hkey.
    destruct (upsert_ok _ _ _ _ _ Hup) as (tb0 & l1 & l2 & Htb0 & Hshape & Hp1 & Hnc).
    rewrite Htb in Htb0. injection Htb0 as <-.
    set (tb' := Sql.with_rows tb (l1 ++ v :: l2)) in *.
    assert (Htb1 : dict_get (tables (pending c1)) t = Some tb').
    { rewrite Hp1. apply dict_get_set_same. }
    assert (Hlike1 : Sql.show_tables_like t (pending c1) = true).
    { rewrite Hp1, (show_tables_like_set t t tb tb' (pending c) Htb). exact Hlike. }
    pose proof (win_process_file_ok L W file_path t identifier data c1 c2 tb' Hlike1 Htb1 Hne
                  Hrun2) as Hup2.
    change (columns tb') with (columns tb) in Hup2. fold v in Hup2.
    rewrite (upsert_again t (columns tb) v (pending c1) tb' l1 l2 key Htb1 eq_refl Hshape Hnc
               Hin Hkey) in Hup2.
    injection Hup2 as Hp2.
    exists tb'. split; [exact Htb1|]. split.
    + rewrite <- Hp2. apply dict_get_set_same.
    + split; [reflexivity|]. cbn [tb' Sql.with_rows rows].
      apply filter_middle; [|exact Hkey].
      rewrite Forall_forall in *. intros r Hr. apply conflicts_same_key; auto.
  - intros Hnull.
    pose proof (upsert_appends t (columns tb) v (pending c) (pending c1) tb Htb Hnull Hup)
      as Hp1.
    set (tb1 := Sql.with_rows tb (rows tb ++ [v])) in *.
    assert (Htb1 : dict_get (tables (pending c1)) t = Some tb1).
    { rewrite Hp1. apply dict_get_set_same. }
    split; [exact Htb1|].
    assert (Hlike1 : Sql.show_tables_like t (pending c1) = true).
    { rewrite Hp1, (show_tables_like_set t t tb tb1 (pending c) Htb). exact Hlike. }
    pose proof (win_process_file_ok L W file_path t identifier data c1 c2 tb1 Hlike1 Htb1 Hne
                  Hrun2) as Hup2.
    change (columns tb1) with (columns tb) in Hup2. fold v in Hup2.
    rewrite (upsert_appends t (columns tb) v (pending c1) (pending c2) tb1 Htb1 Hnull Hup2).
    unfold Sql.set_table. cbn [tables]. rewrite dict_get_set_same.
    unfold tb1, Sql.with_rows. cbn [columns uniques rows].
    now rewrite <- app_assoc.
Qed.

Lemma merge_write_idempotent_witness :
  let c := connect DemoKeyed.store true in
  let c1 := snd (Win.process_file Demo.lib Demo.quiet "/a/b.json" "T1" (JStr "b") Demo.doc c) in
  let c2 := snd (Win.process_file Demo.lib Demo.quiet "/a/b.json" "T1" (JStr "b") Demo.doc c1) in
  let k := connect Demo.store true in
  let k1 := snd (Win.process_file Demo.lib Demo.quiet "/a/b.json" "T1" (JStr "b") Demo.doc k) in
  let k2 := snd (Win.process_file Demo.lib Demo.quiet "/a/b.json" "T1" (JStr "b") Demo.doc k1) in
  (exists tb',
     dict_get (tables (pending c2)) "T1" = Some tb'
     /\ filter (Sql.same_key (columns DemoKeyed.T1) ["Identifier"]
                  [JStr "b"; JStr "/a/b.json"; JInt 42]) (rows tb')
        = [[JStr "b"; JStr "/a/b.json"; JInt 42]])
  /\ dict_get (tables (pending k2)) "T1"
     = Some (Sql.with_rows Demo.T1
               [[JStr "b"; JStr "/a/b.json"; JInt 42]; [JStr "b"; JStr "/a/b.json"; JInt 42]]).
Proof.
  intros c c1 c2 k k1 k2. split.
  - destruct (proj1 (merge_write_idempotent Demo.lib Demo.quiet "/a/b.json" "T1" (JStr "b")
                       Demo.doc c c1 c2 DemoKeyed.T1 eq_refl eq_refl ltac:(discriminate)
                       eq_refl eq_refl)
                ["Identifier"] (or_introl eq_refl) eq_refl)
      as (tb' & _ & H2 & _ & H4).
    exists tb'. split; [exact H2 | exact H4].
  - exact (proj2 (proj2 (merge_write_idempotent Demo.lib Demo.quiet "/a/b.json" "T1" (JStr "b")
                           Demo.doc k k1 k2 Demo.T1 eq_refl eq_refl ltac:(discriminate)
                           eq_refl eq_refl)
                    (fun key (H : In key []) => match H with end))).
Defined.

(** ** Reconciliation: what is deleted, and on which tables *)

Section Columns.
Variable L : pylib.
Variable W : world.
Variable t : string.
Variable cols : list string.

Lemma set_table_has_columns (d : database) (t0 : string) (tb0 : table)
    (rs : list (list json)) :
  dict_get (tables d) t0 = Some tb0 ->
  has_columns d t cols ->
  has_columns (Sql.set_table d t0 (Sql.with_rows tb0 rs)) t cols.
Proof.
  intros Htb0 (tb & Htb & Hcols). unfold has_columns, Sql.set_table. cbn [tables].
  rewrite dict_get_set. destruct (String.eqb t0 t) eqn:E.
  - apply String.eqb_eq in E. subst t0. rewrite Htb in Htb0. injection Htb0 as <-.
    eexists. split; [reflexivity | exact Hcols].
  - now exists tb.
Qed.

Lemma upsert_has_columns (t0 : string) (cs : list string) (vs : list json)
    (d d' : database) :
  Sql.insert_on_duplicate_key_update t0 cs vs d = Ok d' ->
  has_columns d t cols -> has_columns d' t cols.
Proof.
  unfold Sql.insert_on_duplicate_key_update, Sql.find_table.
  destruct (dict_get (tables d) t0) as [tb0|] eqn:Htb0; [|discriminate].
  destruct (negb _); [discriminate|].
  destruct (Sql.duplicate_of _ _ _ _).
  - destruct (existsb _ _); [discriminate|]. intros [= <-]. now apply set_table_has_columns.
  - intros [= <-]. now apply set_table_has_columns.
Qed.

Lemma delete_has_columns (t0 col : string) (v : json) (d d' : database) :
  Sql.delete t0 col v d = Ok d' -> has_columns d t cols -> has_columns d' t cols.
Proof.
  unfold Sql.delete, Sql.find_table.
  destruct (dict_get (tables d) t0) as [tb0|] eqn:Htb0; [|discriminate].
  destruct (Sql.column_index col (columns tb0)); [|discriminate].
  intros [= <-]. now apply set_table_has_columns.
Qed.

Lemma update_has_columns (s : stmt) (run : database -> result database) (c : conn) :
  (forall d d', run d = Ok d' -> has_columns d t cols -> has_columns d' t cols) ->
  has_columns (pending c) t cols ->
  has_columns (pending (snd (update W s run c))) t cols.
Proof.
  intros Hrun H. unfold update. destruct (db_fault W (issued c)); [exact H|].
  destruct (run (pending c)) as [d|e] eqn:E; [|exact H].
  cbn. now apply (Hrun (pending c)).
Qed.

Lemma query_pending {A} (s : stmt) (run : database -> result A) (c : conn) :
  pending (snd (query W s run c)) = pending c.
Proof. unfold query. now destruct (db_fault W (issued c)). Qed.

Lemma process_file_has_columns (file_path t0 : string) (identifier : json)
    (data : pydict json) (c : conn) :
  has_columns (pending c) t cols ->
  has_columns (pending (snd (Win.process_file L W file_path t0 identifier data c))) t cols.
Proof.
  intros H. unfold Win.process_file, table_exists, get_columns. rewrite bind_run.
  pose proof (query_pending (ShowTablesLike t0)
                (fun d => Ok (Sql.show_tables_like t0 d)) c) as H1.
  destruct (query W (ShowTablesLike t0) _ c) as [[found|e] c1]; cbn [fst snd] in *;
    [|now rewrite H1].
  destruct (negb found); [cbn; now rewrite H1|].
  rewrite bind_run.
  pose proof (query_pending (ShowColumns t0) (Sql.show_columns t0) c1) as H2.
  destruct (query W (ShowColumns t0) _ c1) as [[cs|e] c2]; cbn [fst snd] in *;
    [|now rewrite H2, H1].
  destruct cs as [|col cs]; [cbn; now rewrite H2, H1|].
  apply update_has_columns; [|now rewrite H2, H1].
  intros d d'. apply upsert_has_columns.
Qed.

Lemma scan_file_has_columns (file : string * option json) (prev_state : json)
    (st : pydict Win.info) (c : conn) :
  has_columns (pending c) t cols ->
  has_columns (pending (snd (Win.scan_file L W file prev_state st c))) t cols.
Proof.
  intros H. unfold Win.scan_file. destruct file as [file_path content].
  destruct (String.eqb _ _); [exact H|].
  destruct content as [v|]; [|exact H].
  destruct v; try exact H.
  destruct (get_schema_id L members) as [sid|]; [|exact H].
  destruct (String.eqb sid ""); [exact H|].
  destruct (py_in file_path prev_state); [|exact H].
  rewrite bind_attempt. cbn [snd ret]. now apply process_file_has_columns.
Qed.

Lemma scan_files_has_columns (files : list (string * option json)) (prev_state : json)
    (st : pydict Win.info) (c : conn) :
  has_columns (pending c) t cols ->
  has_columns (pending (snd (Win.scan_files L W files prev_state st c))) t cols.
Proof.
  revert st c. induction files as [|file rest IH]; intros st c H; cbn [Win.scan_files].
  - exact H.
  - rewrite bind_run. pose proof (scan_file_has_columns file prev_state st c H) as H1.
    destruct (Win.scan_file L W file prev_state st c) as [[st1|e] c1]; cbn [fst snd] in *.
    + now apply IH.
    + exact H1.
Qed.

Lemma delete_row_has_columns (t0 : string) (v : json) (c : conn) :
  has_columns (pending c) t cols ->
  has_columns (pending (snd (Win.delete_row W t0 v c))) t cols.
Proof.
  intros H. unfold Win.delete_row, get_columns. rewrite bind_run.
  pose proof (query_pending (ShowColumns t0) (Sql.show_columns t0) c) as H1.
  destruct (query W (ShowColumns t0) _ c) as [[cs|e] c1]; cbn [fst snd] in *;
    [|now rewrite H1].
  destruct (negb _ && negb _); [cbn; now rewrite H1|].
  apply update_has_columns; [|now rewrite H1].
  intros d d'. apply delete_has_columns.
Qed.

Lemma delete_stored_has_columns (entry : json) (c : conn) :
  has_columns (pending c) t cols ->
  has_columns (pending (snd (Win.delete_stored L W entry c))) t cols.
Proof.
  intros H. unfold Win.delete_stored.
  destruct (Win.stored_row entry) as [[table identifier]|]; [|exact H].
  now apply delete_row_has_columns.
Qed.

(** A table without a column spelled [Identifier] or [identifier] sees
    no DELETE of the reconciliation, and keeps its columns. *)
Lemma reconcile_spares (prev_state : pydict json) (current_state : pydict Win.info)
    (c : conn) :
  has_columns (pending c) t cols ->
  ~ In "Identifier" cols ->
  ~ In "identifier" cols ->
  let c' := snd (Win.reconcile L W prev_state current_state c) in
  has_columns (pending c') t cols
  /\ exists l,
       deleted (trace c') = (deleted (trace c) ++ l)%list
       /\ Forall (fun d : string * string * json => fst (fst d) <> t) l.
Proof.
  intros H Hup Hlow. cbv zeta. unfold Win.reconcile. revert c H.
  induction prev_state as [|[p entry] rest IH]; intros c H.
  - split; [exact H|]. exists []. cbn. now rewrite app_nil_r.
  - cbn [for_each]. rewrite bind_run, reconcile_step_run. cbn [fst snd].
    destruct (dict_contains current_state p); [now apply IH|].
    destruct (IH _ (delete_stored_has_columns entry c H)) as (Hcols & l & Hl & Hall).
    split; [exact Hcols|].
    pose proof (delete_stored_deleted L W entry c) as Hdel. cbv zeta in Hdel.
    destruct Hdel as [Hsame|(table & identifier & col & cs & _ & Hcol & Hshow & Hin & Hone)].
    + exists l. split; [now rewrite Hl, Hsame | exact Hall].
    + exists ((py_str L table, col, identifier) :: l). split.
      * rewrite Hl, Hone, <- app_assoc. reflexivity.
      * constructor; [|exact Hall]. cbn [fst]. intros Heq.
        destruct H as (tb & Htb & Hc).
        unfold Sql.show_columns, Sql.find_table in Hshow. rewrite Heq, Htb in Hshow.
        injection Hshow as <-. rewrite Hc in Hin.
        destruct Hcol as [-> | ->]; contradiction.
Qed.

End Columns.

(** C7, amended.  With deletion enabled, a run that ends without an
    exception on a snapshot that is an object.  A path of the previous
    snapshot that is not among the files of the scan is not in the
    snapshot written.  On a server that fails no statement, where the
    entry of such a path holds a table and an identifier and that table is
    there with a column spelled [Identifier] or [identifier], no row of
    the table is left whose identifier is the one recorded.  And on a
    table that has neither column, however else its identifier column is
    spelled, the run issues no DELETE. *)
Theorem reconcile_deletes_missing (L : pylib) (W : world)
    (files : list (string * option json)) (members : pydict json)
    (st : pydict Win.info) (c c' : conn) :
  Win.run_once L W files (JObj members) true c = (Ok st, c') ->
  (forall p entry,
      In (p, entry) members -> ~ In p (map fst files) -> dict_get st p = None)
  /\ ((forall n, db_fault W n = false) ->
      forall p entry table identifier,
        In (p, entry) members ->
        ~ In p (map fst files) ->
        Win.stored_row entry = Some (table, identifier) ->
        row_gone (pending c') (py_str L table) identifier)
  /\ (forall t cols,
        has_columns (pending c) t cols ->
        ~ In "Identifier" cols ->
        ~ In "identifier" cols ->
        has_columns (pending c') t cols
        /\ exists l,
             deleted (trace c') = (deleted (trace c) ++ l)%list
             /\ Forall (fun d : string * string * json => fst (fst d) <> t) l).
Proof.
  intros Hrun. unfold Win.run_once in Hrun. rewrite bind_run in Hrun.
  pose proof (scan_files_no_delete L W files (JObj members) [] c) as Hkeep.
  pose proof (fun t cols => scan_files_has_columns L W t cols files (JObj members) [] c)
    as Hcols.
  destruct (Win.scan_files L W files (JObj members) [] c) as [[st1|e] c1] eqn:Hscan;
    cbn [fst snd] in *; [|discriminate].
  rewrite bind_run in Hrun.
  pose proof (reconcile_never_raises L W members st1 c1) as Hok.
  destruct (Win.reconcile L W members st1 c1) as [r c2] eqn:Hrec. cbn [fst snd] in *.
  subst r. cbn in Hrun. injection Hrun as <- <-.
  assert (Hnone : forall p, ~ In p (map fst files) -> dict_get st1 p = None).
  { intros p Hmiss. apply dict_get_none_keys. intros Hk.
    destruct (scan_files_keys L W files (JObj members) [] st1 c c1 Hscan p Hk) as [H|H];
      [auto | inversion H]. }
  split; [intros p entry _ Hmiss; now apply Hnone|]. split.
  - intros Hq p entry table identifier Hin Hmiss Hrow.
    replace c2 with (snd (Win.reconcile L W members st1 c1)) by now rewrite Hrec.
    apply (reconcile_gone L W Hq members st1 c1 p entry table identifier Hin Hrow).
    unfold dict_contains. now rewrite (Hnone p Hmiss).
  - intros t cols Hhas Hup Hlow.
    pose proof (reconcile_spares L W t cols members st1 c1 (Hcols t cols Hhas) Hup Hlow)
      as Hsp.
    cbv zeta in Hsp. rewrite Hrec in Hsp. cbn [snd] in Hsp.
    destruct Hsp as (H1 & l & Hl & Hall). split; [exact H1|].
    exists l. split; [now rewrite Hl, Hkeep | exact Hall].
Qed.

Lemma reconcile_deletes_missing_witness :
  let c := connect DemoKeyed.store true in
  let prev := [("/a/b.json", JObj [("table", JStr "T1"); ("identifier", JStr "b")])] in
  let run := Win.run_once Demo.lib Demo.quiet [] (JObj prev) true c in
  let upper := Win.run_once Demo.lib Demo.quiet [] (JObj prev) true
                 (connect DemoUpper.store true) in
  dict_get (DemoUpper.snapshot run) "/a/b.json" = None
  /\ row_gone (pending (snd run)) "T1" (JStr "b")
  /\ dict_get (tables (pending (snd run))) "T1" = Some (Sql.with_rows DemoKeyed.T1 [])
  /\ exists l,
       deleted (trace (snd upper)) = l
       /\ Forall (fun d : string * string * json => fst (fst d) <> "T1") l.
Proof.
  intros c prev run upper.
  destruct (reconcile_deletes_missing Demo.lib Demo.quiet [] prev [] c (snd run) eq_refl)
    as (H1 & H2 & _).
  split; [exact (H1 "/a/b.json" _ (or_introl eq_refl) (fun H => H))|].
  split.
  { exact (H2 (fun _ => eq_refl) "/a/b.json" _ (JStr "T1") (JStr "b") (or_introl eq_refl)
             (fun H => H) eq_refl). }
  split; [reflexivity|].
  destruct (reconcile_deletes_missing Demo.lib Demo.quiet [] prev []
              (connect DemoUpper.store true) (snd upper) eq_refl) as (_ & _ & H3).
  destruct (H3 "T1" ["IDENTIFIER"; "DocumentLocation"; "Value"])
    as (_ & l & Hl & Hall).
  - exists DemoUpper.T1. split; reflexivity.
  - cbn. intuition discriminate.
  - cbn. intuition discriminate.
  - exists l. split; [exact Hl | exact Hall].
Defined.

(** ** Database errors inside and outside the guarded block *)

(** Recording a status when the REPLACE or the commit fails: the
    exception leaves, after the statement that raised it. *)
Lemma record_and_commit_fault (W : world) (p : string) (row : state_row) (c : conn) :
  db_fault W (issued c) = true \/ db_fault W (S (issued c)) = true ->
  fst ((Webdav.replace_state W p row ;; commit W) c) = Raise server_fault
  /\ trace (snd ((Webdav.replace_state W p row ;; commit W) c))
     = (trace c ++ Exec (ReplaceState p row)
                   :: (if db_fault W (issued c) then [] else [Commit]))%list.
Proof.
  intros Hf. unfold Webdav.replace_state, bind, update, commit.
  destruct (db_fault W (issued c)) eqn:F0; cbn.
  - auto.
  - destruct Hf as [Hf|Hf]; [discriminate|]. rewrite Hf. cbn.
    rewrite <- app_assoc. auto.
Qed.

(** The turn of a document that cannot be processed: what is recorded,
    outside every handler. *)
Lemma process_item_unrouted (L : pylib) (W : world) (base_url schema_dir : string)
    (allowed : option (list string)) (state_map : pydict Webdav.prev_record)
    (item : entry) (c : conn) (row : state_row) :
  let url := Webdav.build_file_url L base_url (href item) in
  Webdav.unchanged (dict_get state_map (href item)) (etag item) (last_modified item) = false ->
  (exists exc,
      http_get_json W url = Raise exc
      /\ row = Webdav.state_of (etag item) (last_modified item) None None "error"
                 (Some ("download/parse error: " ++ exn_str exc)))
  \/ (exists data,
        http_get_json W url = Ok (JObj data)
        /\ py_get data "FileTypeIdentifier" <> JStr Webdav.FILE_TYPE_IDENTIFIER
        /\ row = Webdav.state_of (etag item) (last_modified item) None None "skipped"
                   (Some "invalid FileTypeIdentifier"))
  \/ (exists data,
        http_get_json W url = Ok (JObj data)
        /\ py_get data "FileTypeIdentifier" = JStr Webdav.FILE_TYPE_IDENTIFIER
        /\ (get_schema_id L data = None \/ get_schema_id L data = Some "")
        /\ row = Webdav.state_of (etag item) (last_modified item) None None "skipped"
                   (Some "missing SchemaID")) ->
  Webdav.process_item L W base_url schema_dir allowed state_map item c
  = (Webdav.replace_state W (href item) row ;; commit W) (snd (fetch W url c)).
Proof.
  intros url Hun Hcase. unfold Webdav.process_item. rewrite Hun, bind_attempt. fold url.
  unfold fetch at 1. cbn [fst].
  destruct Hcase as [(exc & Hget & ->) | [(data & Hget & Hmark & ->)
                                         | (data & Hget & Hmark & Hid & ->)]];
    rewrite Hget.
  - reflexivity.
  - destruct (scalar_eqb (py_get data "FileTypeIdentifier") (JStr Webdav.FILE_TYPE_IDENTIFIER))
      eqn:E.
    + apply scalar_eqb_str in E. contradiction.
    + reflexivity.
  - rewrite Hmark. unfold Webdav.FILE_TYPE_IDENTIFIER at 1. cbn [scalar_eqb].
    rewrite String.eqb_refl. cbn [negb]. destruct Hid as [-> | ->]; reflexivity.
Qed.

(** C8, amended.  Whatever the body of the [try] raises for a document, a
    database error of [process_file] or of the recording of its outcome
    included, is caught: the first thing done is the rollback.  When the
    rollback, the REPLACE that records the status [error] with the text of
    the exception, and the commit go through, the turn ends normally, the
    record is committed on top of what was committed before, the failed
    transaction is gone, and the loop goes on with the next document.
    When one of these three statements of the handler fails, the
    exception leaves the loop.  And so does a database error of the
    REPLACE or the commit that record a document that could not be
    downloaded or parsed, that has not the marker field, or that has no
    SchemaID: these are outside the [try], no rollback is issued, and the
    documents after it are not looked at. *)
Theorem processing_error_is_recorded (L : pylib) (W : world) (base_url schema_dir : string)
    (allowed : option (list string)) (state_map : pydict Webdav.prev_record)
    (item : entry) (c : conn) :
  let url := Webdav.build_file_url L base_url (href item) in
  let step := Webdav.process_item L W base_url schema_dir allowed state_map in
  Webdav.unchanged (dict_get state_map (href item)) (etag item) (last_modified item) = false ->
  (forall data schema_id exc c1,
      let identifier := Webdav.get_identifier L data (PyStr.path_stem (href item)) in
      let row := Webdav.state_of (etag item) (last_modified item) (Some schema_id)
                   (Some identifier) "error" (Some (exn_str exc)) in
      http_get_json W url = Ok (JObj data) ->
      py_get data "FileTypeIdentifier" = JStr Webdav.FILE_TYPE_IDENTIFIER ->
      get_schema_id L data = Some schema_id ->
      schema_id <> "" ->
      Webdav.process_and_record L W schema_dir url data schema_id identifier allowed item
        (snd (fetch W url c)) = (Raise exc, c1) ->
      (exists rest, trace (snd (step item c)) = (trace c1 ++ Rollback :: rest)%list)
      /\ (db_fault W (issued c1) = false ->
          db_fault W (S (issued c1)) = false ->
          db_fault W (S (S (issued c1))) = false ->
          fst (step item c) = Ok tt
          /\ trace (snd (step item c))
             = (trace c1 ++ [Rollback; Exec (ReplaceState (href item) row); Commit])%list
          /\ durable (snd (step item c)) = Sql.replace_state (href item) row (durable c1)
          /\ pending (snd (step item c)) = durable (snd (step item c))
          /\ forall rest,
               for_each step (item :: rest) c = for_each step rest (snd (step item c)))
      /\ (db_fault W (issued c1) = true \/ db_fault W (S (issued c1)) = true
          \/ db_fault W (S (S (issued c1))) = true ->
          fst (step item c) = Raise server_fault
          /\ forall rest,
               for_each step (item :: rest) c = (Raise server_fault, snd (step item c))))
  /\ (forall row,
        (exists exc,
            http_get_json W url = Raise exc
            /\ row = Webdav.state_of (etag item) (last_modified item) None None "error"
                       (Some ("download/parse error: " ++ exn_str exc)))
        \/ (exists data,
              http_get_json W url = Ok (JObj data)
              /\ py_get data "FileTypeIdentifier" <> JStr Webdav.FILE_TYPE_IDENTIFIER
              /\ row = Webdav.state_of (etag item) (last_modified item) None None "skipped"
                         (Some "invalid FileTypeIdentifier"))
        \/ (exists data,
              http_get_json W url = Ok (JObj data)
              /\ py_get data "FileTypeIdentifier" = JStr Webdav.FILE_TYPE_IDENTIFIER
              /\ (get_schema_id L data = None \/ get_schema_id L data = Some "")
              /\ row = Webdav.state_of (etag item) (last_modified item) None None "skipped"
                         (Some "missing SchemaID")) ->
        db_fault W (issued c) = true \/ db_fault W (S (issued c)) = true ->
        fst (step item c) = Raise server_fault
        /\ trace (snd (step item c))
           = (trace c ++ Fetch url :: Exec (ReplaceState (href item) row)
                         :: (if db_fault W (issued c) then [] else [Commit]))%list
        /\ forall rest,
             for_each step (item :: rest) c = (Raise server_fault, snd (step item c))).
Proof.
  intros url step Hun. split.
  - intros data schema_id exc c1 identifier row Hget Hmark Hid Hne Hraise.
    assert (Hstep : step item c
                    = Webdav.on_processing_error W schema_id identifier item exc c1).
    { subst step. unfold Webdav.process_item. rewrite Hun, bind_attempt. fold url.
      unfold fetch at 1. cbn [fst]. rewrite Hget, Hmark.
      unfold Webdav.FILE_TYPE_IDENTIFIER at 1. cbn [scalar_eqb].
      rewrite String.eqb_refl. cbn [negb]. rewrite Hid.
      destruct schema_id as [|ch s]; [congruence|].
      rewrite bind_attempt. fold identifier. rewrite Hraise. reflexivity. }
    split; [|split].
    + rewrite Hstep. unfold Webdav.on_processing_error, Webdav.replace_state, bind,
        rollback, update, commit. fold row.
      destruct (db_fault W (issued c1)); cbn.
      { now exists []. }
      destruct (db_fault W (S (issued c1))); cbn.
      { rewrite <- app_assoc. eexists; reflexivity. }
      destruct (db_fault W (S (S (issued c1)))); cbn; rewrite <- !app_assoc;
        eexists; reflexivity.
    + intros F0 F1 F2.
      assert (Hrun : Webdav.on_processing_error W schema_id identifier item exc c1
                = (Ok tt,
                   {| durable := Sql.replace_state (href item) row (durable c1);
                      pending := Sql.replace_state (href item) row (durable c1);
                      autocommit := autocommit c1;
                      issued := S (S (S (issued c1)));
                      trace := (trace c1
                                ++ [Rollback; Exec (ReplaceState (href item) row); Commit])%list
                   |})).
      { unfold Webdav.on_processing_error, Webdav.replace_state, bind, rollback, update,
          commit.
        fold row. rewrite F0. cbn. rewrite F1. cbn. rewrite F2. cbn.
        rewrite <- !app_assoc. reflexivity. }
      rewrite Hstep, Hrun. cbn [fst snd durable pending trace].
      split; [reflexivity|]. split; [reflexivity|]. split; [reflexivity|].
      split; [reflexivity|].
      intros rest. cbn [for_each]. rewrite bind_run, Hstep, Hrun. reflexivity.
    + intros Hfault.
      assert (Hrun : fst (Webdav.on_processing_error W schema_id identifier item exc c1)
                     = Raise server_fault).
      { unfold Webdav.on_processing_error, Webdav.replace_state, bind, rollback, update,
          commit.
        destruct (db_fault W (issued c1)) eqn:F0; cbn; [reflexivity|].
        destruct (db_fault W (S (issued c1))) eqn:F1; cbn; [reflexivity|].
        destruct Hfault as [H | [H | H]]; try discriminate. rewrite H. reflexivity. }
      rewrite Hstep. split; [exact Hrun|].
      intros rest. cbn [for_each]. rewrite bind_run, Hstep.
      destruct (Webdav.on_processing_error W schema_id identifier item exc c1) as [r c2].
      cbn [fst snd] in *. now subst r.
  - intros row Hcase Hfault.
    assert (Hstep : step item c
                    = (Webdav.replace_state W (href item) row ;; commit W)
                        (snd (fetch W url c))).
    { subst step url. now apply process_item_unrouted. }
    destruct (record_and_commit_fault W (href item) row (snd (fetch W url c)) Hfault)
      as [Hr Ht].
    rewrite Hstep. split; [exact Hr|]. split.
    + rewrite Ht. unfold fetch. cbn [snd trace issued]. now rewrite <- app_assoc.
    + intros rest. cbn [for_each]. rewrite bind_run, Hstep.
      destruct ((Webdav.replace_state W (href item) row ;; commit W) (snd (fetch W url c)))
        as [r c2].
      cbn [fst snd] in *. now subst r.
Qed.

Lemma processing_error_is_recorded_witness :
  let c := {| durable := Demo.store; pending := Demo.store; autocommit := false;
              issued := 3; trace := [] |} in
  let step := Webdav.process_item Demo.lib DemoFault.failed_insert DemoFault.base_url "schemas"
                None [] in
  let k := connect Demo.store false in
  let broken := Webdav.process_item Demo.lib
                  {| db_fault := fun n => Nat.eqb n 0;
                     http_get_json := http_get_json DemoFault.broken_download;
                     schema_store := schema_store DemoFault.broken_download;
                     propfind := propfind DemoFault.broken_download |}
                  DemoFault.base_url "schemas" None [] in
  fst (step DemoFault.first c) = Ok tt
  /\ durable (snd (step DemoFault.first c))
     = Sql.replace_state "/dav/EMPI-RF/a.json"
         (Webdav.state_of "e1" "Mon" (Some "T1") (Some "a") "error" (Some "server fault"))
         Demo.store
  /\ for_each broken [DemoFault.first; DemoFault.second] k
     = (Raise server_fault, snd (broken DemoFault.first k)).
Proof.
  intros c step k broken.
  pose proof (processing_error_is_recorded Demo.lib DemoFault.failed_insert
                DemoFault.base_url "schemas" None [] DemoFault.first c eq_refl) as [Hin _].
  destruct (Hin DemoFault.good "T1" server_fault
              (snd (Webdav.process_and_record Demo.lib DemoFault.failed_insert "schemas"
                      "https://cloud.example/dav/EMPI-RF/a.json" DemoFault.good "T1" "a" None
                      DemoFault.first
                      (snd (fetch DemoFault.failed_insert
                              "https://cloud.example/dav/EMPI-RF/a.json" c))))
              eq_refl eq_refl eq_refl ltac:(discriminate) eq_refl) as (_ & H & _).
  destruct (H eq_refl eq_refl eq_refl) as (H1 & _ & H3 & _).
  split; [exact H1|]. split; [exact H3|].
  pose proof (processing_error_is_recorded Demo.lib
                {| db_fault := fun n => Nat.eqb n 0;
                   http_get_json := http_get_json DemoFault.broken_download;
                   schema_store := schema_store DemoFault.broken_download;
                   propfind := propfind DemoFault.broken_download |}
                DemoFault.base_url "schemas" None [] DemoFault.first k eq_refl) as [_ Hout].
  destruct (Hout (Webdav.state_of "e1" "Mon" None None "error"
                    (Some "download/parse error: 500 Server Error"))) as (_ & _ & Hend).
  - left. exists (TransportError "500 Server Error"). split; reflexivity.
  - left. reflexivity.
  - apply Hend.
Defined.

(** ** The identifier of a document, and where it goes *)

Section WrittenByTurn.
Variable L : pylib.
Variable W : world.

Lemma keeps_commit {B} (proj : list event -> list B) :
  (forall a b, proj (a ++ b)%list = (proj a ++ proj b)%list) ->
  proj [Commit] = [] -> keeps proj (commit W).
Proof.
  intros Happ Hc c. unfold commit. destruct (db_fault W (issued c)); cbn;
    rewrite Happ, Hc; apply app_nil_r.
Qed.

Lemma keeps_rollback {B} (proj : list event -> list B) :
  (forall a b, proj (a ++ b)%list = (proj a ++ proj b)%list) ->
  proj [Rollback] = [] -> keeps proj (rollback W).
Proof.
  intros Happ Hc c. unfold rollback. destruct (db_fault W (issued c)); cbn;
    rewrite Happ, Hc; apply app_nil_r.
Qed.

Lemma record_keeps_written (p : string) (row : state_row) :
  keeps written (Webdav.replace_state W p row ;; commit W).
Proof.
  apply (keeps_bind written).
  - apply (keeps_update written written_app). reflexivity.
  - intros _. apply (keeps_commit written written_app). reflexivity.
Qed.

Lemma on_processing_error_keeps_written (schema_id identifier : string) (item : entry)
    (exc : exn) :
  keeps written (Webdav.on_processing_error W schema_id identifier item exc).
Proof.
  unfold Webdav.on_processing_error. apply (keeps_bind written).
  - apply (keeps_rollback written written_app). reflexivity.
  - intros _. apply record_keeps_written.
Qed.

(** What [process_file] of the remote ingester writes is the projection
    on the columns the table has at that moment. *)
Lemma webdav_process_file_written (schema_dir url : string) (data : pydict json)
    (schema_id identifier : string) (allowed : option (list string)) (c : conn) :
  let c' := snd (Webdav.process_file L W schema_dir url data schema_id identifier allowed c) in
  written (trace c') = written (trace c)
  \/ exists cols,
       Sql.show_columns schema_id (pending c) = Ok cols
       /\ written (trace c')
          = (written (trace c)
             ++ [(schema_id, cols, project_values L cols data (JStr identifier) (JStr url))])%list.
Proof.
  cbv zeta. unfold Webdav.process_file.
  destruct (match allowed with
            | Some l => negb (existsb (String.eqb schema_id) l)
            | None => false
            end); [now left|].
  destruct (schema_store W (path_join L schema_dir (schema_id ++ ".json"))) as [sf|]; [|now left].
  unfold Webdav.lift. unfold bind at 1.
  assert (Hmain :
            let k := (found <- table_exists W schema_id ;;
                      if negb found
                      then ret (false, "Table '" ++ schema_id ++ "' does not exist.")
                      else
                        columns <- get_columns W schema_id ;;
                        match columns with
                        | [] => ret (false, "Table '" ++ schema_id ++ "' has no columns.")
                        | _ :: _ =>
                            Webdav.insert_if_absent L W url data schema_id identifier columns
                        end) in
            written (trace (snd (k c))) = written (trace c)
            \/ exists cols,
                 Sql.show_columns schema_id (pending c) = Ok cols
                 /\ written (trace (snd (k c)))
                    = (written (trace c)
                       ++ [(schema_id, cols,
                            project_values L cols data (JStr identifier) (JStr url))])%list).
  { intros k.
    set (c2 := tick (Exec (ShowColumns schema_id)) (tick (Exec (ShowTablesLike schema_id)) c)).
    assert (Hbase : written (trace c2) = written (trace c)) by (subst c2; written_same).
    assert (Hcases :
              written (trace (snd (k c))) = written (trace c)
              \/ exists cols,
                   Sql.show_columns schema_id (pending c) = Ok cols
                   /\ k c = Webdav.insert_if_absent L W url data schema_id identifier cols c2).
    { subst k c2. unfold bind, table_exists, get_columns, query.
      destruct (db_fault W (issued c)); [left; written_same|].
      destruct (Sql.show_tables_like schema_id (pending c)); cbn [negb];
        [|left; written_same].
      cbn [tick issued pending].
      destruct (db_fault W (S (issued c))); [left; written_same|].
      destruct (Sql.show_columns schema_id (pending c)) as [cols|e]; [|left; written_same].
      destruct cols as [|col cols]; [left; written_same|].
      right. exists (col :: cols). split; reflexivity. }
    destruct Hcases as [Hsame|(cols & Hcols & Hk)]; [now left|].
    rewrite Hk.
    destruct (webdav_insert_written L W url schema_id identifier data cols c2) as [H|H].
    - left. now rewrite H.
    - right. exists cols. split; [exact Hcols|]. now rewrite H, Hbase. }
  destruct (Webdav.validate_payload L sf (JObj data)) as [[[|ch m]|]|e].
  - exact Hmain.
  - now left.
  - exact Hmain.
  - now left.
Qed.

Lemma process_and_record_written (schema_dir url : string) (data : pydict json)
    (schema_id identifier : string) (allowed : option (list string)) (item : entry)
    (c : conn) :
  written (trace (snd (Webdav.process_and_record L W schema_dir url data schema_id identifier
                         allowed item c)))
  = written (trace (snd (Webdav.process_file L W schema_dir url data schema_id identifier
                           allowed c))).
Proof.
  unfold Webdav.process_and_record. rewrite bind_run.
  destruct (Webdav.process_file L W schema_dir url data schema_id identifier allowed c)
    as [[[ok msg]|e] c1]; cbn [fst snd]; [|reflexivity].
  apply record_keeps_written.
Qed.

(** The turn of a document that is routed: what it writes, and what it
    has recorded when it ends without an exception. *)
Lemma routed_turn (base_url schema_dir : string) (allowed : option (list string))
    (state_map : pydict Webdav.prev_record) (item : entry) (c : conn)
    (data : pydict json) (schema_id : string) :
  let url := Webdav.build_file_url L base_url (href item) in
  let identifier := Webdav.get_identifier L data (PyStr.path_stem (href item)) in
  let r := Webdav.process_item L W base_url schema_dir allowed state_map item c in
  Webdav.unchanged (dict_get state_map (href item)) (etag item) (last_modified item) = false ->
  http_get_json W url = Ok (JObj data) ->
  py_get data "FileTypeIdentifier" = JStr Webdav.FILE_TYPE_IDENTIFIER ->
  get_schema_id L data = Some schema_id ->
  schema_id <> "" ->
  (written (trace (snd r)) = written (trace c)
   \/ exists cols,
        Sql.show_columns schema_id (pending c) = Ok cols
        /\ written (trace (snd r))
           = (written (trace c)
              ++ [(schema_id, cols,
                   project_values L cols data (JStr identifier) (JStr url))])%list)
  /\ (fst r = Ok tt ->
      exists row,
        dict_get (ingest_state (durable (snd r))) (href item) = Some row
        /\ sr_schema_id row = Some schema_id
        /\ sr_identifier row = Some identifier).
Proof.
  intros url identifier r Hun Hget Hmark Hid Hne. subst r.
  rewrite (process_item_routed L W base_url schema_dir allowed state_map item c data schema_id
             Hun Hget Hmark Hid Hne).
  fold url identifier. cbv zeta.
  set (cf := snd (fetch W url c)).
  assert (Hcf : written (trace cf) = written (trace c) /\ pending cf = pending c).
  { subst cf. unfold fetch. cbn. rewrite written_app. cbn. now rewrite app_nil_r. }
  destruct Hcf as [Hw Hp].
  pose proof (process_and_record_written schema_dir url data schema_id identifier allowed
                item cf) as Hrec.
  pose proof (webdav_process_file_written schema_dir url data schema_id identifier allowed cf)
    as Hfile.
  cbv zeta in Hfile. rewrite <- Hrec, Hw, Hp in Hfile.
  destruct (Webdav.process_and_record L W schema_dir url data schema_id identifier allowed
              item cf) as [[[]|exc] c1] eqn:Hrun; cbn [fst snd] in *.
  - split; [exact Hfile|]. intros _.
    destruct (process_and_record_ok L W _ _ _ _ _ _ _ _ _ Hrun)
      as (_ & d & status & err & Hd & _).
    rewrite Hd. eexists. split; [apply replace_state_get|]. split; reflexivity.
  - split.
    + rewrite (on_processing_error_keeps_written schema_id identifier item exc c1).
      exact Hfile.
    + intros Hok.
      destruct (Webdav.on_processing_error W schema_id identifier item exc c1)
        as [[[]|e] c2] eqn:Herr; cbn [fst snd] in *; [|discriminate].
      destruct (on_processing_error_ok W _ _ _ _ _ _ Herr) as (_ & Hd).
      rewrite Hd. eexists. split; [apply replace_state_get|]. split; reflexivity.
Qed.

End WrittenByTurn.

(** C10, amended.  A falsy [Identifier] counts as absent when the identifier
    of the document is computed, and so does a falsy [identifier], in both
    programs: with a falsy [Identifier] the identifier is the value of
    [identifier] if that is truthy, and with both absent or falsy it is
    the stem of the file name.  That identifier is the one in use: the
    directory ingester enters it in the snapshot, under the table named
    by the SchemaID, and projects with it in the one row it may write;
    the remote ingester projects with it in the one row it may write, and
    a turn that ends has recorded it, with the SchemaID, in the state of
    the path.  In the row, a column named [identifier] takes that
    identifier where the document has no value or null for it, and the
    value of the document, falsy or not, where it has one. *)
Theorem falsy_identifier_falls_back (L : pylib) (data : pydict json) :
  (py_truthy (py_get data "Identifier") = false ->
   (forall fallback,
       Webdav.get_identifier L data fallback
       = py_str L (py_or (py_get data "identifier") (JStr fallback)))
   /\ (forall file_path,
         Win.identifier_of data file_path
         = py_or (py_get data "identifier") (JStr (PyStr.path_stem file_path))))
  /\ (py_truthy (py_get data "Identifier") = false ->
      py_truthy (py_get data "identifier") = false ->
      (forall fallback, Webdav.get_identifier L data fallback = fallback)
      /\ (forall file_path,
            Win.identifier_of data file_path = JStr (PyStr.path_stem file_path)))
  /\ (forall column identifier location,
        str_lower L column = "identifier" ->
        project_value L data identifier location column
        = normalize_value L
            (match document_value L data column with
             | JNull => identifier
             | v => v
             end))
  /\ (forall (W : world) file_path prev_state seen st c schema_id,
        String.eqb (PyStr.path_name file_path) ".db_ingest_state.json" = false ->
        get_schema_id L data = Some schema_id ->
        schema_id <> "" ->
        py_in file_path prev_state = Ok seen ->
        let identifier := Win.identifier_of data file_path in
        let r := Win.scan_file L W (file_path, Some (JObj data)) prev_state st c in
        fst r
        = Ok (dict_set file_path
                {| Win.i_table := schema_id; Win.i_identifier := identifier |} st)
        /\ (written (trace (snd r)) = written (trace c)
            \/ exists cols,
                 Sql.show_columns schema_id (pending c) = Ok cols
                 /\ written (trace (snd r))
                    = (written (trace c)
                       ++ [(schema_id, cols,
                            project_values L cols data identifier (JStr file_path))])%list))
  /\ (forall (W : world) base_url schema_dir allowed state_map item c schema_id,
        let url := Webdav.build_file_url L base_url (href item) in
        let identifier := Webdav.get_identifier L data (PyStr.path_stem (href item)) in
        let r := Webdav.process_item L W base_url schema_dir allowed state_map item c in
        Webdav.unchanged (dict_get state_map (href item)) (etag item) (last_modified item)
        = false ->
        http_get_json W url = Ok (JObj data) ->
        py_get data "FileTypeIdentifier" = JStr Webdav.FILE_TYPE_IDENTIFIER ->
        get_schema_id L data = Some schema_id ->
        schema_id <> "" ->
        (written (trace (snd r)) = written (trace c)
         \/ exists cols,
              Sql.show_columns schema_id (pending c) = Ok cols
              /\ written (trace (snd r))
                 = (written (trace c)
                    ++ [(schema_id, cols,
                         project_values L cols data (JStr identifier) (JStr url))])%list)
        /\ (fst r = Ok tt ->
            exists row,
              dict_get (ingest_state (durable (snd r))) (href item) = Some row
              /\ sr_schema_id row = Some schema_id
              /\ sr_identifier row = Some identifier)).
Proof.
  split; [|split; [|split; [|split]]].
  - intros H1. split.
    + intros fallback. unfold Webdav.get_identifier, py_or at 1. now rewrite H1.
    + intros file_path. unfold Win.identifier_of, py_or at 1. now rewrite H1.
  - intros H1 H2. split.
    + intros fallback. unfold Webdav.get_identifier, py_or. now rewrite H1, H2.
    + intros file_path. unfold Win.identifier_of, py_or. now rewrite H1, H2.
  - intros column identifier location Hcol. rewrite project_value_spec, Hcol.
    reflexivity.
  - intros W file_path prev_state seen st c schema_id Hname Hid Hne Hseen identifier r.
    subst r identifier.
    rewrite (win_scan_file_processed L W file_path data prev_state seen st c schema_id
               Hname Hid Hne Hseen).
    cbn [fst snd]. split; [reflexivity|]. apply win_process_file_written.
  - intros W base_url schema_dir allowed state_map item c schema_id url identifier r
      Hun Hget Hmark Hid Hne.
    exact (routed_turn L W base_url schema_dir allowed state_map item c data schema_id
             Hun Hget Hmark Hid Hne).
Qed.

Lemma falsy_identifier_falls_back_witness :
  Webdav.get_identifier Demo.lib DemoFalsy.zero_identifier "b" = "b"
  /\ Win.identifier_of DemoFalsy.zero_identifier "/a/b.json" = JStr "b"
  /\ Win.identifier_of DemoFalsy.falsy_then_truthy "/a/b.json" = JStr "x"
  /\ project_value Demo.lib DemoFalsy.zero_identifier (JStr "b") (JStr "/a/b.json") "Identifier"
     = JInt 0
  /\ fst (Win.scan_file Demo.lib Demo.quiet ("/a/b.json", Some (JObj DemoFalsy.zero_identifier))
            (JObj []) [] (connect Demo.store true))
     = Ok [("/a/b.json", {| Win.i_table := "T1"; Win.i_identifier := JStr "b" |})].
Proof.
  pose proof (falsy_identifier_falls_back Demo.lib DemoFalsy.zero_identifier)
    as (_ & Hboth & Hcol & Hwin & _).
  destruct (Hboth eq_refl eq_refl) as [Hw Hd].
  split; [apply Hw|]. split; [apply Hd|]. split.
  { exact (proj2 (proj1 (falsy_identifier_falls_back Demo.lib DemoFalsy.falsy_then_truthy)
                    eq_refl) "/a/b.json"). }
  split.
  { rewrite (Hcol "Identifier" (JStr "b") (JStr "/a/b.json") eq_refl). reflexivity. }
  exact (proj1 (Hwin Demo.quiet "/a/b.json" (JObj []) false [] (connect Demo.store true) "T1"
                  eq_refl eq_refl ltac:(discriminate) eq_refl)).
Defined.

(** ** The row that is written *)

(** When the check under the row lock goes through and finds no row, the
    insert is issued. *)
Lemma insert_if_absent_writes (L : pylib) (W : world) (url t identifier : string)
    (data : pydict json) (cols : list string) (c : conn) :
  db_fault W (issued c) = false ->
  Sql.select_for_update t
    (if existsb (String.eqb "Identifier") cols then "Identifier" else "identifier")
    (JStr identifier) (pending c) = Ok false ->
  written (trace (snd (Webdav.insert_if_absent L W url data t identifier cols c)))
  = (written (trace c)
     ++ [(t, cols, project_values L cols data (JStr identifier) (JStr url))])%list.
Proof.
  intros F0 Hsel. unfold Webdav.insert_if_absent, bind, query, update, commit.
  rewrite F0, Hsel. cbn [tick issued pending].
  destruct (db_fault W (S (issued c))); [written_same|].
  destruct (Sql.insert _ _ _ _); [|written_same].
  cbn [store tick issued]. destruct (db_fault W (S (S (issued c)))); written_same.
Qed.

(** C4. The row either policy writes has one value for each column the
    table has at that moment, in the order of the columns.  The value of a
    column is the one of the document key that matches the column without
    regard to case; where the document has none (or null), it is the
    identifier for a column named [identifier], the location for one named
    [documentlocation], and NULL otherwise.  An object or an array goes in
    as its JSON text, a scalar as it is.  Either policy writes nothing
    else, and does write that row: the merge-write policy on a table that
    is there and has columns, when the two statements that look at the
    table go through; the insert-only policy there too, when the document
    is allowed and valid and the check under the row lock goes through
    and finds no row. *)
Theorem projection_complete (L : pylib) (column_list : list string) (data : pydict json)
    (identifier location : json) :
  let values := project_values L column_list data identifier location in
  length values = length column_list
  /\ Forall (fun v => is_container v = false) values
  /\ (forall i column, nth_error column_list i = Some column ->
        exists v, nth_error values i = Some v
          /\ (document_value L data column <> JNull ->
              v = if is_container (document_value L data column)
                  then JStr (json_dumps L (document_value L data column))
                  else document_value L data column)
          /\ (document_value L data column = JNull ->
              str_lower L column = "identifier" -> v = normalize_value L identifier)
          /\ (document_value L data column = JNull ->
              str_lower L column <> "identifier" ->
              str_lower L column = "documentlocation" -> v = normalize_value L location)
          /\ (document_value L data column = JNull ->
              str_lower L column <> "identifier" ->
              str_lower L column <> "documentlocation" -> v = JNull))
  /\ (forall column,
        Forall (fun kv => str_lower L (fst kv) <> str_lower L column) data ->
        document_value L data column = JNull)
  /\ (forall (W : world) file_path t c,
        let c' := snd (Win.process_file L W file_path t identifier data c) in
        written (trace c') = written (trace c)
        \/ exists cols,
             Sql.show_columns t (pending c) = Ok cols
             /\ written (trace c')
                = (written (trace c)
                   ++ [(t, cols, project_values L cols data identifier (JStr file_path))])%list)
  /\ (forall (W : world) file_path t c tb,
        db_fault W (issued c) = false ->
        db_fault W (S (issued c)) = false ->
        Sql.show_tables_like t (pending c) = true ->
        dict_get (tables (pending c)) t = Some tb ->
        columns tb <> [] ->
        let c' := snd (Win.process_file L W file_path t identifier data c) in
        written (trace c')
        = (written (trace c)
           ++ [(t, columns tb,
                project_values L (columns tb) data identifier (JStr file_path))])%list)
  /\ (forall (W : world) schema_dir url schema_id ident allowed c,
        let c' := snd (Webdav.process_file L W schema_dir url data schema_id ident allowed c) in
        written (trace c') = written (trace c)
        \/ exists cols,
             Sql.show_columns schema_id (pending c) = Ok cols
             /\ written (trace c')
                = (written (trace c)
                   ++ [(schema_id, cols,
                        project_values L cols data (JStr ident) (JStr url))])%list)
  /\ (forall (W : world) schema_dir url schema_id ident allowed c schema_file tb,
        match allowed with
        | Some l => existsb (String.eqb schema_id) l = true
        | None => True
        end ->
        schema_store W (path_join L schema_dir (schema_id ++ ".json")) = Some schema_file ->
        Webdav.validate_payload L schema_file (JObj data) = Ok None ->
        db_fault W (issued c) = false ->
        db_fault W (S (issued c)) = false ->
        db_fault W (S (S (issued c))) = false ->
        Sql.show_tables_like schema_id (pending c) = true ->
        dict_get (tables (pending c)) schema_id = Some tb ->
        columns tb <> [] ->
        Sql.select_for_update schema_id
          (if existsb (String.eqb "Identifier") (columns tb) then "Identifier" else "identifier")
          (JStr ident) (pending c) = Ok false ->
        let c' := snd (Webdav.process_file L W schema_dir url data schema_id ident allowed c) in
        written (trace c')
        = (written (trace c)
           ++ [(schema_id, columns tb,
                project_values L (columns tb) data (JStr ident) (JStr url))])%list).
Proof.
  cbv zeta.
  split; [unfold project_values; apply length_map|]. split.
  { unfold project_values. apply Forall_forall. intros v Hv. apply in_map_iff in Hv.
    destruct Hv as (col & <- & _). unfold project_value. apply normalize_value_scalar. }
  split.
  { intros i column Hi. exists (project_value L data identifier location column). split.
    - unfold project_values. rewrite nth_error_map, Hi. reflexivity.
    - rewrite project_value_spec. repeat split.
      + intros Hv. destruct (document_value L data column); try reflexivity. congruence.
      + intros -> Hid. apply String.eqb_eq in Hid. now rewrite Hid.
      + intros -> Hid Hloc. apply String.eqb_neq in Hid. apply String.eqb_eq in Hloc.
        now rewrite Hid, Hloc.
      + intros -> Hid Hloc. apply String.eqb_neq in Hid, Hloc. now rewrite Hid, Hloc. }
  split.
  { intros column HF. unfold document_value.
    now rewrite (proj1 (matching_key_spec L data column) HF). }
  split; [intros W file_path t c; apply win_process_file_written|].
  split.
  { intros W file_path t c tb F0 F1 Hlike Htb Hne.
    rewrite (win_process_file_writes L W file_path t identifier data c tb F0 F1 Hlike Htb Hne).
    rewrite (proj1 (update_trace W _ _ _)). cbn [tick trace].
    rewrite !written_app. cbn [written]. now rewrite !app_nil_r. }
  split; [intros W schema_dir url schema_id ident allowed c;
          apply webdav_process_file_written|].
  intros W schema_dir url schema_id ident allowed c schema_file tb Hal Hst Hval F0 F1 F2
    Hlike Htb Hne Hsel.
  assert (Hcols : Sql.show_columns schema_id (pending c) = Ok (columns tb)).
  { unfold Sql.show_columns, Sql.find_table. now rewrite Htb. }
  rewrite (webdav_process_file_reaches_write L W schema_dir url data schema_id ident allowed c
             schema_file (columns tb) Hal Hst Hval F0 F1 Hlike Hcols Hne).
  rewrite insert_if_absent_writes; [written_same | exact F2 | exact Hsel].
Qed.

Lemma projection_complete_witness :
  project_values Demo.lib ["Identifier"; "DocumentLocation"; "Value"; "Extra"]
    [("SchemaID", JStr "T1"); ("VALUE", JArr [])] (JStr "b") (JStr "/a/b.json")
  = [JStr "b"; JStr "/a/b.json"; JStr "[]"; JNull]
  /\ (exists v,
        nth_error [JStr "b"; JStr "/a/b.json"; JStr "[]"; JNull] 3 = Some v /\ v = JNull)
  /\ written (trace (snd (Win.process_file Demo.lib Demo.quiet "/a/b.json" "T1" (JStr "b")
                            Demo.doc (connect Demo.store true))))
     = [("T1", ["Identifier"; "DocumentLocation"; "Value"],
         [JStr "b"; JStr "/a/b.json"; JInt 42])]
  /\ written (trace (snd (Webdav.process_file Demo.lib DemoFault.failed_insert "schemas"
                            "https://cloud.example/dav/b.json" Demo.doc "T1" "b" None
                            (connect Demo.store false))))
     = [("T1", ["Identifier"; "DocumentLocation"; "Value"],
         [JStr "b"; JStr "https://cloud.example/dav/b.json"; JInt 42])].
Proof.
  split; [reflexivity|]. split; [|split].
  - pose proof (projection_complete Demo.lib
                  ["Identifier"; "DocumentLocation"; "Value"; "Extra"]
                  [("SchemaID", JStr "T1"); ("VALUE", JArr [])] (JStr "b") (JStr "/a/b.json"))
      as (_ & _ & Hcol & _).
    destruct (Hcol 3%nat "Extra" (eq_refl _)) as (v & Hv & _ & _ & _ & Hnull).
    exists v. split; [exact Hv|].
    apply Hnull; [reflexivity | discriminate | discriminate].
  - pose proof (projection_complete Demo.lib [] Demo.doc (JStr "b") (JStr "/a/b.json"))
      as (_ & _ & _ & _ & _ & Hwin & _).
    exact (Hwin Demo.quiet "/a/b.json" "T1" (connect Demo.store true) Demo.T1
             eq_refl eq_refl eq_refl eq_refl ltac:(discriminate)).
  - pose proof (projection_complete Demo.lib [] Demo.doc (JStr "b") (JStr "/a/b.json"))
      as (_ & _ & _ & _ & _ & _ & _ & Hweb).
    exact (Hweb DemoFault.failed_insert "schemas" "https://cloud.example/dav/b.json" "T1" "b"
             None (connect Demo.store false) (Ok (JObj [])) Demo.T1
             I eq_refl eq_refl eq_refl eq_refl eq_refl eq_refl eq_refl ltac:(discriminate)
             eq_refl).
Defined.
